(** * apy: the note-file parser and the Markdown/HTML converter

    A shallow embedding of [apy/convert.py] (the parser [_parse_file], the
    assembler [markdown_file_to_notes], the renderer [markdown_to_html] and
    the extractor [html_to_markdown] / [is_generated_html]) and, in the
    module [cli], of the part of [apy/cli.py] that adds parsed notes to the
    collection ([parse_notes_from_markdown], [markdown_to_html],
    [Anki.set_model], [Anki.add_notes_from_list], [Anki._add_note]).
    Further on: the screen texts ([plain_to_html], [clean_html],
    [html_to_screen] of both modules), the class [MyNote] of [cli.py]
    ([__repr__], [get_template], [edit], [toggle_markdown], [get_field],
    [get_tag_string]), [choose], and the notes added from a file or from a
    template.

    Python [str] values are modelled as [string]: one [ascii] per code point,
    so the texts covered are those whose code points lie in 0..255 (ASCII and
    Latin-1, which contains the six accented letters of the plain class).
    The character tables below are the ones Python uses on that range. *)

From Stdlib Require Import String Ascii List Bool Arith ZArith Lia.
From Stdlib Require Import DecimalString.
Import ListNotations.
Open Scope string_scope.

(** ** Characters *)

Definition code (c : ascii) : nat := nat_of_ascii c.

Definition in_range (lo hi : nat) (c : ascii) : bool :=
  Nat.leb lo (code c) && Nat.leb (code c) hi.

Definition LF : ascii := "010"%char.
Definition CR : ascii := "013"%char.

(** [str.isspace] and the regex class [\s]. *)
Definition isspace (c : ascii) : bool :=
  in_range 9 13 c || in_range 28 32 c || Nat.eqb (code c) 133 || Nat.eqb (code c) 160.

(** [str.isalnum]; the regex class [\w] is this plus the underscore. *)
Definition isalnum (c : ascii) : bool :=
  in_range 48 57 c || in_range 65 90 c || in_range 97 122 c
  || Nat.eqb (code c) 170 || in_range 178 179 c || Nat.eqb (code c) 181
  || in_range 185 186 c || in_range 188 190 c
  || in_range 192 214 c || in_range 216 246 c || in_range 248 255 c.

Definition isword (c : ascii) : bool := isalnum c || (c =? "_")%char.

Definition is_hash (c : ascii) : bool := (c =? "#")%char.

(** The regex [.] (without DOTALL): anything but a newline. *)
Definition is_dot (c : ascii) : bool := negb (c =? LF)%char.

Definition lower_char (c : ascii) : ascii :=
  if in_range 65 90 c || in_range 192 214 c || in_range 216 222 c
  then ascii_of_nat (code c + 32) else c.

(** ** Strings *)

Fixpoint take_while (p : ascii -> bool) (s : string) : string :=
  match s with
  | String c r => if p c then String c (take_while p r) else ""
  | EmptyString => ""
  end.

Fixpoint drop_while (p : ascii -> bool) (s : string) : string :=
  match s with
  | String c r => if p c then drop_while p r else s
  | EmptyString => ""
  end.

Fixpoint forallb_str (p : ascii -> bool) (s : string) : bool :=
  match s with
  | String c r => p c && forallb_str p r
  | EmptyString => true
  end.

Fixpoint map_str (f : ascii -> ascii) (s : string) : string :=
  match s with
  | String c r => String (f c) (map_str f r)
  | EmptyString => ""
  end.

Definition is_empty (s : string) : bool :=
  match s with EmptyString => true | _ => false end.

(** [s[len(p):]] when [s.startswith(p)]. *)
Fixpoint strip_prefix (p s : string) : option string :=
  match p, s with
  | EmptyString, _ => Some s
  | String a p', String b s' => if (a =? b)%char then strip_prefix p' s' else None
  | String _ _, EmptyString => None
  end.

Definition startswith (s p : string) : bool :=
  match strip_prefix p s with Some _ => true | None => false end.

(** [str.lower] *)
Definition lower (s : string) : string := map_str lower_char s.

(** [str.lstrip], [str.rstrip], [str.strip] without argument. *)
Definition lstrip (s : string) : string := drop_while isspace s.

Fixpoint rstrip (s : string) : string :=
  match s with
  | String c r =>
      let r' := rstrip r in
      if is_empty r' && isspace c then "" else String c r'
  | EmptyString => ""
  end.

Definition strip (s : string) : string := rstrip (lstrip s).

(** [str.split()] without argument: the maximal runs of non-space
    characters.  [cur] is the run being read. *)
Fixpoint split_from (cur s : string) : list string :=
  match s with
  | String c r =>
      if isspace c
      then (if is_empty cur then split_from "" r else cur :: split_from "" r)
      else split_from (cur ++ String c "") r
  | EmptyString => if is_empty cur then [] else [cur]
  end.

Definition split (s : string) : list string := split_from "" s.

(** [str.replace(old, new)] for a non-empty [old]: the occurrences are taken
    from left to right and do not overlap.  [skip] counts the characters of
    a match that remain to be passed over. *)
Fixpoint replace_from (old new : string) (skip : nat) (s : string) : string :=
  match s with
  | String c r =>
      match skip with
      | S k => replace_from old new k r
      | O =>
          if startswith s old
          then new ++ replace_from old new (String.length old - 1) r
          else String c (replace_from old new 0 r)
      end
  | EmptyString => ""
  end.

Definition replace (s old new : string) : string := replace_from old new 0 s.

(** [old in s] *)
Fixpoint occurs (old s : string) : bool :=
  startswith s old ||
  match s with
  | String _ r => occurs old r
  | EmptyString => false
  end.

Fixpoint concat_str (l : list string) : string :=
  match l with
  | x :: r => x ++ concat_str r
  | [] => ""
  end.

(** ** Dictionaries

    A Python [dict] keeps its keys in insertion order; assigning to a key
    that is present replaces the value where it stands. *)

Definition dict (V : Type) : Type := list (string * V).

Section Dict.
Context {V : Type}.

Fixpoint dict_get (d : dict V) (k : string) : option V :=
  match d with
  | (k', v) :: r => if (k' =? k) then Some v else dict_get r k
  | [] => None
  end.

(** [k in d] *)
Definition dict_contains (k : string) (d : dict V) : bool :=
  match dict_get d k with Some _ => true | None => false end.

(** [d[k] = v] *)
Fixpoint dict_set (d : dict V) (k : string) (v : V) : dict V :=
  match d with
  | (k', v') :: r =>
      if (k' =? k) then (k', v) :: r else (k', v') :: dict_set r k v
  | [] => [(k, v)]
  end.

(** [d.update(other)] *)
Definition dict_update (d other : dict V) : dict V :=
  fold_left (fun acc kv => dict_set acc (fst kv) (snd kv)) other d.

(** [d.pop(k)] for a key that is present *)
Fixpoint dict_pop (d : dict V) (k : string) : dict V :=
  match d with
  | (k', v') :: r => if (k' =? k) then r else (k', v') :: dict_pop r k
  | [] => []
  end.

Definition keys (d : dict V) : list string := map fst d.
Definition values (d : dict V) : list V := map snd d.

(** truth value of a dict: non-empty *)
Definition dict_truthy (d : dict V) : bool :=
  match d with [] => false | _ => true end.
End Dict.

(** ** Values, exceptions *)

(** What the parser stores in a note record: property values and the title
    are strings, ['fields'] is a dict of strings, and the assembler turns the
    markdown flag into a bool. *)
Inductive pyval : Type :=
| VStr (s : string)
| VBool (b : bool)
| VDict (d : dict string).

Inductive exn : Type :=
| Abort            (* click.Abort *)
| KeyError
| TypeError
| AttributeError
| ValueError       (* binascii.Error, UnicodeDecodeError *)
| IndexError.

Inductive result (A : Type) : Type :=
| Ok (a : A)
| Raise (e : exn).
Arguments Ok {A} a.
Arguments Raise {A} e.

Definition bind {A B : Type} (m : result A) (k : A -> result B) : result B :=
  match m with
  | Ok a => k a
  | Raise e => Raise e
  end.

Notation "x <- m ;; k" := (bind m (fun x => k))
  (at level 61, m at next level, right associativity).

(** ** The line patterns of [_parse_file] *)

Definition fence : string := "```".

(** [re.match(r'```\s*$', line)] *)
Definition is_close_fence (line : string) : bool :=
  match strip_prefix fence line with
  | Some r => is_empty (drop_while isspace r)
  | None => false
  end.

(** [re.match(r'```\w*\s*$', line)] *)
Definition is_open_fence (line : string) : bool :=
  match strip_prefix fence line with
  | Some r => is_empty (drop_while isspace (drop_while isword r))
  | None => false
  end.

(** The property pattern: a group of one or more [\w], then a colon and a
    space, then a group with the rest of the line (any characters but a
    newline).  Returns the two groups. *)
Definition property_match (line : string) : option (string * string) :=
  let k := take_while isword line in
  if is_empty k then None
  else match strip_prefix ": " (drop_while isword line) with
       | Some v => Some (k, take_while is_dot v)
       | None => None
       end.

(** The heading pattern: a group of one or more [#], then any run of [\s],
    then a group with the rest of the line (any characters but a newline).
    Returns the two groups. *)
Definition heading_match (line : string) : option (string * string) :=
  let level := take_while is_hash line in
  if is_empty level then None
  else Some (level,
             take_while is_dot (drop_while isspace (drop_while is_hash line))).

(** ** [_parse_file]: the line automaton *)

(** The local variables of [_parse_file]. *)
Record pstate : Type := mk_pstate {
  defaults : dict pyval;
  notes : list (dict pyval);
  note : dict pyval;
  codeblock : bool;
  field : option string      (* [None] or the current field's title *)
}.

Definition init_state : pstate :=
  mk_pstate [] [] [] false None.

(** [if field:] is false for [None] and for the empty title. *)
Definition field_open (f : option string) : bool :=
  match f with
  | Some t => negb (is_empty t)
  | None => false
  end.

Definition field_title (f : option string) : string :=
  match f with Some t => t | None => "" end.

Definition set_note (st : pstate) (n : dict pyval) : pstate :=
  mk_pstate (defaults st) (notes st) n (codeblock st) (field st).

Definition set_codeblock (st : pstate) (b : bool) : pstate :=
  mk_pstate (defaults st) (notes st) (note st) b (field st).

(** [note['fields']], as the container a subscript is then applied to:
    a missing key raises [KeyError], and a string there (left by a property
    line named [fields]) takes no string subscript. *)
Definition note_fields (n : dict pyval) : result (dict string) :=
  match dict_get n "fields" with
  | Some (VDict d) => Ok d
  | Some _ => Raise TypeError
  | None => Raise KeyError
  end.

(** [note['fields'][f] = g(note['fields'][f])]; the dict under ['fields']
    is updated in place. *)
Definition modify_field (n : dict pyval) (f : string) (g : string -> string)
  : result (dict pyval) :=
  d <- note_fields n ;;
  match dict_get d f with
  | Some old => Ok (dict_set n "fields" (VDict (dict_set d f (g old))))
  | None => Raise KeyError
  end.

(** [note['fields'][field] += line] *)
Definition append_line (st : pstate) (line : string) : result pstate :=
  n <- modify_field (note st) (field_title (field st)) (fun old => old ++ line) ;;
  Ok (set_note st n).

(** [note['fields'][field] = note['fields'][field].strip()] *)
Definition strip_field (st : pstate) : result pstate :=
  n <- modify_field (note st) (field_title (field st)) strip ;;
  Ok (set_note st n).

(** [note['fields'][field] = ''] *)
Definition new_field (n : dict pyval) (f : string) : result (dict pyval) :=
  d <- note_fields n ;;
  Ok (dict_set n "fields" (VDict (dict_set d f ""))).

(** The branch for a heading of level 1. *)
Definition level1 (st : pstate) (title : string) : result pstate :=
  st1 <- (if dict_truthy (note st) then
            if field_open (field st) then
              st' <- strip_field st ;;
              Ok (mk_pstate (defaults st') (notes st' ++ [note st'])%list
                            (note st') (codeblock st') (field st'))
            else
              Ok (mk_pstate (dict_update (defaults st) (note st)) (notes st)
                            (note st) (codeblock st) (field st))
          else Ok st) ;;
  Ok (mk_pstate (defaults st1) (notes st1)
                [("title", VStr title); ("fields", VDict [])]
                (codeblock st1) None).

(** The branch for a heading of level 2. *)
Definition level2 (st : pstate) (title : string) : result pstate :=
  st1 <- (if field_open (field st) then strip_field st else Ok st) ;;
  if dict_contains title (note st1) then Raise Abort
  else
    n <- new_field (note st1) title ;;
    Ok (mk_pstate (defaults st1) (notes st1) n (codeblock st1) (Some title)).

(** One iteration of the loop over the lines. *)
Definition step (st : pstate) (line : string) : result pstate :=
  if codeblock st then
    st1 <- (if field_open (field st) then append_line st line else Ok st) ;;
    Ok (if is_close_fence line then set_codeblock st1 false else st1)
  else if is_open_fence line then
    let st1 := set_codeblock st true in
    if field_open (field st1) then append_line st1 line else Ok st1
  else
    match (if field_open (field st) then None else property_match line) with
    | Some (k, v) =>
        let k := lower k in
        let k := if k =? "tag" then "tags" else k in
        Ok (set_note st (dict_set (note st) k (VStr (strip v))))
    | None =>
        match heading_match line with
        | None =>
            if field_open (field st) then append_line st line else Ok st
        | Some (level, title) =>
            if Nat.eqb (String.length level) 1 then level1 st title
            else if Nat.eqb (String.length level) 2 then level2 st title
            else Ok st
        end
    end.

Fixpoint run (st : pstate) (lines : list string) : result pstate :=
  match lines with
  | line :: rest => st' <- step st line ;; run st' rest
  | [] => Ok st
  end.

(** The statements after the loop. *)
Definition finish (st : pstate) : result (dict pyval * list (dict pyval)) :=
  if dict_truthy (note st) && field_open (field st) then
    st' <- strip_field st ;;
    Ok (defaults st', (notes st' ++ [note st'])%list)
  else Ok (defaults st, notes st).

(** Reading a text file in Python's default mode turns each carriage
    return, with the line feed that may follow it, into one line feed. *)
Fixpoint universal_newlines (s : string) : string :=
  match s with
  | String c r =>
      if (c =? CR)%char then
        String LF (match r with
                   | String c' r' =>
                       if (c' =? LF)%char then universal_newlines r'
                       else universal_newlines r
                   | EmptyString => ""
                   end)
      else String c (universal_newlines r)
  | EmptyString => ""
  end.

(** Iterating over a file: the lines, each with its newline. *)
Fixpoint file_lines (s : string) : list string :=
  match s with
  | String c r =>
      if (c =? LF)%char then String c "" :: file_lines r
      else match file_lines r with
           | l :: ls => String c l :: ls
           | [] => [String c ""]
           end
  | EmptyString => []
  end.

(** [_parse_file], on the content of the file. *)
Definition _parse_file (content : string)
  : result (dict pyval * list (dict pyval)) :=
  st <- run init_state (file_lines (universal_newlines content)) ;;
  finish st.

(** A text given line by line, each line ended by a newline. *)
Fixpoint text (lines : list string) : string :=
  match lines with
  | l :: r => l ++ String LF (text r)
  | [] => ""
  end.

(** ** [markdown_file_to_notes]: the assembler *)

(** [v in ('true', 'yes')] *)
Definition in_true_yes (v : pyval) : bool :=
  match v with
  | VStr s => (s =? "true") || (s =? "yes")
  | _ => false
  end.

(** The block under the comment "Parse markdown flag". *)
Definition parse_markdown_flag (d : dict pyval) : dict pyval :=
  match dict_get d "markdown" with
  | Some v => dict_set d "markdown" (VBool (in_true_yes v))
  | None =>
      match dict_get d "md" with
      | Some v => dict_pop (dict_set d "markdown" (VBool (in_true_yes v))) "md"
      | None => d
      end
  end.

(** The block under the comment "Remove comma from tag list":
    [d['tags'] = d['tags'].replace(',', '')]; only a string has [replace]. *)
Definition remove_comma (d : dict pyval) : result (dict pyval) :=
  match dict_get d "tags" with
  | Some (VStr s) => Ok (dict_set d "tags" (VStr (replace s "," "")))
  | Some _ => Raise AttributeError
  | None => Ok d
  end.

Definition explicit_defaults : dict pyval :=
  [("model", VStr "Basic"); ("markdown", VBool true); ("tags", VStr "")].

(** The body of the loop over the notes. *)
Definition complete_note (dflt n : dict pyval) : result (dict pyval) :=
  n <- remove_comma (parse_markdown_flag n) ;;
  Ok (dict_update n
        (filter (fun kv => negb (dict_contains (fst kv) n)) dflt)).

Fixpoint map_result {A B : Type} (f : A -> result B) (l : list A)
  : result (list B) :=
  match l with
  | x :: r => y <- f x ;; ys <- map_result f r ;; Ok (y :: ys)
  | [] => Ok []
  end.

(** What [markdown_file_to_notes] does with the two values [_parse_file]
    returned. *)
Definition assemble (dflt : dict pyval) (ns : list (dict pyval))
  : result (list (dict pyval)) :=
  dflt <- remove_comma (parse_markdown_flag dflt) ;;
  let dflt := dict_update explicit_defaults dflt in
  map_result (complete_note dflt) ns.

Definition markdown_file_to_notes (content : string)
  : result (list (dict pyval)) :=
  p <- _parse_file content ;;
  assemble (fst p) (snd p).

(** ** The HTML tree and the libraries behind the converter

    [markdown.markdown], the [BeautifulSoup] parser and serialiser,
    [re.sub], [base64] and the UTF-8 codec are not code of this repository.
    The converter is written over a record of them; what it relies on is
    stated in [LibLaws] below. *)

Set Warnings "-register-all".

(** A node of a BeautifulSoup tree: a [Tag], or anything else (strings,
    comments, ...). *)
Inductive node : Type :=
| Tag (name : string) (attrs : dict string) (contents : list node)
| NavigableString (s : string).

(** The children of the root object. *)
Definition soup : Type := list node.

Definition bytes : Type := list ascii.

(** The extensions the two renderers load. *)
Inductive extension : Type :=
| Tables
| Abbr
| CodeHilite    (* noclasses, no line numbers, style friendly, no guessing *)
| DefList
| FencedCode
| Footnote.

Record Libs : Type := mk_libs {
  (** [markdown.markdown(text, extensions=[...], output_format="html5")] *)
  markdown_markdown : list extension -> string -> string;
  (** [BeautifulSoup(html, 'html.parser')] *)
  BeautifulSoup : string -> soup;
  (** [str(tree)] *)
  soup_str : soup -> string;
  (** [re.sub(pattern, repl, string)] *)
  re_sub : string -> string -> string -> string;
  (** [base64.b64encode], [base64.b64decode] *)
  b64encode : bytes -> bytes;
  b64decode : bytes -> result bytes;
  (** [str.encode('utf-8')], [bytes.decode('utf-8')] *)
  utf8_encode : string -> bytes;
  utf8_decode : bytes -> result string
}.

(** The user's configuration [cfg]: the inline styles, when the key
    ['subfields'] is present; each maps a tag name to its ['begin'] and
    ['end'] strings. *)
Record style : Type := mk_style { s_begin : string; s_end : string }.
Record config : Type := mk_config { subfields : option (dict style) }.

Definition marker : string := "data-original-markdown".

(** [_get_first_tag]: the first [Tag] among the children. *)
Fixpoint _get_first_tag (tree : soup) : option node :=
  match tree with
  | Tag name attrs contents :: _ => Some (Tag name attrs contents)
  | NavigableString _ :: rest => _get_first_tag rest
  | [] => None
  end.

Definition tag_attrs (t : node) : dict string :=
  match t with
  | Tag _ attrs _ => attrs
  | NavigableString _ => []
  end.

(** [tag[k] = v] for the tag [_get_first_tag] returned: the tag is a node
    of the tree, so the assignment changes the tree. *)
Fixpoint set_first_tag_attr (tree : soup) (k v : string) : soup :=
  match tree with
  | Tag name attrs contents :: rest =>
      Tag name (dict_set attrs k v) contents :: rest
  | NavigableString s :: rest => NavigableString s :: set_first_tag_attr rest k v
  | [] => []
  end.

Definition nbsp : string := String "160"%char "".
Definition nbsp_utf8 : string := String "194"%char (String "160"%char "").
Definition newline : string := String LF "".

Definition plain_char (c : ascii) : bool :=
  in_range 97 122 c || in_range 65 90 c || in_range 48 57 c
  || Nat.eqb (code c) 230 || Nat.eqb (code c) 248 || Nat.eqb (code c) 229
  || Nat.eqb (code c) 198 || Nat.eqb (code c) 216 || Nat.eqb (code c) 197
  || (c =? " ")%char || (c =? ",")%char || (c =? ".")%char
  || (c =? "?")%char || (c =? "+")%char || (c =? "-")%char.

(** The test that opens [markdown_to_html]: a run of plain characters up to
    the end of the text or up to a newline that ends it. *)
Definition is_plain (plain : string) : bool :=
  let r := drop_while plain_char plain in
  is_empty r || (r =? newline).

Section Converter.
Variable L : Libs.
Variable cfg : config.

(** [config_styles] *)
Definition config_styles (plain subfield : string) (rep : style) : string :=
  re_sub L
    ("<(" ++ subfield ++ ")>([\w\s\d.,&\n]*?)</" ++ subfield ++ ">")
    (s_begin rep ++ "\2" ++ s_end rep)
    plain.

(** The text [markdown_to_html] renders and stores, from its argument:
    the replacements and the inline styles. *)
Definition escape (plain : string) : string :=
  let plain := replace plain "\\" "\\\\" in
  let plain := replace plain "\{" "\\{" in
  let plain := replace plain "\}" "\\}" in
  let plain := replace plain "*}" "\*}" in
  let plain := replace (replace plain nbsp_utf8 " ") nbsp " " in
  let plain := replace plain "\[" "\\[" in
  let plain := replace plain "\]" "\\]" in
  let plain := replace plain "\(" "\\(" in
  let plain := replace plain "\)" "\\)" in
  match subfields cfg with
  | Some sf =>
      fold_left (fun p kv => config_styles p (fst kv) (snd kv)) sf plain
  | None => plain
  end.

(** The value of the attribute: the text with its newlines as line
    breaks, in base64. *)
Definition original_html (plain : string) : result string :=
  utf8_decode L (b64encode L (utf8_encode L (replace plain newline "<br />"))).

Definition markdown_to_html (plain : string) : result string :=
  if is_plain plain then Ok plain
  else
    let plain := escape plain in
    let html :=
      markdown_markdown L
        [Tables; Abbr; CodeHilite; DefList; FencedCode; Footnote] plain in
    let html_tree := BeautifulSoup L html in
    let html_tree :=
      match _get_first_tag html_tree with
      | Some _ => html_tree
      | None =>
          let html := if is_empty html then "&nbsp;" else html in
          BeautifulSoup L ("<div>" ++ html ++ "</div>")
      end in
    v <- original_html plain ;;
    match _get_first_tag html_tree with
    | Some _ => Ok (soup_str L (set_first_tag_attr html_tree marker v))
    | None => Raise TypeError
    end.

Definition html_to_markdown (html : string) : result string :=
  match _get_first_tag (BeautifulSoup L html) with
  | None => Raise TypeError
  | Some tag =>
      match dict_get (tag_attrs tag) marker with
      | None => Raise KeyError
      | Some v =>
          b <- b64decode L (utf8_encode L v) ;;
          converted <- utf8_decode L b ;;
          Ok (replace (replace converted "<br>" newline) "<br />" newline)
      end
  end.

Definition is_generated_html (html : option string) : bool :=
  match html with
  | None => false
  | Some html =>
      match _get_first_tag (BeautifulSoup L html) with
      | Some tag => dict_contains marker (tag_attrs tag)
      | None => false
      end
  end.
End Converter.

(** ** [apy/cli.py]

    The module has its own copies of the parser and of the converter, and
    the class [Anki].  [_parse_file], [html_to_markdown],
    [is_generated_html] and [get_first_tag] are, statement for statement,
    those of [convert.py]; the assembler and the renderer differ.

    The collection is the external note store.  Of it the two methods use
    the note types (the models, each an ordered list of field names), the
    current model, the notes added, and the test for duplicates; what they
    print goes to [console]. *)
Module cli.

Record model : Type := mk_model { m_name : string; flds : list string }.

(** A note of the collection: its fields and the tags given to [addTag],
    in the order of the calls. *)
Record anki_note : Type := mk_note {
  n_model : model;
  n_fields : list string;
  n_tags : list string
}.

Record Anki : Type := mk_anki {
  current : model;                    (* [col.models.current()] *)
  models : list (nat * model);        (* [col.models.get(id)] *)
  model_name_to_id : dict nat;
  col_notes : list anki_note;         (* added by [col.addNote] *)
  modified : bool;
  console : list string               (* [click.echo], [click.secho] *)
}.

Definition echo (a : Anki) (msg : string) : Anki :=
  mk_anki (current a) (models a) (model_name_to_id a) (col_notes a)
          (modified a) (console a ++ [msg])%list.

Definition set_modified (a : Anki) (b : bool) : Anki :=
  mk_anki (current a) (models a) (model_name_to_id a) (col_notes a)
          b (console a).

Definition set_current (a : Anki) (m : model) : Anki :=
  mk_anki m (models a) (model_name_to_id a) (col_notes a)
          (modified a) (console a).

Definition add_to_col (a : Anki) (n : anki_note) : Anki :=
  mk_anki (current a) (models a) (model_name_to_id a) (col_notes a ++ [n])%list
          (modified a) (console a).

Fixpoint models_get (ms : list (nat * model)) (id : nat) : option model :=
  match ms with
  | (i, m) :: r => if Nat.eqb i id then Some m else models_get r id
  | [] => None
  end.

(** [self.col.models.get(self.model_name_to_id.get(model_string))] *)
Definition find_model (a : Anki) (model_string : string) : option model :=
  match dict_get (model_name_to_id a) model_string with
  | Some id => models_get (models a) id
  | None => None
  end.

(** [Anki.set_model] *)
Definition set_model (a : Anki) (model_string : string) : Anki * result model :=
  if m_name (current a) =? model_string then (a, Ok (current a))
  else
    match find_model a model_string with
    | None =>
        (echo a ("Model " ++ String "034"%char model_string
                 ++ String "034"%char " was not recognized!"),
         Raise Abort)
    | Some m => (set_current a m, Ok m)
    end.

(** Truth value of a Python value. *)
Definition truthy (v : pyval) : bool :=
  match v with
  | VStr s => negb (is_empty s)
  | VBool b => b
  | VDict d => dict_truthy d
  end.

(** The tags [Anki._add_note] gives to the note, from its argument [tags]:
    [tags.strip().split()]. *)
Definition split_tags (tags : string) : list string := split (strip tags).

(** The text of the warning of [add_notes_from_list]. *)
Definition inconsistent (x y : string) : string :=
  "Warning: Inconsistent field names (" ++ x ++ " != " ++ y ++ ")".

(** [parse_notes_from_markdown]: the default of the markdown flag, then
    the properties of each note. *)
Definition default_markdown (dflt : dict pyval) : bool * dict pyval :=
  match dict_get dflt "markdown" with
  | Some v => (in_true_yes v, dict_pop dflt "markdown")
  | None =>
      match dict_get dflt "md" with
      | Some v => (in_true_yes v, dict_pop dflt "md")
      | None => (true, dflt)
      end
  end.

(** [d.get(k, v)] *)
Definition get_or (d : dict pyval) (k : string) (v : pyval) : pyval :=
  match dict_get d k with Some x => x | None => v end.

(** The body of the loop over the notes. *)
Definition complete_note (dflt : dict pyval) (def_markdown : bool)
           (n : dict pyval) : result (dict pyval) :=
  let n := if dict_contains "model" n then n
           else dict_set n "model" (get_or dflt "model" (VStr "Basic")) in
  n <- match dict_get n "tags" with
       | Some (VStr t) => Ok (dict_set n "tags" (VStr (replace t "," "")))
       | Some _ => Raise AttributeError
       | None => Ok (dict_set n "tags" (get_or dflt "tags" (VStr "marked")))
       end ;;
  match dict_get n "markdown" with
  | Some v => Ok (dict_set n "markdown" (VBool (in_true_yes v)))
  | None =>
      match dict_get n "md" with
      | Some v =>
          Ok (dict_pop (dict_set n "markdown" (VBool (in_true_yes v))) "md")
      | None => Ok (dict_set n "markdown" (VBool def_markdown))
      end
  end.

(** The copy of [_parse_file] in [cli.py]. *)
Definition _parse_file (content : string)
  : result (dict pyval * list (dict pyval)) :=
  _parse_file content.

Definition parse_notes_from_markdown (content : string)
  : result (list (dict pyval)) :=
  p <- _parse_file content ;;
  let (def_markdown, dflt) := default_markdown (fst p) in
  dflt <- remove_comma dflt ;;
  map_result (complete_note dflt def_markdown) (snd p).

(** The copy of [_get_first_tag] in [cli.py]. *)
Definition get_first_tag (tree : soup) : option node := _get_first_tag tree.

Section WithLibs.
Variable L : Libs.

(** [markdown_to_html] of [cli.py]: no escapes for LaTeX, no inline styles,
    no tables. *)
Definition markdown_to_html (plain : string) : result string :=
  if is_plain plain then Ok plain
  else
    let plain := replace (replace plain nbsp_utf8 " ") nbsp " " in
    let plain := replace plain "\[" "\\[" in
    let plain := replace plain "\]" "\\]" in
    let plain := replace plain "\(" "\\(" in
    let plain := replace plain "\)" "\\)" in
    let html :=
      markdown_markdown L [Abbr; CodeHilite; DefList; FencedCode; Footnote]
                        plain in
    let html_tree := BeautifulSoup L html in
    let html_tree :=
      match get_first_tag html_tree with
      | Some _ => html_tree
      | None =>
          let html := if is_empty html then "&nbsp;" else html in
          BeautifulSoup L ("<div>" ++ html ++ "</div>")
      end in
    v <- original_html L plain ;;
    match get_first_tag html_tree with
    | Some _ => Ok (soup_str L (set_first_tag_attr html_tree marker v))
    | None => Raise TypeError
    end.

(** [note.dupeOrEmpty()], decided by the collection *)
Variable dupeOrEmpty : Anki -> anki_note -> bool.

(** [Anki._add_note]; the note it returns stands for the [MyNote]. *)
Definition _add_note (a : Anki) (fields : list string) (tags : string)
           (markdown : pyval) : Anki * result anki_note :=
  match (if truthy markdown then map_result markdown_to_html fields
         else Ok fields) with
  | Raise e => (a, Raise e)
  | Ok fs =>
      let n := mk_note (current a) fs (split_tags tags) in
      if negb (dupeOrEmpty a n) then
        (set_modified (add_to_col a n) true, Ok n)
      else
        let a := echo (echo a "Dupe detected, note was not added!") "Question:" in
        match fields with
        | f :: _ => (echo a f, Ok n)
        | [] => (a, Raise IndexError)
        end
  end.

(** The body of the loop of [add_notes_from_list], for one parsed note.
    The notes are those of [parse_notes_from_markdown]: the model and the
    tags are strings, and ['fields'] is a dict (lemma [parsed_notes_shape]);
    a record of another kind is outside what is modelled and is reported as
    an error of the type that does not fit. *)
Definition add_parsed_note (a : Anki) (tags : string) (n : dict pyval)
  : Anki * result anki_note :=
  match dict_get n "model" with
  | None => (a, Raise KeyError)
  | Some (VBool _) | Some (VDict _) => (a, Raise TypeError)
  | Some (VStr model_name) =>
      match set_model a model_name with
      | (a, Raise e) => (a, Raise e)
      | (a, Ok m) =>
          let model_field_names := flds m in
          match dict_get n "fields" with
          | None => (a, Raise KeyError)
          | Some (VStr _) | Some (VBool _) => (a, Raise AttributeError)
          | Some (VDict fs) =>
              let field_names := keys fs in
              let field_values := values fs in
              if negb (Nat.eqb (List.length field_names)
                               (List.length model_field_names)) then
                (set_modified
                   (echo a ("Error: Not enough fields for model "
                            ++ model_name ++ "!")) false,
                 Raise Abort)
              else
                let a :=
                  fold_left
                    (fun a xy =>
                       if negb (fst xy =? snd xy) then
                         echo a (inconsistent (fst xy) (snd xy))
                       else a)
                    (combine model_field_names field_names) a in
                match dict_get n "tags", dict_get n "markdown" with
                | Some (VStr t), Some md =>
                    _add_note a field_values (tags ++ " " ++ t) md
                | Some _, Some _ => (a, Raise TypeError)
                | _, _ => (a, Raise KeyError)
                end
          end
      end
  end.

(** The loop, with the list [notes] built so far. *)
Fixpoint add_notes_loop (a : Anki) (tags : string) (acc : list anki_note)
         (parsed_notes : list (dict pyval)) : Anki * result (list anki_note) :=
  match parsed_notes with
  | n :: rest =>
      match add_parsed_note a tags n with
      | (a, Ok x) => add_notes_loop a tags (acc ++ [x])%list rest
      | (a, Raise e) => (a, Raise e)
      end
  | [] => (a, Ok acc)
  end.

(** [Anki.add_notes_from_list] *)
Definition add_notes_from_list (a : Anki) (parsed_notes : list (dict pyval))
           (tags : string) : Anki * result (list anki_note) :=
  add_notes_loop a tags [] parsed_notes.
End WithLibs.
End cli.

(** ** What the converter relies on *)

Definition b64_char_ok (c : ascii) : bool :=
  in_range 65 90 c || in_range 97 122 c || in_range 48 57 c
  || (c =? "+")%char || (c =? "/")%char || (c =? "=")%char.

Definition no_lt (s : string) : bool :=
  forallb_str (fun c => negb (c =? "<")%char) s.

Record LibLaws (L : Libs) : Prop := mk_laws {
  (** the codecs invert each other, and base64 text is ASCII text over
      the base64 alphabet *)
  utf8_roundtrip : forall s, utf8_decode L (utf8_encode L s) = Ok s;
  b64_roundtrip : forall b, b64decode L (b64encode L b) = Ok b;
  b64_text : forall b, exists v,
      utf8_decode L (b64encode L b) = Ok v
      /\ utf8_encode L v = b64encode L b
      /\ forallb_str b64_char_ok v = true;
  (** a text without [<] holds no element *)
  soup_text : forall s,
      no_lt s = true -> _get_first_tag (BeautifulSoup L s) = None;
  (** a text that opens with a start tag holds an element *)
  soup_div : forall s,
      _get_first_tag (BeautifulSoup L ("<div>" ++ s ++ "</div>")) <> None;
  (** serialising a parsed tree and parsing it again keeps a base64
      attribute of its first element *)
  soup_attr : forall s v,
      _get_first_tag (BeautifulSoup L s) <> None ->
      forallb_str b64_char_ok v = true ->
      exists tag,
        _get_first_tag
          (BeautifulSoup L
             (soup_str L (set_first_tag_attr (BeautifulSoup L s) marker v)))
        = Some tag
        /\ dict_get (tag_attrs tag) marker = Some v
}.

(** ** Reference libraries

    One implementation of [Libs] that satisfies [LibLaws]: base64 and UTF-8
    as specified (UTF-8 on the code points below 256), and a small HTML
    reader that tells the text before the first start tag from that tag,
    and reads the tag's name and its marker attribute. *)
Module Reference.

Definition sextet : Type := (bool * bool * bool * bool * bool * bool)%type.

Definition alphabet : string :=
  "ABCDEFGHIJKLMNOPQRSTUVWXYZabcdefghijklmnopqrstuvwxyz0123456789+/".

Definition bit (b : bool) (w : nat) : nat := if b then w else 0.

(** most significant bit first *)
Definition sextet_index (s : sextet) : nat :=
  let '(b5, b4, b3, b2, b1, b0) := s in
  bit b5 32 + bit b4 16 + bit b3 8 + bit b2 4 + bit b1 2 + bit b0 1.

Definition b64_char (s : sextet) : ascii :=
  match String.get (sextet_index s) alphabet with
  | Some c => c
  | None => "A"%char
  end.

Definition all_sextets : list sextet :=
  let bs := [false; true] in
  flat_map (fun b5 => flat_map (fun b4 => flat_map (fun b3 =>
  flat_map (fun b2 => flat_map (fun b1 => map (fun b0 =>
    (b5, b4, b3, b2, b1, b0)) bs) bs) bs) bs) bs) bs.

Definition b64_value (c : ascii) : option sextet :=
  find (fun s => (b64_char s =? c)%char) all_sextets.

Definition pad : ascii := "="%char.

(** three bytes, four characters; bytes are [Ascii] with the least
    significant bit first *)
Fixpoint ref_b64encode (b : bytes) : bytes :=
  match b with
  | Ascii a0 a1 a2 a3 a4 a5 a6 a7 :: Ascii b0 b1 b2 b3 b4 b5 b6 b7
      :: Ascii c0 c1 c2 c3 c4 c5 c6 c7 :: rest =>
      b64_char (a7, a6, a5, a4, a3, a2)
      :: b64_char (a1, a0, b7, b6, b5, b4)
      :: b64_char (b3, b2, b1, b0, c7, c6)
      :: b64_char (c5, c4, c3, c2, c1, c0)
      :: ref_b64encode rest
  | [Ascii a0 a1 a2 a3 a4 a5 a6 a7; Ascii b0 b1 b2 b3 b4 b5 b6 b7] =>
      [b64_char (a7, a6, a5, a4, a3, a2);
       b64_char (a1, a0, b7, b6, b5, b4);
       b64_char (b3, b2, b1, b0, false, false);
       pad]
  | [Ascii a0 a1 a2 a3 a4 a5 a6 a7] =>
      [b64_char (a7, a6, a5, a4, a3, a2);
       b64_char (a1, a0, false, false, false, false);
       pad; pad]
  | [] => []
  end.

Definition byte1 (s1 s2 : sextet) : ascii :=
  let '(a7, a6, a5, a4, a3, a2) := s1 in
  let '(a1, a0, _, _, _, _) := s2 in
  Ascii a0 a1 a2 a3 a4 a5 a6 a7.

Definition byte2 (s2 s3 : sextet) : ascii :=
  let '(_, _, b7, b6, b5, b4) := s2 in
  let '(b3, b2, b1, b0, _, _) := s3 in
  Ascii b0 b1 b2 b3 b4 b5 b6 b7.

Definition byte3 (s3 s4 : sextet) : ascii :=
  let '(_, _, _, _, c7, c6) := s3 in
  let '(c5, c4, c3, c2, c1, c0) := s4 in
  Ascii c0 c1 c2 c3 c4 c5 c6 c7.

(** canonical base64 only; anything else is a [binascii.Error] *)
Fixpoint ref_b64decode (l : bytes) : result bytes :=
  match l with
  | [] => Ok []
  | c1 :: c2 :: c3 :: c4 :: rest =>
      match b64_value c1, b64_value c2 with
      | Some s1, Some s2 =>
          if (c3 =? pad)%char then
            match rest with
            | [] => if (c4 =? pad)%char then Ok [byte1 s1 s2]
                    else Raise ValueError
            | _ => Raise ValueError
            end
          else
            match b64_value c3 with
            | None => Raise ValueError
            | Some s3 =>
                if (c4 =? pad)%char then
                  match rest with
                  | [] => Ok [byte1 s1 s2; byte2 s2 s3]
                  | _ => Raise ValueError
                  end
                else
                  match b64_value c4 with
                  | None => Raise ValueError
                  | Some s4 =>
                      r <- ref_b64decode rest ;;
                      Ok (byte1 s1 s2 :: byte2 s2 s3 :: byte3 s3 s4 :: r)
                  end
            end
      | _, _ => Raise ValueError
      end
  | _ => Raise ValueError
  end.

(** UTF-8 of the code points below 256: one byte below 128, else two *)
Fixpoint ref_utf8_encode (s : string) : bytes :=
  match s with
  | String (Ascii b0 b1 b2 b3 b4 b5 b6 false) r =>
      Ascii b0 b1 b2 b3 b4 b5 b6 false :: ref_utf8_encode r
  | String (Ascii b0 b1 b2 b3 b4 b5 b6 true) r =>
      Ascii b6 true false false false false true true
      :: Ascii b0 b1 b2 b3 b4 b5 false true
      :: ref_utf8_encode r
  | EmptyString => []
  end.

Fixpoint ref_utf8_decode (b : bytes) : result string :=
  match b with
  | Ascii b0 b1 b2 b3 b4 b5 b6 false :: r =>
      s <- ref_utf8_decode r ;;
      Ok (String (Ascii b0 b1 b2 b3 b4 b5 b6 false) s)
  | Ascii b6 true false false false false true true
      :: Ascii b0 b1 b2 b3 b4 b5 false true :: r =>
      s <- ref_utf8_decode r ;;
      Ok (String (Ascii b0 b1 b2 b3 b4 b5 b6 true) s)
  | [] => Ok ""
  | _ => Raise ValueError
  end.

Definition dquote : string := String "034"%char "".
Definition not_char (x : ascii) (c : ascii) : bool := negb (c =? x)%char.

Definition text_node (s : string) : soup :=
  if is_empty s then [] else [NavigableString s].

Definition tail (s : string) : string :=
  match s with String _ r => r | EmptyString => "" end.

Definition marker_attr : string := " " ++ marker ++ "=" ++ dquote.

Definition ref_attrs (a : string) : dict string :=
  match strip_prefix marker_attr a with
  | Some v => [(marker, take_while (not_char "034") v)]
  | None => []
  end.

Definition ref_parse (s : string) : soup :=
  (text_node (take_while (not_char "<") s) ++
   match drop_while (not_char "<") s with
   | String _ r =>
       let hdr := take_while (not_char ">") r in
       [Tag (take_while (not_char " ") hdr)
            (ref_attrs (drop_while (not_char " ") hdr))
            (text_node (tail (drop_while (not_char ">") r)))]
   | EmptyString => []
   end)%list.

Definition attr_str (kv : string * string) : string :=
  " " ++ fst kv ++ "=" ++ dquote ++ snd kv ++ dquote.

Fixpoint node_str (n : node) : string :=
  match n with
  | Tag name attrs contents =>
      "<" ++ name ++ concat_str (map attr_str attrs) ++ ">"
      ++ concat_str (map node_str contents)
  | NavigableString s => s
  end.

Definition ref_str (t : soup) : string := concat_str (map node_str t).

(** a paragraph, or nothing for a blank text *)
Definition ref_markdown (exts : list extension) (s : string) : string :=
  if is_empty (strip s) then "" else "<p>" ++ s ++ "</p>".

(** a substitution that finds no match *)
Definition ref_re_sub (pattern repl s : string) : string := s.

Definition libs : Libs :=
  mk_libs ref_markdown ref_parse ref_str ref_re_sub
          ref_b64encode ref_b64decode ref_utf8_encode ref_utf8_decode.

Definition no_styles : config := mk_config None.
End Reference.

(** ** States and files used as examples *)

(** The state after the lines [# N], [## Front], [a]. *)
Definition in_front : pstate :=
  mk_pstate [] []
            [("title", VStr "N");
             ("fields", VDict [("Front", "a" ++ newline)])]
            false (Some "Front").

(** The state after the lines [# N], [model: X]. *)
Definition in_header : pstate :=
  mk_pstate [] []
            [("title", VStr "N"); ("fields", VDict []); ("model", VStr "X")]
            false None.

(** The defaults and the one note of a file that opens with the lines
    [model: Basic] and [tags: x, y]. *)
Definition basic_defaults : dict pyval :=
  [("model", VStr "Basic"); ("tags", VStr "x, y")].

Definition front_note : dict pyval :=
  [("title", VStr "N"); ("fields", VDict [("Front", "q")])].

(** A collection with the note type [Basic] (fields [Front], [Back]),
    and two parsed notes for it: one with three fields, one with two fields
    of which the second has another name. *)
Definition basic_model : cli.model := cli.mk_model "Basic" ["Front"; "Back"].

Definition basic_collection : cli.Anki :=
  cli.mk_anki basic_model [(1, basic_model)] [("Basic", 1)] [] false [].

Definition three_fields : dict pyval :=
  [("title", VStr "N");
   ("fields", VDict [("Front", "q"); ("Back", "a"); ("Extra", "e")]);
   ("model", VStr "Basic"); ("markdown", VBool true); ("tags", VStr "")].

Definition renamed_field : dict pyval :=
  [("title", VStr "N");
   ("fields", VDict [("Front", "q"); ("Answer", "a")]);
   ("model", VStr "Basic"); ("markdown", VBool true); ("tags", VStr "t")].

Definition never_dupe (a : cli.Anki) (n : cli.anki_note) : bool := false.

(** ** Notions used in the statements *)

(** The current field, when one is open, is a key of the dict under
    ['fields'] of the current note. *)
Definition field_in_note (st : pstate) : Prop :=
  field_open (field st) = true ->
  exists d txt, note_fields (note st) = Ok d
                /\ dict_get d (field_title (field st)) = Some txt.

(** The state [st] with the text of field [f] replaced and the fenced-block
    flag set to [cb]. *)
Definition with_text (st : pstate) (cb : bool) (d : dict string)
           (f txt : string) : pstate :=
  mk_pstate (defaults st) (notes st)
            (dict_set (note st) "fields" (VDict (dict_set d f txt)))
            cb (field st).

(** The titles of the level-two headings among some lines. *)
Fixpoint level2_titles (lines : list string) : list string :=
  match lines with
  | l :: r =>
      match heading_match l with
      | Some (level, title) =>
          if Nat.eqb (String.length level) 2 then title :: level2_titles r
          else level2_titles r
      | None => level2_titles r
      end
  | [] => []
  end.

(** A note whose [tags], if any, is a string. *)
Definition tags_ok (n : dict pyval) : Prop :=
  match dict_get n "tags" with
  | Some (VStr _) | None => True
  | Some _ => False
  end.

(** [s.replace("\n", "<br />")], one character at a time. *)
Fixpoint with_breaks (s : string) : string :=
  match s with
  | String c r =>
      if (c =? LF)%char then "<br />" ++ with_breaks r
      else String c (with_breaks r)
  | EmptyString => ""
  end.

(** What the extractor makes of the stored text. *)
Definition restored (stored : string) : string :=
  replace (replace (replace stored newline "<br />") "<br>" newline)
          "<br />" newline.

(** What is extracted from the rendering of [t], if that succeeds. *)
Definition roundtrip (L : Libs) (cfg : config) (t : string) : result string :=
  html <- markdown_to_html L cfg t ;; html_to_markdown L html.

Section Rendering.
Variable L : Libs.
Variable cfg : config.

(** The text a renderer hands to the tree builder, from the HTML that
    [markdown.markdown] returned. *)
Definition wrapped (html : string) : string :=
  match _get_first_tag (BeautifulSoup L html) with
  | Some _ => html
  | None => "<div>" ++ (if is_empty html then "&nbsp;" else html) ++ "</div>"
  end.

(** The statements both renderers end with, from the HTML and the text
    to store. *)
Definition attach_marker (html plain : string) : result string :=
  let html_tree := BeautifulSoup L html in
  let html_tree :=
    match _get_first_tag html_tree with
    | Some _ => html_tree
    | None =>
        let html := if is_empty html then "&nbsp;" else html in
        BeautifulSoup L ("<div>" ++ html ++ "</div>")
    end in
  v <- original_html L plain ;;
  match _get_first_tag html_tree with
  | Some _ => Ok (soup_str L (set_first_tag_attr html_tree marker v))
  | None => Raise TypeError
  end.

(** The text the renderer of [convert.py] hands to the tree builder. *)
Definition rendered_body (t : string) : string :=
  wrapped (markdown_markdown L
             [Tables; Abbr; CodeHilite; DefList; FencedCode; Footnote]
             (escape L cfg t)).

End Rendering.

(** The warnings for the field names that differ from the model's. *)
Definition warnings (model_field_names field_names : list string)
  : list string :=
  map (fun xy => cli.inconsistent (fst xy) (snd xy))
      (filter (fun xy => negb (fst xy =? snd xy))
              (combine model_field_names field_names)).

(** The loop over the pairs of names in [add_notes_from_list]. *)
Definition warn_all (a : cli.Anki) (pairs : list (string * string)) : cli.Anki :=
  fold_left
    (fun a xy =>
       if negb (fst xy =? snd xy) then cli.echo a (cli.inconsistent (fst xy) (snd xy))
       else a)
    pairs a.

(** In the records of the parser a value is a string, but for the dict
    under ['fields']. *)
Definition val_ok (kv : string * pyval) : Prop :=
  match snd kv with
  | VStr _ => True
  | VDict _ => fst kv = "fields"
  | VBool _ => False
  end.

Definition dict_ok (d : dict pyval) : Prop := Forall val_ok d.

(** A note as [_parse_file] returns it: it has at least one field. *)
Definition note_ok (n : dict pyval) : Prop :=
  dict_ok n /\ exists fs, dict_get n "fields" = Some (VDict fs) /\ fs <> [].

(** The records of a parser state are of these kinds. *)
Definition shaped (st : pstate) : Prop :=
  dict_ok (note st) /\ dict_ok (defaults st) /\ Forall note_ok (notes st).

(** A note as [cli.parse_notes_from_markdown] returns it. *)
Definition parsed_shape (n : dict pyval) : Prop :=
  exists model_name fs tg md,
    dict_get n "model" = Some (VStr model_name)
    /\ dict_get n "fields" = Some (VDict fs) /\ fs <> []
    /\ dict_get n "tags" = Some (VStr tg)
    /\ dict_get n "markdown" = Some (VBool md).

(** ** The steps of the parser, as a relation

    What one line can do to the state of [_parse_file]: the cases of the
    loop body in which no exception is raised. *)
Inductive transition : pstate -> pstate -> Prop :=
| t_skip (st : pstate) (b : bool) :
    transition st (set_codeblock st b)
| t_append (st : pstate) (b : bool) (d : dict string) (old line : string) :
    field_open (field st) = true ->
    note_fields (note st) = Ok d ->
    dict_get d (field_title (field st)) = Some old ->
    transition st (with_text st b d (field_title (field st)) (old ++ line))
| t_property (st : pstate) (k v : string) :
    field_open (field st) = false ->
    transition st (set_note st (dict_set (note st) k (VStr v)))
| t_note_append (st : pstate) (title : string) (d : dict string)
                (old : string) :
    field_open (field st) = true ->
    note_fields (note st) = Ok d ->
    dict_get d (field_title (field st)) = Some old ->
    transition st
      (mk_pstate (defaults st)
         (notes st ++
          [dict_set (note st) "fields"
             (VDict (dict_set d (field_title (field st)) (strip old)))])%list
         [("title", VStr title); ("fields", VDict [])]
         (codeblock st) None)
| t_note_fold (st : pstate) (title : string) :
    dict_truthy (note st) && field_open (field st) = false ->
    transition st
      (mk_pstate (dict_update (defaults st) (note st)) (notes st)
         [("title", VStr title); ("fields", VDict [])]
         (codeblock st) None)
| t_field_next (st : pstate) (title : string) (d : dict string)
               (old : string) :
    field_open (field st) = true ->
    note_fields (note st) = Ok d ->
    dict_get d (field_title (field st)) = Some old ->
    dict_contains title (note st) = false ->
    transition st
      (mk_pstate (defaults st) (notes st)
         (dict_set (note st) "fields"
            (VDict (dict_set
                      (dict_set d (field_title (field st)) (strip old))
                      title "")))
         (codeblock st) (Some title))
| t_field_first (st : pstate) (title : string) (d : dict string) :
    field_open (field st) = false ->
    note_fields (note st) = Ok d ->
    dict_contains title (note st) = false ->
    transition st
      (mk_pstate (defaults st) (notes st)
         (dict_set (note st) "fields" (VDict (dict_set d title "")))
         (codeblock st) (Some title)).

(** The notes of a state whose every field text is stripped, but for the
    text of field [f]. *)
Definition stripped_but (f : option string) (n : dict pyval) : Prop :=
  forall d k v,
    dict_get n "fields" = Some (VDict d) -> dict_get d k = Some v ->
    Some k = f \/ strip v = v.

Definition open_field (st : pstate) : option string :=
  if field_open (field st) then field st else None.

Definition fields_stripped (st : pstate) : Prop :=
  stripped_but (open_field st) (note st)
  /\ Forall (stripped_but None) (notes st).

(** A line that is no opening fence, no property line and no heading. *)
Definition free_line (l : string) : bool :=
  negb (is_open_fence l)
  && match property_match l with Some _ => false | None => true end
  && match heading_match l with Some _ => false | None => true end.

Definition no_heading (l : string) : bool :=
  match heading_match l with Some _ => false | None => true end.

(** The current note has a title when it has a dict of fields. *)
Definition titled (n : dict pyval) : Prop :=
  exists t, dict_get n "title" = Some (VStr t).

Definition titles_kept (st : pstate) : Prop :=
  (forall d, note_fields (note st) = Ok d -> titled (note st))
  /\ Forall titled (notes st).

(** The dicts of a state have each key once. *)
Definition keys_once (st : pstate) : Prop :=
  NoDup (keys (note st)) /\ NoDup (keys (defaults st))
  /\ Forall (fun n => NoDup (keys n)) (notes st).

(** The value of a property for a note: its own, else the one of the
    defaults of the file, else a built-in one. *)
Definition own_or (n dflt : dict pyval) (k : string) (builtin : pyval)
  : pyval :=
  match dict_get n k with
  | Some v => v
  | None => match dict_get dflt k with Some v => v | None => builtin end
  end.

(** The markdown flag a record asks for, under [markdown] or else [md]. *)
Definition flag (d : dict pyval) : option bool :=
  match dict_get d "markdown" with
  | Some v => Some (in_true_yes v)
  | None =>
      match dict_get d "md" with
      | Some v => Some (in_true_yes v)
      | None => None
      end
  end.

Definition resolved_flag (n dflt : dict pyval) : bool :=
  match flag n with
  | Some b => b
  | None => match flag dflt with Some b => b | None => true end
  end.

(** A file with defaults and two notes, the second with properties of its
    own. *)
Definition two_notes : string :=
  text ["model: Basic"; "tags: x, y"; "md: no"; "";
        "# One"; "## Front"; "q"; "";
        "# Two"; "model: Cloze"; "tag: z"; "markdown: yes"; "## Text"; "c"].

Definition two_notes_defaults : dict pyval :=
  Eval vm_compute in
    match _parse_file two_notes with Ok p => fst p | Raise _ => [] end.

Definition two_notes_blocks : list (dict pyval) :=
  Eval vm_compute in
    match _parse_file two_notes with Ok p => snd p | Raise _ => [] end.

(** The text [markdown_to_html] of [cli.py] renders and stores. *)
Definition cli_escape (plain : string) : string :=
  let plain := replace (replace plain nbsp_utf8 " ") nbsp " " in
  let plain := replace plain "\[" "\\[" in
  let plain := replace plain "\]" "\\]" in
  let plain := replace plain "\(" "\\(" in
  let plain := replace plain "\)" "\\)" in
  plain.

(** What is extracted from the rendering of [t] by [cli.py]. *)
Definition cli_roundtrip (L : Libs) (t : string) : result string :=
  html <- cli.markdown_to_html L t ;; html_to_markdown L html.

Definition backslash : ascii := "092"%char.

(** A text without a backslash and without a non-breaking space. *)
Definition no_escape_char (t : string) : bool :=
  forallb_str (fun c => negb (c =? backslash)%char && negb (c =? "160")%char) t.

(** ** Substitutions with a pattern

    Each [re.sub] of the two modules has a constant pattern; it is written
    out as the function on texts that the pattern denotes. *)

(** The pattern of an empty element, as in [<b>\s*</b>]: the length of its
    match at the head of [s].  The run [\s*] takes all the white space that
    follows the start tag, after which the end tag has to stand. *)
Definition empty_element_match (otag ctag s : string) : option nat :=
  match strip_prefix otag s with
  | Some r =>
      if startswith (drop_while isspace r) ctag
      then Some (String.length otag + String.length (take_while isspace r)
                 + String.length ctag)
      else None
  | None => None
  end.

(** [re.sub(pattern, '', s)] for that pattern; [skip] as in
    [replace_from]. *)
Fixpoint sub_empty_from (otag ctag : string) (skip : nat) (s : string)
  : string :=
  match s with
  | String c r =>
      match skip with
      | S k => sub_empty_from otag ctag k r
      | O =>
          match empty_element_match otag ctag s with
          | Some m => sub_empty_from otag ctag (m - 1) r
          | None => String c (sub_empty_from otag ctag 0 r)
          end
      end
  | EmptyString => ""
  end.

Definition sub_empty_element (name s : string) : string :=
  sub_empty_from ("<" ++ name ++ ">") ("</" ++ name ++ ">") 0 s.

(** The text after the last occurrence of [p] in [s]. *)
Fixpoint after_last (p s : string) : option string :=
  match s with
  | String _ r =>
      match after_last p r with
      | Some t => Some t
      | None => strip_prefix p s
      end
  | EmptyString => None
  end.

(** [re.sub(r'\<style\>.*\<\/style\>', '', html, flags=re.S)].  With
    [re.S] the dot matches a newline too, and the star is greedy: a match
    runs from a [<style>] to the last [</style>] of the text, and nothing
    after it can match again. *)
Fixpoint sub_style (html : string) : string :=
  match html with
  | String c r =>
      match strip_prefix "<style>" html with
      | Some rest =>
          match after_last "</style>" rest with
          | Some t => t
          | None => String c (sub_style r)
          end
      | None => String c (sub_style r)
      end
  | EmptyString => ""
  end.

(** The group of a lazy [(.*?)] that is followed by [ctag]: the shortest
    run of characters other than a newline after which [ctag] stands. *)
Fixpoint lazy_group (ctag s : string) : option string :=
  match s with
  | String c r =>
      if startswith s ctag then Some ""
      else if is_dot c then
        match lazy_group ctag r with
        | Some g => Some (String c g)
        | None => None
        end
      else None
  | EmptyString => None
  end.

(** [re.sub(pattern, style(r'\1'), s, count)] for the pattern that is
    [otag], a lazy group and [ctag]: at most [count] matches are replaced,
    each by the template [style(r'\1')] with the group for [\1]. *)
Fixpoint sub_span_from (otag ctag : string) (style : string -> string)
         (count skip : nat) (s : string) : string :=
  match s with
  | String c r =>
      match skip, count with
      | S k, _ => sub_span_from otag ctag style count k r
      | O, O => s
      | O, S count' =>
          match strip_prefix otag s with
          | Some t =>
              match lazy_group ctag t with
              | Some g =>
                  replace (style "\1") "\1" g
                  ++ sub_span_from otag ctag style count'
                       (String.length otag + String.length g
                        + String.length ctag - 1) r
              | None => String c (sub_span_from otag ctag style count 0 r)
              end
          | None => String c (sub_span_from otag ctag style count 0 r)
          end
      end
  | EmptyString => ""
  end.

Definition sub_span (otag ctag : string) (style : string -> string)
           (count : nat) (s : string) : string :=
  sub_span_from otag ctag style count 0 s.

(** The value of the flag [re.S], which the calls below pass where
    [re.sub] takes its [count]. *)
Definition re_S : nat := 16.

(** ** [plain_to_html] of [convert.py] *)
Definition plain_to_html (plain : string) : string :=
  let plain := replace plain "&lt;" "<" in
  let plain := replace plain "&gt;" ">" in
  let plain := replace plain "&amp;" "&" in
  let plain := replace plain "&nbsp;" " " in
  let plain := sub_empty_element "b" plain in
  let plain := sub_empty_element "i" plain in
  let plain := sub_empty_element "div" plain in
  let plain := replace plain newline "<br />" in
  strip plain.

(** ** [clean_html] and [html_to_screen] of [cli.py] *)
Module cli_screen.

Definition clean_html (html : string) : string := sub_style html.

Section WithLibs.
Variable L : Libs.

(** [click.style(text, bold=True)] and [click.style(text, underline=True)] *)
Variable bold underline : string -> string.

Definition html_to_screen (html : string) (parseable : bool)
  : result string :=
  plain <- (if is_generated_html L (Some html) then html_to_markdown L html
            else Ok html) ;;
  let plain := replace plain "&lt;" "<" in
  let plain := replace plain "&gt;" ">" in
  let plain := replace plain "&nbsp;" " " in
  let plain := replace plain "<br>" newline in
  let plain := replace plain "<br/>" newline in
  let plain := replace plain "<br />" newline in
  let plain := replace plain "<div>" newline in
  let plain := replace plain "</div>" "" in
  let plain := replace plain "\[" "[" in
  let plain := replace plain "\]" "]" in
  let plain := replace plain "\(" "(" in
  let plain := replace plain "\)" ")" in
  let plain := sub_empty_element "b" plain in
  let plain :=
    if negb parseable then
      let plain := sub_span "**" "**" bold re_S plain in
      let plain := sub_span "<b>" "</b>" bold re_S plain in
      let plain := sub_span "_" "_" underline re_S plain in
      sub_span "<i>" "</i>" underline re_S plain
    else plain in
  Ok (strip plain).
End WithLibs.
End cli_screen.

(** ** [html_to_screen] of [convert.py] *)
Section Screen.
Variable L : Libs.
Variable bold underline : string -> string.

(** Without [pprint]: the text is parsed by [html5lib] and the children of
    its [body] are joined, each element through [prettify]. *)
Variable prettify_body : string -> string.

Definition html_to_screen (html : string) (pprint parseable : bool)
  : result string :=
  if negb pprint then Ok (prettify_body (replace html newline ""))
  else
    let html := sub_style html in
    let generated := is_generated_html L (Some html) in
    plain <- (if generated then html_to_markdown L html else Ok html) ;;
    let plain := replace plain "\\\\" "\\" in
    let plain := replace plain "\\{" "\{" in
    let plain := replace plain "\\}" "\}" in
    let plain := replace plain "\*}" "*}" in
    let plain := replace plain "&lt;" "<" in
    let plain := replace plain "&gt;" ">" in
    let plain := replace plain "&amp;" "&" in
    let plain := replace plain "&nbsp;" " " in
    let plain := replace plain "<br>" newline in
    let plain := replace plain "<br/>" newline in
    let plain := replace plain "<br />" newline in
    let plain := replace plain "<div>" newline in
    let plain := replace plain "</div>" "" in
    let plain :=
      if generated then
        let plain := replace plain "\[" "[" in
        let plain := replace plain "\]" "]" in
        let plain := replace plain "\(" "(" in
        replace plain "\)" ")"
      else plain in
    let plain := sub_empty_element "b" plain in
    let plain :=
      if negb parseable then
        let plain := sub_span "**" "**" bold re_S plain in
        let plain := sub_span "<b>" "</b>" bold re_S plain in
        let plain := sub_span "_" "_" underline re_S plain in
        sub_span "<i>" "</i>" underline re_S plain
      else plain in
    Ok (strip plain).
End Screen.

(** ** The class [MyNote] of [cli.py] *)

(** [l[i]] for a list and an int: a negative index counts from the end. *)
Definition py_position {A : Type} (l : list A) (i : Z) : option nat :=
  let n := Z.of_nat (List.length l) in
  let j := if Z.ltb i 0 then Z.add i n else i in
  if Z.leb 0 j && Z.ltb j n then Some (Z.to_nat j) else None.

Definition py_getitem {A : Type} (l : list A) (i : Z) : result A :=
  match py_position l i with
  | Some j => match nth_error l j with
              | Some x => Ok x
              | None => Raise IndexError
              end
  | None => Raise IndexError
  end.

Fixpoint set_nth {A : Type} (l : list A) (j : nat) (v : A) : list A :=
  match l, j with
  | x :: r, O => v :: r
  | x :: r, S j' => x :: set_nth r j' v
  | [], _ => []
  end.

(** [l[i] = v] *)
Definition py_setitem {A : Type} (l : list A) (i : Z) (v : A)
  : result (list A) :=
  match py_position l i with
  | Some j => Ok (set_nth l j v)
  | None => Raise IndexError
  end.

(** [l.index(x)] *)
Fixpoint py_list_index (l : list string) (x : string) : result Z :=
  match l with
  | y :: r =>
      if y =? x then Ok 0%Z
      else i <- py_list_index r x ;; Ok (Z.succ i)
  | [] => Raise ValueError
  end.

(** [sep.join(l)] *)
Fixpoint join (sep : string) (l : list string) : string :=
  match l with
  | [] => ""
  | [x] => x
  | x :: r => x ++ sep ++ join sep r
  end.

(** [str(i)] for an int *)
Definition str_of_int (i : Z) : string := NilZero.string_of_int (Z.to_int i).

(** [l != m] for two lists of strings is [negb (strings_eqb l m)]. *)
Fixpoint strings_eqb (l m : list string) : bool :=
  match l, m with
  | x :: l', y :: m' => (x =? y) && strings_eqb l' m'
  | [], [] => true
  | _, _ => false
  end.

(** [len(l) > 1] *)
Definition more_than_one {A : Type} (l : list A) : bool :=
  match l with _ :: _ :: _ => true | _ => false end.

Module MyNote.

(** The attributes of a [MyNote] that the methods below use: its [Anki],
    the wrapped note with its id, and the names of its fields. *)
Record t : Type := mk {
  a : cli.Anki;
  n : cli.anki_note;
  n_id : Z;
  fields : list string
}.

(** [self.model_name], set by [__init__] from [note.model()['name']] *)
Definition model_name (self : t) : string := cli.m_name (cli.n_model (n self)).

(** [self.n.items()]: the field names of the note type, each with the
    value the note has for it. *)
Definition items (self : t) : list (string * string) :=
  combine (cli.flds (cli.n_model (n self))) (cli.n_fields (n self)).

(** [__init__] *)
Definition init (anki : cli.Anki) (note : cli.anki_note) (id : Z) : t :=
  mk anki note id
     (map fst (combine (cli.flds (cli.n_model note)) (cli.n_fields note))).

Definition set_a (self : t) (a' : cli.Anki) : t :=
  mk a' (n self) (n_id self) (fields self).

Definition set_tags (self : t) (tags : list string) : t :=
  mk (a self)
     (cli.mk_note (cli.n_model (n self)) (cli.n_fields (n self)) tags)
     (n_id self) (fields self).

Definition set_values (self : t) (values : list string) : t :=
  mk (a self)
     (cli.mk_note (cli.n_model (n self)) values (cli.n_tags (n self)))
     (n_id self) (fields self).

(** [self.n.fields = values], then [self.a.modified = True] *)
Definition set_fields (self : t) (values : list string) : t :=
  set_a (set_values self values) (cli.set_modified (a self) true).

(** [get_tag_string] *)
Definition get_tag_string (self : t) : string :=
  join ", " (cli.n_tags (n self)).

(** An argument that is a field name or an index. *)
Inductive index_or_name : Type :=
| Name (name : string)
| Index (i : Z).

Section WithLibs.
Variable L : Libs.
Variable bold underline : string -> string.
Variable dupeOrEmpty : cli.Anki -> cli.anki_note -> bool.

(** [editor(path)], on the content of the file: the exit code of the
    editor and the content it leaves in the file. *)
Variable editor : string -> Z * string.

(** The line [markdown: false], for a note without generated HTML. *)
Definition markdown_line (self : t) : list string :=
  if negb (existsb (fun x => is_generated_html L (Some x))
                   (cli.n_fields (n self)))
  then ["markdown: false"] else [].

(** The lines of one field, in [__repr__] and in [get_template]. *)
Definition field_lines (kv : string * string) : result (list string) :=
  let key := if is_generated_html L (Some (snd kv)) then fst kv ++ " (md)"
             else fst kv in
  screen <- cli_screen.html_to_screen L bold underline (snd kv) true ;;
  Ok ["## " ++ key; screen; ""].

Definition body_lines (self : t) : result (list string) :=
  l <- map_result field_lines (items self) ;; Ok (concat l).

(** [__repr__] *)
Definition repr (self : t) : result string :=
  let lines :=
    ["# Note ID: " ++ str_of_int (n_id self);
     "model: " ++ model_name self;
     "tags: " ++ get_tag_string self] in
  let lines := (lines ++ markdown_line self)%list in
  let lines := (lines ++ [""])%list in
  body <- body_lines self ;;
  Ok (join newline (lines ++ body)%list).

(** [get_template] *)
Definition get_template (self : t) : result string :=
  let lines :=
    ["model: " ++ model_name self;
     "tags: " ++ get_tag_string self] in
  let lines := (lines ++ markdown_line self)%list in
  let lines := (lines ++ [""; "# Note"; ""])%list in
  body <- body_lines self ;;
  Ok (join newline (lines ++ body)%list).

(** The loop of [edit] over the values of the parsed fields, from the
    index [i] on. *)
Fixpoint store_values (fields : list string) (i : Z) (values : list string)
         (markdown : option pyval) : result (list string) :=
  match values with
  | value :: rest =>
      value <- match markdown with
               | None => Raise KeyError
               | Some md => if cli.truthy md then cli.markdown_to_html L value
                            else Ok value
               end ;;
      fields <- py_setitem fields i value ;;
      store_values fields (Z.succ i) rest markdown
  | [] => Ok fields
  end.

(** [edit]: the note and its [Anki] afterwards, and whether the call
    returned; the file is the text that [editor] is given and leaves.
    [click.confirm] prints its text, and its reply is not used. *)
Definition edit (self : t) : t * result unit :=
  match repr self with
  | Raise e => (self, Raise e)
  | Ok content =>
      let (retcode, content) := editor content in
      if negb (Z.eqb retcode 0) then
        (set_a self
           (cli.echo (a self)
              ("Editor return with exit code " ++ str_of_int retcode ++ "!")),
         Ok tt)
      else
        match cli.parse_notes_from_markdown content with
        | Raise e => (self, Raise e)
        | Ok [] =>
            (set_a self
               (cli.echo (a self) "Something went wrong when editing note!"),
             Ok tt)
        | Ok (note :: more as notes) =>
            let added :=
              if more_than_one notes then
                match cli.add_notes_from_list L dupeOrEmpty (a self) more ""
                with
                | (a', Ok _) =>
                    (cli.echo a'
                       (newline ++ "Added "
                        ++ str_of_int (Z.of_nat (List.length notes) - 1)
                        ++ " new notes while editing." ++ newline
                        ++ "Press <cr> to continue."),
                     Ok tt)
                | (a', Raise e) => (a', Raise e)
                end
              else (a self, Ok tt) in
            match added with
            | (a', Raise e) => (set_a self a', Raise e)
            | (a', Ok _) =>
                let self := set_a self a' in
                match dict_get note "tags" with
                | None => (self, Raise KeyError)
                | Some (VBool _) | Some (VDict _) =>
                    (self, Raise AttributeError)
                | Some (VStr tags) =>
                    let new_tags := split tags in
                    let self :=
                      if negb (strings_eqb new_tags (cli.n_tags (n self)))
                      then set_tags self new_tags else self in
                    match dict_get note "fields" with
                    | None => (self, Raise KeyError)
                    | Some (VStr _) | Some (VBool _) =>
                        (self, Raise AttributeError)
                    | Some (VDict fs) =>
                        match store_values (cli.n_fields (n self)) 0
                                (values fs) (dict_get note "markdown") with
                        | Raise e => (self, Raise e)
                        | Ok vs =>
                            let self := set_fields self vs in
                            if dupeOrEmpty (a self) (n self) then
                              (set_a self
                                 (cli.echo (a self)
                                    "The updated note is now a dupe!"),
                               Ok tt)
                            else (self, Ok tt)
                        end
                    end
                end
            end
        end
  end.

(** [toggle_markdown(index)]; without an index the field is the one the
    user picks in [choose], here [chosen]. *)
Definition toggle_markdown (chosen : string) (self : t) (index : option Z)
  : result t :=
  index <- match index with
           | None => py_list_index (fields self) chosen
           | Some i => Ok i
           end ;;
  field_value <- py_getitem (cli.n_fields (n self)) index ;;
  value <- (if is_generated_html L (Some field_value)
            then html_to_markdown L field_value
            else cli.markdown_to_html L field_value) ;;
  values <- py_setitem (cli.n_fields (n self)) index value ;;
  Ok (set_fields self values).

(** [get_field] *)
Definition get_field (self : t) (x : index_or_name) : result string :=
  index <- match x with
           | Name name => py_list_index (fields self) name
           | Index i => Ok i
           end ;;
  reply <- py_getitem (cli.n_fields (n self)) index ;;
  if is_generated_html L (Some reply) then html_to_markdown L reply
  else Ok reply.
End WithLibs.
End MyNote.

(** A note of the collection [basic_collection], with the given values and
    tags. *)
Definition basic_note (values tags : list string) : MyNote.t :=
  MyNote.init basic_collection (cli.mk_note basic_model values tags) 1.

(** ** [choose]

    The keys the user presses are the input; [readchar.readchar()] takes
    the next one.  [int(choice)] is defined on the ten digits. *)
Definition digit_of (choice : ascii) : option nat :=
  if in_range 48 57 choice then Some (code choice - 48) else None.

(** The loop of [choose]: the index echoed, the reply, and the keys that
    are left; [None] when the keys run out before a valid one. *)
Fixpoint choose_loop (items : list string) (keys : list ascii)
  : option (nat * string * list ascii) :=
  match keys with
  | choice :: keys' =>
      match digit_of choice with
      | None => choose_loop items keys'
      | Some index =>
          match py_getitem items (Z.of_nat index - 1) with
          | Ok reply => Some (index, reply, keys')
          | Raise _ => choose_loop items keys'
          end
      end
  | [] => None
  end.

(** A tag that survives the tag line: not empty, without white space and
    without a comma. *)
Definition tag_ok (w : string) : bool :=
  negb (is_empty w)
  && forallb_str (fun c => negb (isspace c) && negb (c =? ",")%char) w.

(** A field text without [<], backslash and non-breaking space. *)
Definition simple_text (v : string) : bool := no_lt v && no_escape_char v.

(** [s] without the character [x]: what [s.replace(x, '')] gives. *)
Fixpoint remove_char (x : ascii) (s : string) : string :=
  match s with
  | String c r => if (c =? x)%char then remove_char x r
                  else String c (remove_char x r)
  | EmptyString => ""
  end.

(** ** Texts that pass through the screen and the parser unchanged *)

(** A character that [html_to_screen] leaves alone: not [<], [&],
    backslash or non-breaking space and, when the text is styled, not [*]
    or [_]. *)
Definition screen_char (parseable : bool) (c : ascii) : bool :=
  negb (c =? "<")%char && negb (c =? "&")%char
  && negb (c =? backslash)%char && negb (c =? "160")%char
  && (parseable || (negb (c =? "*")%char && negb (c =? "_")%char)).

Definition screen_text (parseable : bool) (t : string) : bool :=
  forallb_str (screen_char parseable) t.

(** A text of one line: no line feed, no carriage return. *)
Definition line_text (s : string) : bool :=
  forallb_str (fun c => negb (c =? LF)%char && negb (c =? CR)%char) s.

(** A field value that a template shows on one line and that the parser
    reads back as text: one line without [<], [&] and backslash whose
    first character that is not white space is no [#] and opens no
    fence. *)
Definition value_ok (v : string) : bool :=
  line_text v
  && forallb_str (fun c => negb (c =? "<")%char && negb (c =? "&")%char
                           && negb (c =? backslash)%char) v
  && negb (startswith (strip v) "#")
  && negb (startswith (strip v) fence).

(** A field name that comes back from its heading: one line that begins
    with a character that is not white space. *)
Definition name_ok (k : string) : bool :=
  line_text k
  && match k with
     | String c _ => negb (isspace c)
     | EmptyString => false
     end.

Fixpoint distinct (l : list string) : bool :=
  match l with
  | x :: r => negb (existsb (String.eqb x) r) && distinct r
  | [] => true
  end.

(** The notes whose text form is read back as it was written: as many
    values as the note type has fields, at least one; names and values as
    above, the names distinct and none among [keys], the keys the note
    record has when its first field heading is read; tags without white
    space and comma; a model name of one line. *)
Definition plain_note (keys : list string) (self : MyNote.t) : bool :=
  let names := cli.flds (cli.n_model (MyNote.n self)) in
  let vals := cli.n_fields (MyNote.n self) in
  Nat.eqb (List.length names) (List.length vals)
  && negb (Nat.eqb (List.length vals) 0)
  && forallb name_ok names && distinct names
  && forallb (fun k => negb (existsb (String.eqb k) keys)) names
  && forallb value_ok vals
  && forallb tag_ok (cli.n_tags (MyNote.n self))
  && line_text (MyNote.model_name self).

(** The keys of the record when [get_template] is parsed, and when
    [__repr__] is. *)
Definition template_keys : list string := ["title"; "fields"].
Definition repr_keys : list string :=
  ["title"; "fields"; "model"; "tags"; "markdown"].

(** The record that the parser and the assembler of [cli.py] build from the
    text form of a note: the values stripped, the tags separated by
    spaces. *)
Definition parsed_note (title : string) (self : MyNote.t) : dict pyval :=
  [("title", VStr title);
   ("fields",
    VDict (combine (cli.flds (cli.n_model (MyNote.n self)))
                   (map strip (cli.n_fields (MyNote.n self)))));
   ("model", VStr (strip (MyNote.model_name self)));
   ("tags", VStr (join " " (cli.n_tags (MyNote.n self))));
   ("markdown", VBool false)].

(** ** Notes added from a file and from a template *)
Section WithEditor.
Variable L : Libs.
Variable bold underline : string -> string.
Variable dupeOrEmpty : cli.Anki -> cli.anki_note -> bool.
Variable editor : string -> Z * string.

(** [Anki.add_notes_from_file], on the content of the file *)
Definition add_notes_from_file (a : cli.Anki) (content tags : string)
  : cli.Anki * result (list cli.anki_note) :=
  match cli.parse_notes_from_markdown content with
  | Raise e => (a, Raise e)
  | Ok parsed_notes =>
      cli.add_notes_from_list L dupeOrEmpty a parsed_notes tags
  end.

(** [Anki.add_notes_with_editor] when [template] is a [MyNote]: the text
    of the template goes through the editor and the notes of the file are
    added; [tags] and [model_name] are not used on this path. *)
Definition add_notes_with_template (a : cli.Anki) (template : MyNote.t)
  : cli.Anki * result (list cli.anki_note) :=
  match MyNote.get_template L bold underline template with
  | Raise e => (a, Raise e)
  | Ok input_string =>
      let (retcode, content) := editor input_string in
      if negb (Z.eqb retcode 0) then
        (cli.echo a
           ("Editor return with exit code " ++ str_of_int retcode ++ "!"),
         Ok [])
      else add_notes_from_file a content ""
  end.
End WithEditor.

(** The lines before the fields in [get_template] and in [__repr__], for a
    note without generated HTML. *)
Definition template_header (M J : string) : list string :=
  ["model: " ++ M; "tags: " ++ J; "markdown: false"; ""; "# Note"; ""].

Definition repr_header (id M J : string) : list string :=
  ["# Note ID: " ++ id; "model: " ++ M; "tags: " ++ J; "markdown: false"; ""].

(** The lines of a field there. *)
Definition field_text (kv : string * string) : list string :=
  ["## " ++ fst kv; strip (snd kv); ""].

(** A line as the parser reads it. *)
Definition add_nl (l : string) : string := l ++ newline.

Definition section_lines (kv : string * string) : list string :=
  [add_nl ("## " ++ fst kv); add_nl (strip (snd kv)); newline].

(** The fields dict once the current field is stripped. *)
Definition close (d : dict string) (f : option string) : dict string :=
  match f with
  | Some k => match dict_get d k with
              | Some raw => dict_set d k (strip raw)
              | None => d
              end
  | None => d
  end.

(** The current field is in the dict of fields, under a title that is not
    empty. *)
Definition field_ready (d : dict string) (f : option string) : Prop :=
  match f with
  | Some k => k <> "" /\ dict_contains k d = true
  | None => True
  end.

(** The dict of fields and the current field after the lines of
    [items]. *)
Fixpoint load (d : dict string) (f : option string)
         (items : list (string * string)) : dict string * option string :=
  match items with
  | kv :: rest =>
      load (dict_set (close d f) (fst kv) (add_nl (strip (snd kv)) ++ newline))
           (Some (fst kv)) rest
  | [] => (d, f)
  end.

Definition stripped_items (items : list (string * string))
  : dict string :=
  map (fun kv => (fst kv, strip (snd kv))) items.

(** The note that is added from the text form of [self]. *)
Definition copy_of (self : MyNote.t) : cli.anki_note :=
  cli.mk_note (cli.n_model (MyNote.n self))
              (map strip (cli.n_fields (MyNote.n self)))
              (cli.n_tags (MyNote.n self)).

(** A key that [choose] passes over: no digit, or a digit for which the
    list has no item. *)
Definition passed_over (items : list string) (c : ascii) : Prop :=
  match digit_of c with
  | Some d => py_getitem items (Z.of_nat d - 1) = Raise IndexError
  | None => True
  end.

(** The HTML that the reference libraries render from a list of two items. *)
Definition rendered_list : string :=
  Eval vm_compute in
    match markdown_to_html Reference.libs Reference.no_styles
            (" 1. one" ++ newline ++ "2. two" ++ newline) with
    | Ok html => html
    | Raise _ => ""
    end.

(** * Properties *)

(** ** Strings and dictionaries *)

Lemma is_empty_true (s : string) : is_empty s = true -> s = "".
Proof. destruct s; simpl; congruence. Qed.

Lemma append_empty_r (s : string) : s ++ "" = s.
Proof. induction s; simpl; congruence. Qed.

Lemma append_assoc (a b c : string) : (a ++ b) ++ c = a ++ (b ++ c).
Proof. induction a; simpl; congruence. Qed.

Lemma take_while_all (p : ascii -> bool) (a : string) (c : ascii) (r : string) :
  forallb_str p a = true -> p c = false ->
  take_while p (a ++ String c r) = a.
Proof.
  intros Ha Hc. induction a as [|x a IH]; simpl in *.
  - now rewrite Hc.
  - apply andb_true_iff in Ha as [Hx Ha]. rewrite Hx. f_equal. auto.
Qed.

Lemma drop_while_all (p : ascii -> bool) (a : string) (c : ascii) (r : string) :
  forallb_str p a = true -> p c = false ->
  drop_while p (a ++ String c r) = String c r.
Proof.
  intros Ha Hc. induction a as [|x a IH]; simpl in *.
  - now rewrite Hc.
  - apply andb_true_iff in Ha as [Hx Ha]. rewrite Hx. auto.
Qed.

Lemma take_while_end (p : ascii -> bool) (a : string) :
  forallb_str p a = true -> take_while p a = a.
Proof.
  induction a as [|x a IH]; simpl; auto.
  intros H. apply andb_true_iff in H as [Hx Ha]. rewrite Hx. f_equal. auto.
Qed.

Lemma drop_while_end (p : ascii -> bool) (a : string) :
  forallb_str p a = true -> drop_while p a = "".
Proof.
  induction a as [|x a IH]; simpl; auto.
  intros H. apply andb_true_iff in H as [Hx Ha]. rewrite Hx. auto.
Qed.

Lemma take_while_forallb (p : ascii -> bool) (s : string) :
  forallb_str p (take_while p s) = true.
Proof.
  induction s as [|x s IH]; simpl; auto.
  destruct (p x) eqn:E; simpl; auto. now rewrite E.
Qed.

Lemma take_drop_while (p : ascii -> bool) (s : string) :
  take_while p s ++ drop_while p s = s.
Proof.
  induction s as [|x s IH]; simpl; auto.
  destruct (p x); simpl; congruence.
Qed.

Lemma drop_while_head (p : ascii -> bool) (s : string) (c : ascii) (r : string) :
  drop_while p s = String c r -> p c = false.
Proof.
  induction s as [|x s IH]; simpl; try discriminate.
  destruct (p x) eqn:E; auto. intros H. now inversion H; subst.
Qed.

Lemma forallb_str_app (p : ascii -> bool) (a b : string) :
  forallb_str p (a ++ b) = forallb_str p a && forallb_str p b.
Proof.
  induction a as [|x a IH]; simpl; auto. now rewrite IH, andb_assoc.
Qed.

Lemma forallb_str_weaken (p q : ascii -> bool) (s : string) :
  (forall c, p c = true -> q c = true) ->
  forallb_str p s = true -> forallb_str q s = true.
Proof.
  intros Hpq. induction s as [|x s IH]; simpl; auto.
  intros H. apply andb_true_iff in H as [Hx Hs].
  now rewrite (Hpq _ Hx), IH.
Qed.

Section DictFacts.
Context {V : Type}.

Lemma dict_get_set_same (d : dict V) (k : string) (v : V) :
  dict_get (dict_set d k v) k = Some v.
Proof.
  induction d as [|[k' v'] d IH]; simpl.
  - now rewrite String.eqb_refl.
  - destruct (k' =? k) eqn:E; simpl; now rewrite E.
Qed.

Lemma dict_get_set_other (d : dict V) (k k' : string) (v : V) :
  k <> k' -> dict_get (dict_set d k v) k' = dict_get d k'.
Proof.
  intros Hne. induction d as [|[k0 v0] d IH]; simpl.
  - destruct (k =? k') eqn:E; auto. apply String.eqb_eq in E. contradiction.
  - destruct (k0 =? k) eqn:E; simpl.
    + apply String.eqb_eq in E. subst k0.
      destruct (k =? k') eqn:E'; auto.
      apply String.eqb_eq in E'. contradiction.
    + destruct (k0 =? k'); auto.
Qed.

Lemma dict_set_set (d : dict V) (k : string) (v v' : V) :
  dict_set (dict_set d k v) k v' = dict_set d k v'.
Proof.
  induction d as [|[k0 v0] d IH]; simpl.
  - now rewrite String.eqb_refl.
  - destruct (k0 =? k) eqn:E; simpl; rewrite E; congruence.
Qed.

Lemma dict_contains_get (d : dict V) (k : string) :
  dict_contains k d = true <-> exists v, dict_get d k = Some v.
Proof.
  unfold dict_contains. destruct (dict_get d k); split; eauto.
  - discriminate.
  - intros [v H]. discriminate.
Qed.

Lemma dict_set_truthy (d : dict V) (k : string) (v : V) :
  dict_truthy (dict_set d k v) = true.
Proof.
  destruct d as [|[k0 v0] d]; simpl; auto. destruct (k0 =? k); auto.
Qed.
End DictFacts.

(** ** The line patterns *)

Lemma heading_first (line level title : string) :
  heading_match line = Some (level, title) ->
  exists r, line = String "#" r.
Proof.
  unfold heading_match. destruct line as [|c r]; simpl; try discriminate.
  unfold is_hash. destruct (c =? "#")%char eqn:E; simpl; try discriminate.
  apply Ascii.eqb_eq in E. subst. eauto.
Qed.

Lemma heading_not_open_fence (line level title : string) :
  heading_match line = Some (level, title) -> is_open_fence line = false.
Proof. intros H. apply heading_first in H as [r ->]. reflexivity. Qed.

Lemma heading_not_property (line level title : string) :
  heading_match line = Some (level, title) -> property_match line = None.
Proof. intros H. apply heading_first in H as [r ->]. reflexivity. Qed.

(** ** The parser keeps the current field in the current note *)

Lemma note_fields_set (n : dict pyval) (d : dict string) :
  note_fields (dict_set n "fields" (VDict d)) = Ok d.
Proof. unfold note_fields. now rewrite dict_get_set_same. Qed.

Lemma modify_field_ok (n : dict pyval) (f : string) (g : string -> string)
      (d : dict string) (txt : string) :
  note_fields n = Ok d -> dict_get d f = Some txt ->
  modify_field n f g = Ok (dict_set n "fields" (VDict (dict_set d f (g txt)))).
Proof. intros Hd Hf. unfold modify_field. rewrite Hd. simpl. now rewrite Hf. Qed.

Lemma modify_field_inv (n n' : dict pyval) (f : string) (g : string -> string) :
  modify_field n f g = Ok n' ->
  exists d txt, note_fields n = Ok d /\ dict_get d f = Some txt
                /\ n' = dict_set n "fields" (VDict (dict_set d f (g txt))).
Proof.
  unfold modify_field. destruct (note_fields n) as [d|e]; simpl; try discriminate.
  destruct (dict_get d f) as [txt|] eqn:E; try discriminate.
  intros H. inversion H. eauto.
Qed.

Lemma append_line_field (st st' : pstate) (line : string) :
  append_line st line = Ok st' -> field_in_note st'.
Proof.
  unfold append_line. intros H.
  destruct (modify_field _ _ _) as [n|e] eqn:E; simpl in H; inversion H; subst.
  apply modify_field_inv in E as (d & txt & Hd & Hf & ->).
  intros _. simpl. rewrite note_fields_set.
  exists (dict_set d (field_title (field st)) (txt ++ line)), (txt ++ line).
  split; auto. apply dict_get_set_same.
Qed.

Lemma step_field_in_note (st st' : pstate) (line : string) :
  field_in_note st -> step st line = Ok st' -> field_in_note st'.
Proof.
  intros Hinv. unfold step.
  destruct (codeblock st) eqn:Hcb.
  - destruct (field_open (field st)) eqn:Hf.
    + destruct (append_line st line) as [st1|e] eqn:E; simpl; try discriminate.
      intros H. inversion H; subst. apply append_line_field in E.
      destruct (is_close_fence line); auto.
    + simpl. intros H. inversion H; subst.
      destruct (is_close_fence line); auto.
  - destruct (is_open_fence line).
    + simpl. destruct (field_open (field st)) eqn:Hf.
      * apply append_line_field.
      * intros H. inversion H; subst. intros Hf'. simpl in Hf'. congruence.
    + destruct (field_open (field st)) eqn:Hf.
      * destruct (heading_match line) as [[level title]|].
        -- destruct (Nat.eqb (String.length level) 1).
           ++ unfold level1. intros H.
              destruct (if dict_truthy (note st) then _ else _) as [st1|e];
                simpl in H; inversion H; subst.
              intros Hf'. simpl in Hf'. discriminate.
           ++ destruct (Nat.eqb (String.length level) 2).
              ** unfold level2. rewrite Hf.
                 destruct (strip_field st) as [st1|e]; simpl; try discriminate.
                 destruct (dict_contains title (note st1)); try discriminate.
                 unfold new_field.
                 destruct (note_fields (note st1)) as [d|e]; simpl; try discriminate.
                 intros H. inversion H; subst. intros _. simpl.
                 rewrite note_fields_set. eexists. eexists. split; eauto.
                 apply dict_get_set_same.
              ** intros H. inversion H; subst. auto.
        -- apply append_line_field.
      * destruct (property_match line) as [[k v]|].
        -- intros H. inversion H; subst. intros Hf'. simpl in Hf'. congruence.
        -- destruct (heading_match line) as [[level title]|].
           ++ destruct (Nat.eqb (String.length level) 1).
              ** unfold level1. intros H.
                 destruct (if dict_truthy (note st) then _ else _) as [st1|e];
                   simpl in H; inversion H; subst.
                 intros Hf'. simpl in Hf'. discriminate.
              ** destruct (Nat.eqb (String.length level) 2).
                 --- unfold level2. rewrite Hf. simpl.
                     destruct (dict_contains title (note st)); try discriminate.
                     unfold new_field.
                     destruct (note_fields (note st)) as [d|e]; simpl; try discriminate.
                     intros H. inversion H; subst. intros _. simpl.
                     rewrite note_fields_set. eexists. eexists. split; eauto.
                     apply dict_get_set_same.
                 --- intros H. inversion H; subst. auto.
           ++ intros H. inversion H; subst. auto.
Qed.

Lemma run_app (st : pstate) (l1 l2 : list string) :
  run st (l1 ++ l2)%list = (st' <- run st l1 ;; run st' l2).
Proof.
  revert st. induction l1 as [|x l1 IH]; simpl; auto.
  intros st. destruct (step st x); simpl; auto.
Qed.

Lemma run_field_in_note (lines : list string) (st st' : pstate) :
  field_in_note st -> run st lines = Ok st' -> field_in_note st'.
Proof.
  revert st. induction lines as [|x lines IH]; simpl; intros st Hinv H.
  - inversion H; subst; auto.
  - destruct (step st x) as [st1|e] eqn:E; simpl in H; try discriminate.
    apply (IH st1); auto. now apply (step_field_in_note st st1 x).
Qed.

Lemma init_field_in_note : field_in_note init_state.
Proof. intros H. discriminate. Qed.

(** ** Headings of level three and more *)

(** C5: outside a fenced block and while a field is open, a line that
    matches the heading pattern with three or more [#] leaves the whole
    parser state as it was: no block or field is started and the line is not
    added to the open field's text. *)
Theorem level3_heading_dropped (st : pstate) (line level title : string) :
  codeblock st = false ->
  field_open (field st) = true ->
  heading_match line = Some (level, title) ->
  3 <= String.length level ->
  step st line = Ok st.
Proof.
  intros Hcb Hf Hh Hlen. unfold step.
  rewrite Hcb, (heading_not_open_fence _ _ _ Hh), Hf, Hh.
  destruct (Nat.eqb_spec (String.length level) 1) as [E|_]; [lia|].
  destruct (Nat.eqb_spec (String.length level) 2) as [E|_]; [lia|].
  reflexivity.
Qed.

Lemma level3_heading_dropped_witness :
  heading_match ("### Details" ++ newline) = Some ("###", "Details")
  /\ step in_front ("### Details" ++ newline) = Ok in_front.
Proof.
  split; [reflexivity|].
  apply (level3_heading_dropped in_front _ "###" "Details");
    [reflexivity | reflexivity | reflexivity | simpl; lia].
Defined.

(** ** Fenced blocks *)

Lemma append_line_with_text (st : pstate) (cb : bool) (d : dict string)
      (f txt line : string) :
  field st = Some f ->
  append_line (with_text st cb d f txt) line
  = Ok (with_text st cb d f (txt ++ line)).
Proof.
  intros Hf. unfold append_line, with_text. simpl. rewrite Hf. simpl.
  erewrite modify_field_ok;
    [ | apply note_fields_set | apply dict_get_set_same ].
  simpl. now rewrite !dict_set_set.
Qed.

Lemma step_in_block (st : pstate) (d : dict string) (f txt line : string) :
  field st = Some f -> field_open (Some f) = true ->
  step (with_text st true d f txt) line
  = Ok (with_text st (negb (is_close_fence line)) d f (txt ++ line)).
Proof.
  intros Hf Ho. unfold step.
  replace (codeblock (with_text st true d f txt)) with true by reflexivity.
  replace (field (with_text st true d f txt)) with (Some f)
    by (symmetry; exact Hf).
  rewrite Ho, append_line_with_text by assumption. simpl.
  now destruct (is_close_fence line).
Qed.

Lemma run_in_block (body : list string) (st : pstate) (d : dict string)
      (f txt : string) :
  field st = Some f -> field_open (Some f) = true ->
  Forall (fun l => is_close_fence l = false) body ->
  run (with_text st true d f txt) body
  = Ok (with_text st true d f (txt ++ concat_str body)).
Proof.
  intros Hf Ho. revert txt. induction body as [|x body IH]; intros txt Hb.
  - simpl. now rewrite append_empty_r.
  - inversion Hb as [|? ? Hx Hb']; subst. simpl.
    rewrite step_in_block, Hx by assumption. simpl.
    rewrite IH by assumption. now rewrite append_assoc.
Qed.

Lemma step_open_fence (st : pstate) (d : dict string) (f txt line : string) :
  codeblock st = false ->
  field st = Some f -> field_open (Some f) = true ->
  note_fields (note st) = Ok d -> dict_get d f = Some txt ->
  is_open_fence line = true ->
  step st line = Ok (with_text st true d f (txt ++ line)).
Proof.
  intros Hcb Hf Ho Hd Ht Hl. unfold step. rewrite Hcb, Hl. simpl.
  rewrite Hf, Ho. unfold append_line. simpl. rewrite Hf. simpl.
  now erewrite modify_field_ok by eassumption.
Qed.

(** C9: with a field open, an opening fence, the lines up to the next
    closing fence and that closing fence are all added to the field's text
    as they are, whatever the lines in between look like; nothing else in
    the state changes, and the parser is outside the fenced block again. *)
Theorem fenced_block_verbatim (st : pstate) (d : dict string)
        (f txt opening closing : string) (body : list string) :
  codeblock st = false ->
  field st = Some f -> field_open (Some f) = true ->
  note_fields (note st) = Ok d -> dict_get d f = Some txt ->
  is_open_fence opening = true ->
  Forall (fun l => is_close_fence l = false) body ->
  is_close_fence closing = true ->
  run st (opening :: body ++ [closing])
  = Ok (with_text st false d f
          (txt ++ opening ++ concat_str body ++ closing)).
Proof.
  intros Hcb Hf Ho Hd Ht Hop Hb Hcl. simpl.
  rewrite (step_open_fence st d f txt) by assumption. simpl.
  rewrite run_app, run_in_block by assumption. simpl.
  rewrite step_in_block, Hcl by assumption. simpl.
  now rewrite !append_assoc.
Qed.

Lemma fenced_block_verbatim_witness :
  run in_front
      [fence ++ "python" ++ newline; "# not a note" ++ newline;
       "key: value" ++ newline; fence ++ newline]
  = Ok (with_text in_front false [("Front", "a" ++ newline)] "Front"
          (("a" ++ newline) ++ (fence ++ "python" ++ newline)
           ++ concat_str ["# not a note" ++ newline; "key: value" ++ newline]
           ++ (fence ++ newline))).
Proof.
  apply (fenced_block_verbatim in_front [("Front", "a" ++ newline)] "Front"
           ("a" ++ newline) (fence ++ "python" ++ newline) (fence ++ newline)
           ["# not a note" ++ newline; "key: value" ++ newline]);
    try reflexivity.
  repeat constructor.
Defined.

(** Without an open field the lines of a fenced block are passed over. *)
Lemma fenced_block_without_field (st : pstate) (opening closing : string)
      (body : list string) :
  codeblock st = false -> field_open (field st) = false ->
  is_open_fence opening = true ->
  Forall (fun l => is_close_fence l = false) body ->
  is_close_fence closing = true ->
  run st (opening :: body ++ [closing]) = Ok st.
Proof.
  intros Hcb Hf Hop Hb Hcl. simpl. unfold step at 1. rewrite Hcb, Hop. simpl.
  rewrite Hf. simpl. rewrite run_app.
  assert (Hrun : run (set_codeblock st true) body = Ok (set_codeblock st true)).
  { induction Hb as [|x body Hx Hb IH]; simpl; auto.
    unfold step at 1. simpl. rewrite Hf, Hx. simpl. exact IH. }
  rewrite Hrun. simpl. unfold step. simpl. rewrite Hf, Hcl. simpl.
  destruct st; simpl in *; subst; reflexivity.
Qed.

(** ** Headings of level two *)

Lemma strip_field_keeps_keys (st st' : pstate) (k : string) :
  strip_field st = Ok st' ->
  dict_contains k (note st) = true -> dict_contains k (note st') = true.
Proof.
  unfold strip_field. intros H Hk.
  destruct (modify_field _ _ _) as [n|e] eqn:E; simpl in H; inversion H; subst.
  apply modify_field_inv in E as (d & txt & Hd & Hf & ->). simpl.
  apply dict_contains_get. destruct (String.eqb_spec "fields" k) as [<-|Hne].
  - rewrite dict_get_set_same. eauto.
  - rewrite dict_get_set_other by assumption. now apply dict_contains_get.
Qed.

Lemma strip_field_total (st : pstate) :
  field_in_note st -> field_open (field st) = true ->
  exists st', strip_field st = Ok st'.
Proof.
  intros Hinv Hf. destruct (Hinv Hf) as (d & txt & Hd & Ht).
  unfold strip_field. erewrite modify_field_ok by eassumption. simpl. eauto.
Qed.

Lemma level2_reserved (st : pstate) (title : string) :
  field_in_note st ->
  dict_contains title (note st) = true ->
  level2 st title = Raise Abort.
Proof.
  intros Hinv Hk. unfold level2.
  destruct (field_open (field st)) eqn:Hf; simpl.
  - destruct (strip_field_total st Hinv Hf) as [st1 H1]. rewrite H1. simpl.
    now rewrite (strip_field_keeps_keys st st1 title H1 Hk).
  - now rewrite Hk.
Qed.

(** C10: the parse is aborted by a level-two heading whose title is a key
    of the current note record, at whatever point of a file, although no
    field name is repeated: so it is for the titles [title] and [fields],
    which every record holds, and for the name of a property line of the
    block. *)
Theorem reserved_title_aborts :
  (forall (content : string) (pre post : list string) (st : pstate)
          (line level title : string),
      file_lines (universal_newlines content) = (pre ++ line :: post)%list ->
      run init_state pre = Ok st ->
      codeblock st = false ->
      heading_match line = Some (level, title) ->
      String.length level = 2 ->
      dict_contains title (note st) = true ->
      _parse_file content = Raise Abort)
  /\ (let lines := ["# N"; "## title"] in
      NoDup (level2_titles (file_lines (text lines)))
      /\ _parse_file (text lines) = Raise Abort)
  /\ (let lines := ["# N"; "## Front"; "a"; "## fields"] in
      NoDup (level2_titles (file_lines (text lines)))
      /\ _parse_file (text lines) = Raise Abort)
  /\ (let lines := ["# N"; "model: X"; "## model"] in
      NoDup (level2_titles (file_lines (text lines)))
      /\ _parse_file (text lines) = Raise Abort).
Proof.
  split.
  - intros content pre post st line level title Hl Hrun Hcb Hh Hlen Hk.
    unfold _parse_file. rewrite Hl, run_app, Hrun. simpl.
    assert (Hs : step st line = Raise Abort).
    { unfold step. rewrite Hcb, (heading_not_open_fence _ _ _ Hh).
      rewrite (heading_not_property _ _ _ Hh), Hh, Hlen. simpl.
      destruct (field_open (field st)); apply level2_reserved; auto;
        apply (run_field_in_note pre init_state); auto using init_field_in_note. }
    now rewrite Hs.
  - repeat split; try reflexivity; simpl;
      repeat (constructor; [simpl; intuition discriminate|]); constructor.
Qed.

Lemma reserved_title_aborts_witness :
  _parse_file (text ["# N"; "model: X"; "## model"; "## Front"; "q"])
  = Raise Abort.
Proof.
  apply (proj1 reserved_title_aborts _
           ["# N" ++ newline; "model: X" ++ newline]
           ["## Front" ++ newline; "q" ++ newline]
           in_header ("## model" ++ newline) "##" "model");
    reflexivity.
Defined.

(** The example of the docstring, first note. *)
Example docstring_note :
  markdown_file_to_notes
    (text ["model: Basic"; "tags: marked"; ""; "# Note 1"; "## Front";
           "Question?"; ""; "## Back"; "Answer."])
  = Ok [[("title", VStr "Note 1");
         ("fields", VDict [("Front", "Question?"); ("Back", "Answer.")]);
         ("model", VStr "Basic"); ("markdown", VBool true);
         ("tags", VStr "marked")]].
Proof. reflexivity. Qed.

(** ** Repeated field titles *)

(** C2, on the code: a block with two headings [## Front] is parsed without
    an error; the second heading empties the field again, and the text
    under the first one is lost. *)
Theorem duplicate_field_not_rejected :
  _parse_file (text ["# N"; "## Front"; "a"; "## Front"; "b"])
  = Ok ([], [[("title", VStr "N"); ("fields", VDict [("Front", "b")])]]).
Proof. reflexivity. Qed.

(** ** The end of the input *)

(** C4, as the code has it: when the input ends with a field open (one
    whose title is not empty), the text of that field is stripped and the
    current note is added to the notes; in every other case the function
    returns the defaults and the notes as the loop left them, and what the
    current note holds is returned nowhere. *)
Theorem end_of_input (content : string) (st : pstate) :
  run init_state (file_lines (universal_newlines content)) = Ok st ->
  (field_open (field st) = true ->
   exists d txt,
     note_fields (note st) = Ok d
     /\ dict_get d (field_title (field st)) = Some txt
     /\ _parse_file content
        = Ok (defaults st,
              (notes st ++
               [dict_set (note st) "fields"
                  (VDict (dict_set d (field_title (field st)) (strip txt)))])%list))
  /\ (field_open (field st) = false ->
      _parse_file content = Ok (defaults st, notes st)).
Proof.
  intros Hrun. unfold _parse_file. rewrite Hrun. simpl. unfold finish. split.
  - intros Hf.
    destruct (run_field_in_note _ _ _ init_field_in_note Hrun Hf)
      as (d & txt & Hd & Ht).
    exists d, txt. repeat split; auto. rewrite Hf.
    assert (Hn : dict_truthy (note st) = true).
    { unfold note_fields in Hd. destruct (note st); [discriminate|reflexivity]. }
    rewrite Hn. simpl. unfold strip_field.
    now erewrite modify_field_ok by eassumption.
  - intros Hf. rewrite Hf, andb_false_r. reflexivity.
Qed.

Lemma end_of_input_witness :
  _parse_file (text ["# N"; "## Front"; "a"])
  = Ok ([], [[("title", VStr "N"); ("fields", VDict [("Front", "a")])]])
  /\ _parse_file (text ["# N"; "model: X"]) = Ok ([], []).
Proof.
  split.
  - destruct (proj1 (end_of_input (text ["# N"; "## Front"; "a"]) in_front
                       eq_refl) eq_refl)
      as (d & txt & Hd & Ht & H).
    inversion Hd; subst d. inversion Ht; subst txt. exact H.
  - exact (proj2 (end_of_input (text ["# N"; "model: X"]) in_header eq_refl)
                 eq_refl).
Defined.

(** C4 as stated fails: a block that is open at the end of the input and
    has no field leaves its property out of the defaults, while the same
    block followed by another level-one heading puts it there. *)
Lemma end_of_input_no_fold :
  (exists d ns, _parse_file (text ["# A"; "model: X"]) = Ok (d, ns)
                /\ dict_get d "model" = None)
  /\ (exists d ns, _parse_file (text ["# A"; "model: X"; "# B"]) = Ok (d, ns)
                   /\ dict_get d "model" = Some (VStr "X")).
Proof.
  split; eexists; eexists; split; reflexivity.
Qed.

(** ** The assembler *)

Section DictKeys.
Context {V : Type}.

Lemma dict_get_none_keys (d : dict V) (k : string) :
  dict_get d k = None <-> ~ In k (keys d).
Proof.
  induction d as [|[k0 v0] d IH]; simpl.
  - tauto.
  - destruct (String.eqb_spec k0 k) as [->|Hne].
    + split; [discriminate | tauto].
    + rewrite IH. tauto.
Qed.

Lemma keys_dict_set (d : dict V) (k k' : string) (v : V) :
  In k' (keys (dict_set d k v)) <-> k' = k \/ In k' (keys d).
Proof.
  induction d as [|[k0 v0] d IH]; simpl.
  - intuition.
  - destruct (String.eqb_spec k0 k) as [->|Hne]; simpl.
    + intuition.
    + rewrite IH. intuition.
Qed.

Lemma nodup_dict_set (d : dict V) (k : string) (v : V) :
  NoDup (keys d) -> NoDup (keys (dict_set d k v)).
Proof.
  induction d as [|[k0 v0] d IH]; simpl; intros H.
  - repeat constructor. simpl. tauto.
  - inversion H as [|? ? Hn Hd]; subst.
    destruct (String.eqb_spec k0 k) as [->|Hne]; simpl.
    + now constructor.
    + constructor; auto. rewrite keys_dict_set. intuition.
Qed.

Lemma keys_dict_pop (d : dict V) (k k' : string) :
  In k' (keys (dict_pop d k)) -> In k' (keys d).
Proof.
  induction d as [|[k0 v0] d IH]; simpl; auto.
  destruct (k0 =? k); simpl; intuition.
Qed.

Lemma nodup_dict_pop (d : dict V) (k : string) :
  NoDup (keys d) -> NoDup (keys (dict_pop d k)).
Proof.
  induction d as [|[k0 v0] d IH]; simpl; intros H; auto.
  inversion H as [|? ? Hn Hd]; subst.
  destruct (k0 =? k); simpl; auto.
  constructor; auto. intros Hin. apply Hn. eapply keys_dict_pop; eauto.
Qed.

Lemma dict_get_pop_other (d : dict V) (k k' : string) :
  k <> k' -> dict_get (dict_pop d k) k' = dict_get d k'.
Proof.
  intros Hne. induction d as [|[k0 v0] d IH]; simpl; auto.
  destruct (String.eqb_spec k0 k) as [->|H0]; simpl.
  - destruct (String.eqb_spec k k'); [contradiction | reflexivity].
  - now rewrite IH.
Qed.

Lemma nodup_dict_update (a b : dict V) :
  NoDup (keys a) -> NoDup (keys (dict_update a b)).
Proof.
  unfold dict_update. revert a.
  induction b as [|[k v] b IH]; simpl; intros a Ha; auto.
  apply IH. now apply nodup_dict_set.
Qed.

Lemma dict_get_update (a b : dict V) (k : string) :
  NoDup (keys b) ->
  dict_get (dict_update a b) k
  = match dict_get b k with Some v => Some v | None => dict_get a k end.
Proof.
  unfold dict_update. revert a.
  induction b as [|[k0 v0] b IH]; simpl; intros a Hb; auto.
  inversion Hb as [|? ? Hn Hd]; subst. rewrite IH by assumption.
  destruct (String.eqb_spec k0 k) as [->|Hne].
  - apply dict_get_none_keys in Hn. rewrite Hn. apply dict_get_set_same.
  - destruct (dict_get b k); auto. now apply dict_get_set_other.
Qed.

Lemma keys_filter (p : string * V -> bool) (d : dict V) (k : string) :
  In k (keys (filter p d)) -> In k (keys d).
Proof.
  induction d as [|kv d IH]; simpl; auto.
  destruct (p kv); simpl; intuition.
Qed.

Lemma nodup_filter (p : string * V -> bool) (d : dict V) :
  NoDup (keys d) -> NoDup (keys (filter p d)).
Proof.
  induction d as [|kv d IH]; simpl; intros H; auto.
  inversion H as [|? ? Hn Hd]; subst.
  destruct (p kv); simpl; auto.
  constructor; auto. intros Hin. apply Hn. eapply keys_filter; eauto.
Qed.

Lemma dict_get_filter (q : string -> bool) (d : dict V) (k : string) :
  q k = true ->
  dict_get (filter (fun kv => q (fst kv)) d) k = dict_get d k.
Proof.
  intros Hk. induction d as [|[k0 v0] d IH]; simpl; auto.
  destruct (String.eqb_spec k0 k) as [->|Hne].
  - rewrite Hk. simpl. now rewrite String.eqb_refl.
  - destruct (q k0); simpl; auto.
    destruct (String.eqb_spec k0 k); [contradiction | auto].
Qed.
End DictKeys.

Lemma parse_markdown_flag_other (d : dict pyval) (k : string) :
  k <> "markdown" -> k <> "md" ->
  dict_get (parse_markdown_flag d) k = dict_get d k.
Proof.
  intros H1 H2. unfold parse_markdown_flag.
  destruct (dict_get d "markdown").
  - apply dict_get_set_other. congruence.
  - destruct (dict_get d "md"); auto.
    rewrite dict_get_pop_other by congruence.
    apply dict_get_set_other. congruence.
Qed.

Lemma parse_markdown_flag_nodup (d : dict pyval) :
  NoDup (keys d) -> NoDup (keys (parse_markdown_flag d)).
Proof.
  intros H. unfold parse_markdown_flag.
  destruct (dict_get d "markdown").
  - now apply nodup_dict_set.
  - destruct (dict_get d "md"); auto.
    now apply nodup_dict_pop, nodup_dict_set.
Qed.

Lemma complete_note_total (dflt n : dict pyval) :
  tags_ok n -> exists n', complete_note dflt n = Ok n'.
Proof.
  unfold tags_ok, complete_note, remove_comma. intros H.
  rewrite parse_markdown_flag_other by discriminate.
  destruct (dict_get n "tags") as [[t| |]|]; simpl; try contradiction; eauto.
Qed.

Lemma complete_note_inherits (dflt n n' : dict pyval) (k : string) :
  NoDup (keys dflt) -> k <> "markdown" -> k <> "md" ->
  dict_contains k n = false -> dict_contains "tags" n = false ->
  complete_note dflt n = Ok n' ->
  dict_get n' k = dict_get dflt k.
Proof.
  intros Hd H1 H2 Hk Ht. unfold complete_note, remove_comma.
  assert (Ht' : dict_get (parse_markdown_flag n) "tags" = None).
  { rewrite parse_markdown_flag_other by discriminate.
    unfold dict_contains in Ht. destruct (dict_get n "tags"); congruence. }
  rewrite Ht'. simpl. intros H. inversion H; subst; clear H.
  assert (Hk' : dict_get (parse_markdown_flag n) k = None).
  { rewrite parse_markdown_flag_other by assumption.
    unfold dict_contains in Hk. destruct (dict_get n k); congruence. }
  rewrite dict_get_update by now apply nodup_filter.
  rewrite (dict_get_filter
             (fun k => negb (dict_contains k (parse_markdown_flag n)))).
  - rewrite Hk'. now destruct (dict_get dflt k).
  - unfold dict_contains. now rewrite Hk'.
Qed.

Lemma map_result_total {A B : Type} (f : A -> result B) (l : list A) :
  Forall (fun x => exists y, f x = Ok y) l ->
  exists out, map_result f l = Ok out
              /\ forall i x, nth_error l i = Some x ->
                             exists y, nth_error out i = Some y /\ f x = Ok y.
Proof.
  induction 1 as [|x l [y Hy] Hl [out [Hout Hnth]]]; simpl.
  - exists []. split; auto. intros [|i] x H; discriminate.
  - rewrite Hy, Hout. simpl. exists (y :: out). split; auto.
    intros [|i] x' H; simpl in *.
    + inversion H; subst. eauto.
    + eauto.
Qed.

(** The defaults the notes are completed with, for file defaults that hold
    a model and a tag list. *)
Lemma assemble_inherits (dflt : dict pyval) (ns : list (dict pyval))
      (m t : string) :
  NoDup (keys dflt) ->
  dict_get dflt "model" = Some (VStr m) ->
  dict_get dflt "tags" = Some (VStr t) ->
  Forall tags_ok ns ->
  exists out,
    assemble dflt ns = Ok out
    /\ forall i n,
        nth_error ns i = Some n ->
        dict_contains "model" n = false ->
        dict_contains "tags" n = false ->
        exists n', nth_error out i = Some n'
                   /\ dict_get n' "model" = Some (VStr m)
                   /\ dict_get n' "tags" = Some (VStr (replace t "," "")).
Proof.
  intros Hnd Hm Ht Hns. unfold assemble, remove_comma.
  rewrite parse_markdown_flag_other, Ht by discriminate. simpl.
  set (d1 := dict_set (parse_markdown_flag dflt) "tags" (VStr (replace t "," ""))).
  assert (Hd1 : NoDup (keys d1))
    by now apply nodup_dict_set, parse_markdown_flag_nodup.
  set (d2 := dict_update explicit_defaults d1).
  assert (Hd2 : NoDup (keys d2)).
  { apply nodup_dict_update. simpl.
    repeat (constructor; [simpl; intuition discriminate|]). constructor. }
  destruct (map_result_total (complete_note d2) ns) as (out & Hout & Hnth).
  { eapply Forall_impl; [|exact Hns]. intros n. apply complete_note_total. }
  exists out. split; auto. intros i n Hi Hnm Hnt.
  destruct (Hnth i n Hi) as (n' & Hn' & Hc). exists n'. split; auto.
  rewrite (complete_note_inherits d2 n n' "model"), (complete_note_inherits d2 n n' "tags");
    auto; try discriminate.
  unfold d2. rewrite !dict_get_update by assumption. unfold d1.
  rewrite dict_get_set_same.
  rewrite dict_get_set_other, parse_markdown_flag_other, Hm by discriminate.
  auto.
Qed.

(** C3, as the code has it: with the file defaults model [Basic] and tags
    [x, y], a note without a model and tags of its own gets the model
    [Basic] and the tags [x] and [y].  The commas are deleted from the tag
    text, which is then split at white space. *)
Theorem defaults_inheritance (dflt : dict pyval) (ns : list (dict pyval)) :
  NoDup (keys dflt) ->
  dict_get dflt "model" = Some (VStr "Basic") ->
  dict_get dflt "tags" = Some (VStr "x, y") ->
  Forall tags_ok ns ->
  exists out,
    assemble dflt ns = Ok out
    /\ forall i n,
        nth_error ns i = Some n ->
        dict_contains "model" n = false ->
        dict_contains "tags" n = false ->
        exists n' t, nth_error out i = Some n'
                     /\ dict_get n' "model" = Some (VStr "Basic")
                     /\ dict_get n' "tags" = Some (VStr t)
                     /\ cli.split_tags ("" ++ " " ++ t) = ["x"; "y"].
Proof.
  intros Hnd Hm Ht Hns.
  destruct (assemble_inherits dflt ns "Basic" "x, y" Hnd Hm Ht Hns)
    as (out & Hout & H).
  exists out. split; auto. intros i n Hi Hnm Hnt.
  destruct (H i n Hi Hnm Hnt) as (n' & Hn' & Hm' & Ht').
  exists n', (replace "x, y" "," ""). auto.
Qed.

Lemma defaults_inheritance_witness :
  exists out,
    assemble basic_defaults [front_note] = Ok out
    /\ exists n' t, nth_error out 0 = Some n'
                    /\ dict_get n' "model" = Some (VStr "Basic")
                    /\ dict_get n' "tags" = Some (VStr t)
                    /\ cli.split_tags ("" ++ " " ++ t) = ["x"; "y"].
Proof.
  assert (Hnd : NoDup (keys basic_defaults)).
  { simpl. repeat (constructor; [simpl; intuition discriminate|]). constructor. }
  assert (Hns : Forall tags_ok [front_note]).
  { constructor; [exact I | constructor]. }
  destruct (defaults_inheritance basic_defaults [front_note] Hnd
              eq_refl eq_refl Hns) as (out & Hout & H).
  exists out. split; [exact Hout|].
  exact (H 0 front_note eq_refl eq_refl eq_refl).
Defined.

(** C3 as stated fails: the tag text [x,y] loses its comma and is the one
    tag [xy]. *)
Lemma comma_only_tags_merge :
  exists n,
    markdown_file_to_notes
      (text ["model: Basic"; "tags: x,y"; ""; "# N"; "## Front"; "q"])
    = Ok [n]
    /\ dict_get n "model" = Some (VStr "Basic")
    /\ dict_get n "tags" = Some (VStr "xy")
    /\ cli.split_tags ("" ++ " " ++ "xy") = ["xy"].
Proof. eexists. repeat split; reflexivity. Qed.

(** ** Replacing and restoring the newlines *)

Lemma startswith_cons (c a : ascii) (r p : string) :
  startswith (String c r) (String a p) = (a =? c)%char && startswith r p.
Proof. unfold startswith. simpl. now destruct (a =? c)%char. Qed.

Lemma replace_absent (s old new : string) :
  occurs old s = false -> replace s old new = s.
Proof.
  unfold replace. induction s as [|c r IH]; simpl; auto.
  intros H. apply orb_false_iff in H as [H1 H2].
  rewrite H1. f_equal. auto.
Qed.

Lemma replace_newline (s : string) :
  replace s newline "<br />" = with_breaks s.
Proof.
  unfold replace, newline. induction s as [|c r IH]; auto.
  cbn [replace_from with_breaks]. rewrite startswith_cons.
  rewrite Ascii.eqb_sym. destruct (c =? LF)%char; simpl in *; now rewrite IH.
Qed.

(** A pattern free of newlines and of [<] starts the text with breaks only
    where it starts the text. *)
Lemma startswith_with_breaks (p r : string) :
  forallb_str (fun a => negb (a =? LF)%char && negb (a =? "<")%char) p = true ->
  startswith (with_breaks r) p = startswith r p.
Proof.
  revert r. induction p as [|a p IH]; intros r Hp.
  - reflexivity.
  - simpl in Hp. apply andb_true_iff in Hp as [Ha Hp].
    apply andb_true_iff in Ha as [Ha1 Ha2].
    apply negb_true_iff in Ha1, Ha2.
    destruct r as [|c r]; auto. cbn [with_breaks].
    destruct (Ascii.eqb_spec c LF) as [->|Hc].
    + cbn [append]. rewrite !startswith_cons, Ha1, Ha2. reflexivity.
    + rewrite !startswith_cons, IH by assumption. reflexivity.
Qed.

Lemma breaks_restored (s : string) :
  occurs "<br />" s = false ->
  replace (with_breaks s) "<br />" newline = s.
Proof.
  unfold replace. induction s as [|c r IH]; auto.
  cbn [occurs with_breaks]. intros H. apply orb_false_iff in H as [H1 H2].
  destruct (Ascii.eqb_spec c LF) as [->|Hc].
  - simpl. f_equal. auto.
  - cbn [replace_from].
    replace (startswith (String c (with_breaks r)) "<br />") with false.
    + f_equal. auto.
    + rewrite startswith_cons in *. destruct ("<" =? c)%char; auto.
      simpl in *. now rewrite startswith_with_breaks.
Qed.

Lemma no_short_break (s : string) :
  occurs "<br>" s = false -> occurs "<br>" (with_breaks s) = false.
Proof.
  induction s as [|c r IH]; auto.
  cbn [occurs with_breaks]. intros H. apply orb_false_iff in H as [H1 H2].
  destruct (Ascii.eqb_spec c LF) as [->|Hc].
  - simpl. auto.
  - cbn [occurs]. rewrite IH by assumption. rewrite orb_false_r.
    rewrite startswith_cons in *. destruct ("<" =? c)%char; auto.
    simpl in *. now rewrite startswith_with_breaks.
Qed.

Lemma restored_id (s : string) :
  occurs "<br>" s = false -> occurs "<br />" s = false -> restored s = s.
Proof.
  intros H1 H2. unfold restored. rewrite replace_newline.
  rewrite (replace_absent (with_breaks s)) by now apply no_short_break.
  now apply breaks_restored.
Qed.

(** ** The converter *)

Lemma plain_char_not_lt (c : ascii) :
  plain_char c = true -> negb (c =? "<")%char = true.
Proof.
  destruct c as [[] [] [] [] [] [] [] []]; vm_compute; congruence.
Qed.

Lemma is_plain_no_lt (t : string) : is_plain t = true -> no_lt t = true.
Proof.
  unfold is_plain, no_lt. intros H.
  rewrite <- (take_drop_while plain_char t), forallb_str_app.
  rewrite (forallb_str_weaken plain_char _ _ plain_char_not_lt
             (take_while_forallb plain_char t)).
  apply orb_true_iff in H as [H|H].
  - apply is_empty_true in H. now rewrite H.
  - apply String.eqb_eq in H. now rewrite H.
Qed.

Section ConverterFacts.
Variable L : Libs.
Variable cfg : config.
Hypothesis HL : LibLaws L.

Lemma wrapped_tag (html : string) :
  _get_first_tag (BeautifulSoup L (wrapped L html)) <> None.
Proof.
  unfold wrapped.
  destruct (_get_first_tag (BeautifulSoup L html)) eqn:E.
  - congruence.
  - apply (soup_div L HL).
Qed.

Lemma attach_marker_ok (html plain : string) :
  exists v,
    original_html L plain = Ok v
    /\ utf8_encode L v
       = b64encode L (utf8_encode L (replace plain newline "<br />"))
    /\ forallb_str b64_char_ok v = true
    /\ attach_marker L html plain
       = Ok (soup_str L (set_first_tag_attr
                           (BeautifulSoup L (wrapped L html)) marker v)).
Proof.
  destruct (b64_text L HL (utf8_encode L (replace plain newline "<br />")))
    as (v & Hv & He & Hok).
  exists v. repeat split; auto.
  pose proof (wrapped_tag html) as Ht.
  unfold attach_marker. cbv zeta.
  unfold original_html in *. rewrite Hv. cbn [bind].
  unfold wrapped in *.
  destruct (_get_first_tag (BeautifulSoup L html)) eqn:E.
  - now rewrite E.
  - destruct (_get_first_tag (BeautifulSoup L ("<div>" ++ _)));
      [reflexivity | congruence].
Qed.

Lemma rendered_body_tag (t : string) :
  _get_first_tag (BeautifulSoup L (rendered_body L cfg t)) <> None.
Proof. apply wrapped_tag. Qed.

(** The renderer never fails on a text that is not plain: it returns the
    tree of [rendered_body] with the marker set on its first element. *)
Lemma markdown_to_html_marked (t : string) :
  is_plain t = false ->
  exists v,
    original_html L (escape L cfg t) = Ok v
    /\ utf8_encode L v
       = b64encode L (utf8_encode L (replace (escape L cfg t) newline "<br />"))
    /\ forallb_str b64_char_ok v = true
    /\ markdown_to_html L cfg t
       = Ok (soup_str L (set_first_tag_attr
                           (BeautifulSoup L (rendered_body L cfg t)) marker v)).
Proof.
  intros Hp.
  destruct (attach_marker_ok
              (markdown_markdown L
                 [Tables; Abbr; CodeHilite; DefList; FencedCode; Footnote]
                 (escape L cfg t))
              (escape L cfg t)) as (v & Hv & He & Hok & H).
  exists v. repeat split; auto.
  unfold markdown_to_html. rewrite Hp. exact H.
Qed.

Lemma markdown_to_html_total (t : string) :
  exists html, markdown_to_html L cfg t = Ok html.
Proof.
  destruct (is_plain t) eqn:Hp.
  - exists t. unfold markdown_to_html. now rewrite Hp.
  - destruct (markdown_to_html_marked t Hp) as (v & _ & _ & _ & H). eauto.
Qed.

(** So does the renderer of [cli.py]. *)
Lemma cli_markdown_to_html_total (t : string) :
  exists html, cli.markdown_to_html L t = Ok html.
Proof.
  unfold cli.markdown_to_html. destruct (is_plain t); [eauto|].
  cbv zeta.
  match goal with
  | |- context [markdown_markdown L ?e ?p] =>
      destruct (attach_marker_ok (markdown_markdown L e p) p)
        as (v & _ & _ & _ & H)
  end.
  eexists. exact H.
Qed.
End ConverterFacts.

(** C7: a text made of plain characters only is returned as it is by the
    renderer, and is not taken for generated HTML. *)
Theorem plain_fast_path (L : Libs) (cfg : config) (t : string) :
  LibLaws L ->
  forallb_str plain_char t = true ->
  markdown_to_html L cfg t = Ok t /\ is_generated_html L (Some t) = false.
Proof.
  intros HL Ht.
  assert (Hp : is_plain t = true).
  { unfold is_plain. now rewrite drop_while_end. }
  split.
  - unfold markdown_to_html. now rewrite Hp.
  - unfold is_generated_html.
    now rewrite (soup_text L HL t (is_plain_no_lt t Hp)).
Qed.

(** C8: for a text that is not plain the renderer returns HTML that is
    recognised as generated: it is the tree of the rendered text, or of the
    rendered text inside a [div] when that has no top-level element (with
    [&nbsp;] for an empty one), with the marker set on the first element. *)
Theorem generated_is_detected (L : Libs) (cfg : config) (t : string) :
  LibLaws L ->
  is_plain t = false ->
  exists html v,
    markdown_to_html L cfg t = Ok html
    /\ is_generated_html L (Some html) = true
    /\ original_html L (escape L cfg t) = Ok v
    /\ html = soup_str L (set_first_tag_attr
                            (BeautifulSoup L (rendered_body L cfg t)) marker v).
Proof.
  intros HL Hp.
  destruct (markdown_to_html_marked L cfg HL t Hp) as (v & Hv & _ & Hok & H).
  eexists. exists v. repeat split; eauto.
  destruct (soup_attr L HL _ v (rendered_body_tag L cfg HL t) Hok)
    as (tag & Htag & Hget).
  unfold is_generated_html. rewrite Htag.
  unfold dict_contains. now rewrite Hget.
Qed.

(** What the extractor returns for the rendering of any text that is not
    plain: the stored text, which is the escaped one. *)
Lemma roundtrip_stored (L : Libs) (cfg : config) (t : string) :
  LibLaws L ->
  is_plain t = false ->
  roundtrip L cfg t = Ok (restored (escape L cfg t)).
Proof.
  intros HL Hp. unfold roundtrip.
  destruct (markdown_to_html_marked L cfg HL t Hp) as (v & Hv & He & Hok & H).
  rewrite H. simpl.
  destruct (soup_attr L HL _ v (rendered_body_tag L cfg HL t) Hok)
    as (tag & Htag & Hget).
  unfold html_to_markdown. rewrite Htag, Hget, He.
  rewrite (b64_roundtrip L HL). simpl.
  rewrite (utf8_roundtrip L HL). reflexivity.
Qed.

(** C1, as the code has it: extracting from the rendering of a text that is
    not plain gives the text the renderer stored, that is the text after
    the renderer's replacements and inline styles, with a newline for each
    [<br>] and [<br />]; this is the text passed in when the replacements
    and styles leave it as it is and it holds no [<br>] and no [<br />]. *)
Theorem roundtrip_of_stored_text (L : Libs) (cfg : config) (t : string) :
  LibLaws L ->
  is_plain t = false ->
  roundtrip L cfg t = Ok (restored (escape L cfg t))
  /\ (escape L cfg t = t ->
      occurs "<br>" t = false -> occurs "<br />" t = false ->
      roundtrip L cfg t = Ok t).
Proof.
  intros HL Hp. split.
  - now apply roundtrip_stored.
  - intros He H1 H2. rewrite roundtrip_stored, He by assumption.
    now rewrite restored_id.
Qed.

(** ** The reference libraries satisfy the laws *)

Module ReferenceFacts.
Import Reference.

Lemma decode_one_byte (b0 b1 b2 b3 b4 b5 b6 : bool) (r : bytes) :
  ref_utf8_decode (Ascii b0 b1 b2 b3 b4 b5 b6 false :: r)
  = (s <- ref_utf8_decode r ;;
     Ok (String (Ascii b0 b1 b2 b3 b4 b5 b6 false) s)).
Proof. destruct b1, b2, b3, b4, b5, b6; reflexivity. Qed.

Lemma utf8_roundtrip (s : string) :
  ref_utf8_decode (ref_utf8_encode s) = Ok s.
Proof.
  induction s as [|[b0 b1 b2 b3 b4 b5 b6 b7] s IH]; auto.
  destruct b7.
  - simpl. now rewrite IH.
  - cbn [ref_utf8_encode]. now rewrite decode_one_byte, IH.
Qed.

Lemma b64_value_char (s : sextet) : b64_value (b64_char s) = Some s.
Proof.
  destruct s as [[[[[b5 b4] b3] b2] b1] b0].
  destruct b5, b4, b3, b2, b1, b0; reflexivity.
Qed.

Lemma b64_char_not_pad (s : sextet) : (b64_char s =? pad)%char = false.
Proof.
  destruct s as [[[[[b5 b4] b3] b2] b1] b0].
  destruct b5, b4, b3, b2, b1, b0; reflexivity.
Qed.

Lemma b64_char_in_alphabet (s : sextet) : b64_char_ok (b64_char s) = true.
Proof.
  destruct s as [[[[[b5 b4] b3] b2] b1] b0].
  destruct b5, b4, b3, b2, b1, b0; reflexivity.
Qed.

Lemma list_ind3 {A : Type} (P : list A -> Prop) :
  P [] -> (forall a, P [a]) -> (forall a b, P [a; b]) ->
  (forall a b c r, P r -> P (a :: b :: c :: r)) ->
  forall l, P l.
Proof.
  intros H0 H1 H2 H3.
  refine (fix F (l : list A) : P l :=
            match l with
            | [] => H0
            | [a] => H1 a
            | [a; b] => H2 a b
            | a :: b :: c :: r => H3 a b c r (F r)
            end).
Qed.

Lemma b64_roundtrip (b : bytes) : ref_b64decode (ref_b64encode b) = Ok b.
Proof.
  induction b as [|x|x y|x y z r IH] using list_ind3.
  - reflexivity.
  - destruct x as [a0 a1 a2 a3 a4 a5 a6 a7].
    cbn [ref_b64encode ref_b64decode]. now rewrite !b64_value_char.
  - destruct x as [a0 a1 a2 a3 a4 a5 a6 a7], y as [b0 b1 b2 b3 b4 b5 b6 b7].
    cbn [ref_b64encode ref_b64decode].
    now rewrite !b64_value_char, b64_char_not_pad.
  - destruct x as [a0 a1 a2 a3 a4 a5 a6 a7], y as [b0 b1 b2 b3 b4 b5 b6 b7],
             z as [c0 c1 c2 c3 c4 c5 c6 c7].
    cbn [ref_b64encode ref_b64decode].
    rewrite !b64_value_char, !b64_char_not_pad, IH. reflexivity.
Qed.

Lemma pad_in_alphabet : b64_char_ok pad = true.
Proof. reflexivity. Qed.

Lemma b64encode_alphabet (b : bytes) :
  forallb b64_char_ok (ref_b64encode b) = true.
Proof.
  induction b as [|x|x y|x y z r IH] using list_ind3.
  - reflexivity.
  - destruct x as [a0 a1 a2 a3 a4 a5 a6 a7].
    cbn [ref_b64encode forallb].
    now rewrite !b64_char_in_alphabet, pad_in_alphabet.
  - destruct x as [a0 a1 a2 a3 a4 a5 a6 a7], y as [b0 b1 b2 b3 b4 b5 b6 b7].
    cbn [ref_b64encode forallb].
    now rewrite !b64_char_in_alphabet, pad_in_alphabet.
  - destruct x as [a0 a1 a2 a3 a4 a5 a6 a7], y as [b0 b1 b2 b3 b4 b5 b6 b7],
             z as [c0 c1 c2 c3 c4 c5 c6 c7].
    cbn [ref_b64encode forallb].
    now rewrite !b64_char_in_alphabet, IH.
Qed.

Lemma alphabet_is_ascii (c : ascii) :
  b64_char_ok c = true ->
  exists b0 b1 b2 b3 b4 b5 b6, c = Ascii b0 b1 b2 b3 b4 b5 b6 false.
Proof.
  destruct c as [b0 b1 b2 b3 b4 b5 b6 [|]].
  - destruct b0, b1, b2, b3, b4, b5, b6; vm_compute; discriminate.
  - intros _. repeat eexists.
Qed.

Lemma ascii_text (l : bytes) :
  forallb b64_char_ok l = true ->
  ref_utf8_decode l = Ok (string_of_list_ascii l)
  /\ ref_utf8_encode (string_of_list_ascii l) = l
  /\ forallb_str b64_char_ok (string_of_list_ascii l) = true.
Proof.
  induction l as [|c l IH]; [simpl; auto|].
  cbn [forallb string_of_list_ascii forallb_str].
  intros H. apply andb_true_iff in H as [Hc Hl].
  destruct (IH Hl) as (H1 & H2 & H3). rewrite Hc, H3.
  destruct (alphabet_is_ascii c Hc) as (b0 & b1 & b2 & b3 & b4 & b5 & b6 & ->).
  rewrite decode_one_byte, H1. cbn [ref_utf8_encode bind]. rewrite H2. auto.
Qed.

Lemma alphabet_not_gt (c : ascii) :
  b64_char_ok c = true -> not_char ">" c = true.
Proof. destruct c as [[] [] [] [] [] [] [] []]; vm_compute; congruence. Qed.

Lemma alphabet_not_quote (c : ascii) :
  b64_char_ok c = true -> not_char "034" c = true.
Proof. destruct c as [[] [] [] [] [] [] [] []]; vm_compute; congruence. Qed.

Lemma strip_prefix_app (p s : string) : strip_prefix p (p ++ s) = Some s.
Proof.
  induction p as [|a p IH]; simpl.
  - now destruct s.
  - now rewrite Ascii.eqb_refl.
Qed.

Lemma forallb_take_while (p q : ascii -> bool) (s : string) :
  forallb_str p s = true -> forallb_str p (take_while q s) = true.
Proof.
  induction s as [|c s IH]; simpl; auto.
  intros H. apply andb_true_iff in H as [Hc Hs].
  destruct (q c); simpl; auto. now rewrite Hc, IH.
Qed.

Lemma first_tag_after_text (s : string) (t : soup) :
  _get_first_tag (text_node s ++ t)%list = _get_first_tag t.
Proof. unfold text_node. now destruct (is_empty s). Qed.

Lemma set_attr_after_text (s : string) (t : soup) (k v : string) :
  set_first_tag_attr (text_node s ++ t)%list k v
  = (text_node s ++ set_first_tag_attr t k v)%list.
Proof. unfold text_node. now destruct (is_empty s). Qed.

Lemma str_after_text (s : string) (t : soup) :
  ref_str (text_node s ++ t)%list = s ++ ref_str t.
Proof.
  unfold text_node, ref_str. destruct s; reflexivity.
Qed.

Lemma ref_attrs_set (a v : string) :
  dict_set (ref_attrs a) marker v = [(marker, v)].
Proof. unfold ref_attrs. now destruct (strip_prefix marker_attr a). Qed.

(** Reading a start tag that carries the marker. *)
Lemma parse_marked (pre name v body : string) :
  forallb_str (not_char "<") pre = true ->
  forallb_str (not_char ">") name = true ->
  forallb_str (not_char " ") name = true ->
  forallb_str b64_char_ok v = true ->
  exists contents,
    ref_parse (pre ++ "<" ++ name ++ marker_attr ++ v ++ dquote ++ ">" ++ body)
    = (text_node pre ++ [Tag name [(marker, v)] contents])%list.
Proof.
  intros Hpre Hgt Hsp Hv. unfold ref_parse.
  change ("<" ++ name ++ marker_attr ++ v ++ dquote ++ ">" ++ body)
    with (String "<" (name ++ marker_attr ++ v ++ dquote ++ ">" ++ body)).
  rewrite take_while_all, drop_while_all by (auto; reflexivity).
  assert (Hhdr : take_while (not_char ">")
                   (name ++ marker_attr ++ v ++ dquote ++ ">" ++ body)
                 = name ++ marker_attr ++ v ++ dquote).
  { replace (name ++ marker_attr ++ v ++ dquote ++ ">" ++ body)
      with ((name ++ marker_attr ++ v ++ dquote) ++ String ">" body)
      by (now rewrite !append_assoc).
    apply take_while_all; [|reflexivity].
    rewrite !forallb_str_app, Hgt.
    rewrite (forallb_str_weaken _ _ v alphabet_not_gt Hv). reflexivity. }
  rewrite Hhdr.
  change (marker_attr ++ v ++ dquote)
    with (String " " ((marker ++ "=" ++ dquote) ++ v ++ dquote)).
  rewrite take_while_all, drop_while_all by (auto; reflexivity).
  change (String " " ((marker ++ "=" ++ dquote) ++ v ++ dquote))
    with (marker_attr ++ v ++ dquote).
  unfold ref_attrs. rewrite strip_prefix_app.
  unfold dquote at 1. rewrite take_while_all; [eauto | | reflexivity].
  apply (forallb_str_weaken _ _ v alphabet_not_quote Hv).
Qed.

Lemma soup_attr (s v : string) :
  _get_first_tag (ref_parse s) <> None ->
  forallb_str b64_char_ok v = true ->
  exists tag,
    _get_first_tag
      (ref_parse (ref_str (set_first_tag_attr (ref_parse s) marker v)))
    = Some tag
    /\ dict_get (tag_attrs tag) marker = Some v.
Proof.
  intros Htag Hv. unfold ref_parse in Htag |- * at 2.
  rewrite first_tag_after_text in Htag.
  destruct (drop_while (not_char "<") s) as [|c r] eqn:Hrest;
    [now contradiction Htag|].
  rewrite set_attr_after_text, str_after_text.
  cbn [set_first_tag_attr]. rewrite ref_attrs_set.
  unfold ref_str. cbn [map concat_str node_str attr_str fst snd].
  rewrite !append_empty_r.
  set (name := take_while (not_char " ") (take_while (not_char ">") r)).
  set (body := concat_str (map node_str _)).
  destruct (parse_marked (take_while (not_char "<") s) name v body)
    as [contents Hparse].
  - apply take_while_forallb.
  - apply forallb_take_while, take_while_forallb.
  - apply take_while_forallb.
  - exact Hv.
  - replace (take_while (not_char "<") s ++
             "<" ++ name ++ attr_str (marker, v) ++ ">" ++ body)
      with (take_while (not_char "<") s ++
            "<" ++ name ++ marker_attr ++ v ++ dquote ++ ">" ++ body).
    + rewrite Hparse, first_tag_after_text. simpl. eexists. split; eauto.
    + unfold marker_attr, attr_str. cbn [fst snd].
      now rewrite !append_assoc.
Qed.

Lemma soup_text (s : string) :
  no_lt s = true -> _get_first_tag (ref_parse s) = None.
Proof.
  intros H. unfold ref_parse. rewrite first_tag_after_text.
  now rewrite (drop_while_end (not_char "<") s H).
Qed.

Lemma soup_div (s : string) :
  _get_first_tag (ref_parse ("<div>" ++ s ++ "</div>")) <> None.
Proof. unfold ref_parse. rewrite first_tag_after_text. discriminate. Qed.

Lemma laws : LibLaws libs.
Proof.
  constructor; simpl.
  - apply utf8_roundtrip.
  - apply b64_roundtrip.
  - intros b. exists (string_of_list_ascii (ref_b64encode b)).
    apply ascii_text, b64encode_alphabet.
  - apply soup_text.
  - apply soup_div.
  - apply soup_attr.
Qed.
End ReferenceFacts.

(** ** The converter on the reference libraries *)

Lemma plain_fast_path_witness :
  forallb_str plain_char "Hello, world?" = true
  /\ markdown_to_html Reference.libs Reference.no_styles "Hello, world?"
     = Ok "Hello, world?"
  /\ is_generated_html Reference.libs (Some "Hello, world?") = false.
Proof.
  split; [reflexivity|].
  exact (plain_fast_path Reference.libs Reference.no_styles "Hello, world?"
           ReferenceFacts.laws eq_refl).
Defined.

Lemma generated_is_detected_witness :
  is_plain newline = true
  /\ is_plain (newline ++ newline) = false
  /\ exists html v,
      markdown_to_html Reference.libs Reference.no_styles (newline ++ newline)
      = Ok html
      /\ is_generated_html Reference.libs (Some html) = true
      /\ original_html Reference.libs
           (escape Reference.libs Reference.no_styles (newline ++ newline))
         = Ok v
      /\ html = soup_str Reference.libs
                  (set_first_tag_attr
                     (BeautifulSoup Reference.libs
                        (rendered_body Reference.libs Reference.no_styles
                           (newline ++ newline)))
                     marker v).
Proof.
  split; [reflexivity|]. split; [reflexivity|].
  exact (generated_is_detected Reference.libs Reference.no_styles
           (newline ++ newline) ReferenceFacts.laws eq_refl).
Defined.

Lemma roundtrip_of_stored_text_witness :
  let t := "a *b*" ++ newline ++ "c" in
  is_plain t = false
  /\ roundtrip Reference.libs Reference.no_styles t
     = Ok (restored (escape Reference.libs Reference.no_styles t))
  /\ roundtrip Reference.libs Reference.no_styles t = Ok t.
Proof.
  cbv zeta. split; [reflexivity|].
  destruct (roundtrip_of_stored_text Reference.libs Reference.no_styles
              ("a *b*" ++ newline ++ "c") ReferenceFacts.laws eq_refl)
    as [H1 H2].
  split; [exact H1|]. apply H2; reflexivity.
Defined.

(** C1 as stated fails: a text with an escaped bracket comes back with the
    backslashes doubled, and one with a line break tag comes back with a
    newline in its place. *)
Lemma roundtrip_not_exact :
  is_plain "\[x\]" = false
  /\ roundtrip Reference.libs Reference.no_styles "\[x\]" = Ok "\\[x\\]"
  /\ is_plain "a<br>b" = false
  /\ roundtrip Reference.libs Reference.no_styles "a<br>b"
     = Ok ("a" ++ newline ++ "b")
  /\ ~ (forall (L : Libs) (cfg : config) (t : string),
           LibLaws L -> is_plain t = false -> roundtrip L cfg t = Ok t).
Proof.
  split; [reflexivity|]. split; [vm_compute; reflexivity|].
  split; [reflexivity|]. split; [vm_compute; reflexivity|].
  intros H.
  specialize (H Reference.libs Reference.no_styles "\[x\]"
                ReferenceFacts.laws eq_refl).
  vm_compute in H. discriminate.
Qed.

(** The same on any libraries that satisfy the laws. *)
Lemma roundtrip_doubles_backslash (L : Libs) :
  LibLaws L ->
  roundtrip L Reference.no_styles "\[x\]" = Ok "\\[x\\]".
Proof.
  intros HL. rewrite roundtrip_stored by (auto; reflexivity). reflexivity.
Qed.

(** ** Adding the parsed notes *)

Lemma warn_all_console (pairs : list (string * string)) (a : cli.Anki) :
  cli.console (warn_all a pairs)
  = (cli.console a
     ++ map (fun xy => cli.inconsistent (fst xy) (snd xy))
            (filter (fun xy => negb (fst xy =? snd xy)) pairs))%list.
Proof.
  unfold warn_all. revert a.
  induction pairs as [|xy pairs IH]; intros a; simpl.
  - now rewrite app_nil_r.
  - rewrite IH. destruct (fst xy =? snd xy); simpl; auto.
    now rewrite <- app_assoc.
Qed.

Section CliFacts.
Variable L : Libs.
Variable dupeOrEmpty : cli.Anki -> cli.anki_note -> bool.
Hypothesis HL : LibLaws L.

Lemma render_fields_total (fields : list string) :
  exists fs, map_result (cli.markdown_to_html L) fields = Ok fs.
Proof.
  destruct (map_result_total (cli.markdown_to_html L) fields) as (fs & H & _).
  - apply Forall_forall. intros x _. apply (cli_markdown_to_html_total L HL).
  - eauto.
Qed.

(** [cli._add_note] returns a note whenever there is a first field; what it
    prints comes after what was printed before. *)
Lemma _add_note_total (a : cli.Anki) (fields : list string) (tags : string)
      (md : pyval) :
  fields <> [] ->
  exists a' x extra,
    cli._add_note L dupeOrEmpty a fields tags md = (a', Ok x)
    /\ cli.n_tags x = cli.split_tags tags
    /\ cli.console a' = (cli.console a ++ extra)%list.
Proof.
  intros Hne. unfold cli._add_note.
  assert (Hfs : exists fs,
             (if cli.truthy md then map_result (cli.markdown_to_html L) fields
              else Ok fields) = Ok fs).
  { destruct (cli.truthy md); eauto using render_fields_total. }
  destruct Hfs as [fs ->].
  destruct (dupeOrEmpty a _); simpl.
  - destruct fields as [|f fields]; [contradiction|].
    do 3 eexists. split; [reflexivity|]. split; [reflexivity|]. simpl.
    rewrite <- !app_assoc. reflexivity.
  - do 3 eexists. split; [reflexivity|]. split; [reflexivity|]. simpl.
    now rewrite app_nil_r.
Qed.

Lemma add_notes_loop_app (pre rest : list (dict pyval)) (a : cli.Anki)
      (tags : string) (acc : list cli.anki_note) :
  cli.add_notes_loop L dupeOrEmpty a tags acc (pre ++ rest)%list
  = match cli.add_notes_loop L dupeOrEmpty a tags acc pre with
    | (a', Ok acc') => cli.add_notes_loop L dupeOrEmpty a' tags acc' rest
    | (a', Raise e) => (a', Raise e)
    end.
Proof.
  revert a acc. induction pre as [|n pre IH]; intros a acc; simpl; auto.
  destruct (cli.add_parsed_note L dupeOrEmpty a tags n) as [a' [x|e]]; auto.
Qed.

(** C6: when the loop reaches a parsed note whose model is known, a
    number of fields other than the model's aborts the whole call, after
    a message that names the model, and no list is returned; with the
    model's number of fields the note is added whatever its field names
    are, a warning is printed for each name that differs from the model's,
    and the loop goes on with the notes that follow. *)
Theorem field_count_validation
        (a : cli.Anki) (tags : string) (pre rest : list (dict pyval))
        (n : dict pyval) (a0 a1 : cli.Anki) (acc : list cli.anki_note)
        (model_name tg : string) (fs : dict string) (md : pyval) (m : cli.model) :
  cli.add_notes_from_list L dupeOrEmpty a pre tags = (a0, Ok acc) ->
  dict_get n "model" = Some (VStr model_name) ->
  dict_get n "fields" = Some (VDict fs) ->
  fs <> [] ->
  dict_get n "tags" = Some (VStr tg) ->
  dict_get n "markdown" = Some md ->
  cli.set_model a0 model_name = (a1, Ok m) ->
  (List.length fs <> List.length (cli.flds m) ->
   cli.add_notes_from_list L dupeOrEmpty a (pre ++ n :: rest)%list tags
   = (cli.set_modified
        (cli.echo a1 ("Error: Not enough fields for model " ++ model_name ++ "!"))
        false,
      Raise Abort))
  /\ (List.length fs = List.length (cli.flds m) ->
      exists a2 x extra,
        cli.add_notes_from_list L dupeOrEmpty a (pre ++ [n])%list tags
        = (a2, Ok (acc ++ [x])%list)
        /\ cli.n_tags x = cli.split_tags (tags ++ " " ++ tg)
        /\ cli.console a2
           = (cli.console a1 ++ warnings (cli.flds m) (keys fs) ++ extra)%list
        /\ cli.add_notes_from_list L dupeOrEmpty a (pre ++ n :: rest)%list tags
           = cli.add_notes_loop L dupeOrEmpty a2 tags (acc ++ [x])%list rest).
Proof.
  intros Hpre Hm Hf Hne Ht Hmd Hset.
  unfold cli.add_notes_from_list in *.
  assert (Hlen : List.length (keys fs) = List.length fs)
    by apply length_map.
  split; intros Hc.
  - rewrite add_notes_loop_app, Hpre. cbn [cli.add_notes_loop].
    unfold cli.add_parsed_note. rewrite Hm, Hset, Hf, Hlen.
    destruct (Nat.eqb_spec (List.length fs) (List.length (cli.flds m)));
      [contradiction | reflexivity].
  - assert (Hone : exists a2 x extra,
               cli.add_parsed_note L dupeOrEmpty a0 tags n = (a2, Ok x)
               /\ cli.n_tags x = cli.split_tags (tags ++ " " ++ tg)
               /\ cli.console a2
                  = (cli.console a1 ++ warnings (cli.flds m) (keys fs) ++ extra)%list).
    { unfold cli.add_parsed_note. rewrite Hm, Hset, Hf, Hlen, Hc.
      rewrite Nat.eqb_refl. cbn [negb]. rewrite Ht, Hmd.
      fold (warn_all a1 (combine (cli.flds m) (keys fs))).
      destruct (_add_note_total (warn_all a1 (combine (cli.flds m) (keys fs)))
                  (values fs) (tags ++ " " ++ tg) md)
        as (a2 & x & extra & Hadd & Htags & Hcons).
      - destruct fs; [contradiction | discriminate].
      - exists a2, x, extra. repeat split; auto.
        rewrite Hcons, warn_all_console. unfold warnings.
        now rewrite <- app_assoc. }
    destruct Hone as (a2 & x & extra & Hadd & Htags & Hcons).
    exists a2, x, extra.
    rewrite !add_notes_loop_app, Hpre. cbn [cli.add_notes_loop].
    rewrite Hadd. auto.
Qed.
End CliFacts.

Lemma field_count_validation_witness :
  cli.add_notes_from_list Reference.libs never_dupe
    basic_collection [renamed_field; three_fields; renamed_field] ""
  = (cli.set_modified
       (cli.echo (cli.set_modified
                (cli.add_to_col
                   (cli.echo basic_collection
                      "Warning: Inconsistent field names (Back != Answer)")
                   (cli.mk_note basic_model ["q"; "a"] ["t"]))
                true)
             "Error: Not enough fields for model Basic!")
       false,
     Raise Abort)
  /\ exists a2 x extra,
      cli.add_notes_from_list Reference.libs never_dupe
        basic_collection [renamed_field] ""
      = (a2, Ok [x])
      /\ cli.n_tags x = ["t"]
      /\ cli.console a2
         = ("Warning: Inconsistent field names (Back != Answer)" :: extra).
Proof.
  split.
  - refine (proj1 (field_count_validation Reference.libs
                     never_dupe ReferenceFacts.laws basic_collection ""
                     [renamed_field] [renamed_field] three_fields
                     _ _ _ "Basic" "" _ (VBool true) basic_model
                     eq_refl eq_refl eq_refl _ eq_refl eq_refl eq_refl) _).
    + discriminate.
    + simpl. lia.
  - destruct (proj2 (field_count_validation Reference.libs
                       never_dupe ReferenceFacts.laws basic_collection ""
                       [] [] renamed_field
                       _ _ _ "Basic" "t" _ (VBool true) basic_model
                       eq_refl eq_refl eq_refl ltac:(discriminate)
                       eq_refl eq_refl eq_refl) eq_refl)
      as (a2 & x & extra & H & Ht & Hc & _).
    exists a2, x, extra. repeat split; assumption.
Defined.


(** ** The notes [parse_notes_from_markdown] returns

    Every note it returns has the shape that [add_notes_from_list] reads:
    a model name, at least one field, a tag text and a markdown flag. *)

Lemma dict_get_in {V : Type} (d : dict V) (k : string) (v : V) :
  dict_get d k = Some v -> In (k, v) d.
Proof.
  induction d as [|[k0 v0] d IH]; simpl; try discriminate.
  destruct (String.eqb_spec k0 k) as [->|Hne]; intros H.
  - inversion H; subst. now left.
  - right. auto.
Qed.

Lemma dict_ok_get (d : dict pyval) (k : string) (v : pyval) :
  dict_ok d -> dict_get d k = Some v -> val_ok (k, v).
Proof.
  intros Hd Hg. apply dict_get_in in Hg.
  unfold dict_ok in Hd. rewrite Forall_forall in Hd. now apply Hd.
Qed.

Lemma dict_ok_str (d : dict pyval) (k : string) (v : pyval) :
  dict_ok d -> k <> "fields" -> dict_get d k = Some v -> exists t, v = VStr t.
Proof.
  intros Hd Hk Hg. pose proof (dict_ok_get d k v Hd Hg) as H.
  unfold val_ok in H. simpl in H. destruct v; try contradiction; eauto.
Qed.

Lemma dict_ok_set (d : dict pyval) (k : string) (v : pyval) :
  dict_ok d -> val_ok (k, v) -> dict_ok (dict_set d k v).
Proof.
  unfold dict_ok. intros Hd Hv. induction d as [|[k0 v0] d IH]; simpl.
  - now constructor.
  - inversion Hd as [|? ? H0 Hd']; subst.
    destruct (String.eqb_spec k0 k) as [->|Hne]; constructor; auto.
Qed.

Lemma dict_ok_pop (d : dict pyval) (k : string) :
  dict_ok d -> dict_ok (dict_pop d k).
Proof.
  unfold dict_ok. intros Hd. induction d as [|[k0 v0] d IH]; simpl; auto.
  inversion Hd as [|? ? H0 Hd']; subst.
  destruct (k0 =? k); auto.
Qed.

Lemma dict_ok_update (a b : dict pyval) :
  dict_ok a -> dict_ok b -> dict_ok (dict_update a b).
Proof.
  unfold dict_update. intros Ha Hb. revert a Ha.
  induction Hb as [|[k v] b Hkv Hb IH]; simpl; intros a Ha; auto.
  apply IH. now apply dict_ok_set.
Qed.

Lemma dict_set_nonempty {V : Type} (d : dict V) (k : string) (v : V) :
  dict_set d k v <> [].
Proof. destruct d as [|[k0 v0] d]; simpl; [|destruct (k0 =? k)]; discriminate. Qed.

Lemma fields_set_ok (n : dict pyval) (d : dict string) :
  dict_ok n -> dict_ok (dict_set n "fields" (VDict d)).
Proof. intros H. now apply dict_ok_set. Qed.

(** What [append_line] and [strip_field] change. *)
Lemma modify_state (st st' : pstate) (g : string -> string) :
  (n <- modify_field (note st) (field_title (field st)) g ;; Ok (set_note st n))
  = Ok st' ->
  exists d, d <> []
            /\ st' = set_note st (dict_set (note st) "fields" (VDict d)).
Proof.
  destruct (modify_field _ _ _) as [n|e] eqn:E; simpl; try discriminate.
  intros H. inversion H; subst.
  apply modify_field_inv in E as (d & txt & Hd & Hf & ->).
  eexists. split; [apply dict_set_nonempty | reflexivity].
Qed.

Lemma shaped_modify (st : pstate) (d : dict string) :
  shaped st -> shaped (set_note st (dict_set (note st) "fields" (VDict d))).
Proof.
  intros (Hn & Hd & Hns). repeat split; auto. now apply fields_set_ok.
Qed.

Lemma shaped_codeblock (st : pstate) (b : bool) :
  shaped st -> shaped (set_codeblock st b).
Proof. intros (Hn & Hd & Hns). repeat split; auto. Qed.

Lemma append_line_shaped (st st' : pstate) (line : string) :
  shaped st -> append_line st line = Ok st' -> shaped st'.
Proof.
  intros Hs H. apply modify_state in H as (d & _ & ->).
  now apply shaped_modify.
Qed.

Lemma level1_shaped (st st' : pstate) (title : string) :
  shaped st -> level1 st title = Ok st' -> shaped st'.
Proof.
  intros (Hn & Hd & Hns). unfold level1.
  destruct (dict_truthy (note st)).
  - destruct (field_open (field st)).
    + destruct (strip_field st) as [st1|e] eqn:E; simpl; try discriminate.
      intros H. inversion H; subst; clear H.
      apply modify_state in E as (d & Hne & ->). simpl.
      repeat split; auto.
      * repeat constructor.
      * apply Forall_app. split; auto. constructor; auto.
        split; [now apply fields_set_ok|].
        exists d. split; auto. apply dict_get_set_same.
    + simpl. intros H. inversion H; subst; clear H. simpl.
      repeat split; auto.
      * repeat constructor.
      * now apply dict_ok_update.
  - simpl. intros H. inversion H; subst; clear H. simpl.
    repeat split; auto. repeat constructor.
Qed.

Lemma level2_shaped (st st' : pstate) (title : string) :
  shaped st -> level2 st title = Ok st' -> shaped st'.
Proof.
  intros Hs. unfold level2.
  assert (H1 : forall st1,
             (if field_open (field st) then strip_field st else Ok st) = Ok st1 ->
             shaped st1).
  { intros st1. destruct (field_open (field st)).
    - intros H. apply modify_state in H as (d & _ & ->).
      now apply shaped_modify.
    - intros H. now inversion H; subst. }
  destruct (if field_open (field st) then strip_field st else Ok st)
    as [st1|e]; simpl; try discriminate.
  specialize (H1 st1 eq_refl). destruct H1 as (Hn & Hd & Hns).
  destruct (dict_contains title (note st1)); try discriminate.
  unfold new_field.
  destruct (note_fields (note st1)) as [d|e]; simpl; try discriminate.
  intros H. inversion H; subst; clear H. simpl.
  repeat split; auto. now apply fields_set_ok.
Qed.

Lemma step_shaped (st st' : pstate) (line : string) :
  shaped st -> step st line = Ok st' -> shaped st'.
Proof.
  intros Hs. unfold step.
  destruct (codeblock st).
  - destruct (field_open (field st)).
    + destruct (append_line st line) as [st1|e] eqn:E; simpl; try discriminate.
      intros H. inversion H; subst. apply append_line_shaped in E; auto.
      destruct (is_close_fence line); auto using shaped_codeblock.
    + simpl. intros H. inversion H; subst.
      destruct (is_close_fence line); auto using shaped_codeblock.
  - destruct (is_open_fence line).
    + cbv zeta. destruct (field_open (field (set_codeblock st true))).
      * apply append_line_shaped. now apply shaped_codeblock.
      * intros H. inversion H; subst. now apply shaped_codeblock.
    + destruct (if field_open (field st) then None else property_match line)
        as [[k v]|].
      * intros H. inversion H; subst. destruct Hs as (Hn & Hd & Hns).
        repeat split; auto. simpl. now apply dict_ok_set.
      * destruct (heading_match line) as [[level title]|].
        -- destruct (Nat.eqb (String.length level) 1);
             [now apply level1_shaped|].
           destruct (Nat.eqb (String.length level) 2);
             [now apply level2_shaped|].
           intros H. now inversion H; subst.
        -- destruct (field_open (field st)).
           ++ now apply append_line_shaped.
           ++ intros H. now inversion H; subst.
Qed.

Lemma run_shaped (lines : list string) (st st' : pstate) :
  shaped st -> run st lines = Ok st' -> shaped st'.
Proof.
  revert st. induction lines as [|x lines IH]; simpl; intros st Hs H.
  - now inversion H; subst.
  - destruct (step st x) as [st1|e] eqn:E; simpl in H; try discriminate.
    apply (IH st1); auto. now apply (step_shaped st st1 x).
Qed.

Lemma _parse_file_shaped (content : string) (dflt : dict pyval)
      (ns : list (dict pyval)) :
  _parse_file content = Ok (dflt, ns) -> dict_ok dflt /\ Forall note_ok ns.
Proof.
  unfold _parse_file.
  destruct (run init_state _) as [st|e] eqn:Hrun; simpl; try discriminate.
  assert (Hs : shaped st).
  { apply (run_shaped _ init_state st) in Hrun; auto.
    repeat split; constructor. }
  destruct Hs as (Hn & Hd & Hns). unfold finish.
  destruct (dict_truthy (note st) && field_open (field st)).
  - destruct (strip_field st) as [st1|e] eqn:E; simpl; try discriminate.
    intros H. inversion H; subst; clear H.
    apply modify_state in E as (d & Hne & ->). simpl. split; auto.
    apply Forall_app. split; auto. constructor; auto.
    split; [now apply fields_set_ok|].
    exists d. split; auto. apply dict_get_set_same.
  - intros H. inversion H; subst. auto.
Qed.

Lemma map_result_Forall {A B : Type} (f : A -> result B) (P : A -> Prop)
      (Q : B -> Prop) (l : list A) (out : list B) :
  (forall x y, P x -> f x = Ok y -> Q y) ->
  Forall P l -> map_result f l = Ok out -> Forall Q out.
Proof.
  intros Hf Hl. revert out. induction Hl as [|x l Hx Hl IH]; simpl; intros out H.
  - inversion H. constructor.
  - destruct (f x) as [y|e] eqn:E; simpl in H; try discriminate.
    destruct (map_result f l) as [ys|e]; simpl in H; try discriminate.
    inversion H; subst. constructor; eauto.
Qed.

Lemma get_or_str (d : dict pyval) (k t : string) :
  dict_ok d -> k <> "fields" -> exists t', cli.get_or d k (VStr t) = VStr t'.
Proof.
  intros Hd Hk. unfold cli.get_or.
  destruct (dict_get d k) as [v|] eqn:E; eauto.
  eapply dict_ok_str; eauto.
Qed.

Lemma cli_complete_note_shape (dflt n n' : dict pyval) (def_markdown : bool) :
  dict_ok dflt -> note_ok n ->
  cli.complete_note dflt def_markdown n = Ok n' -> parsed_shape n'.
Proof.
  intros Hd (Hn & fs & Hfs & Hne). unfold cli.complete_note.
  set (n1 := if dict_contains "model" n then n
             else dict_set n "model" (cli.get_or dflt "model" (VStr "Basic"))).
  assert (H1 : exists m, dict_get n1 "model" = Some (VStr m)).
  { unfold n1, dict_contains.
    destruct (dict_get n "model") as [v|] eqn:E.
    - destruct (dict_ok_str n "model" v Hn ltac:(discriminate) E) as [t ->].
      eauto.
    - destruct (get_or_str dflt "model" "Basic" Hd ltac:(discriminate))
        as [t ->].
      rewrite dict_get_set_same. eauto. }
  assert (H1f : dict_get n1 "fields" = Some (VDict fs)).
  { unfold n1. destruct (dict_contains "model" n); auto.
    now rewrite dict_get_set_other by discriminate. }
  assert (H1t : forall v, dict_get n1 "tags" = Some v -> exists t, v = VStr t).
  { unfold n1. destruct (dict_contains "model" n).
    - intros v. now apply dict_ok_str.
    - intros v. rewrite dict_get_set_other by discriminate.
      now apply dict_ok_str. }
  destruct H1 as [m H1].
  assert (H2 : exists n2 tg,
             match dict_get n1 "tags" with
             | Some (VStr t) => Ok (dict_set n1 "tags" (VStr (replace t "," "")))
             | Some _ => Raise AttributeError
             | None => Ok (dict_set n1 "tags"
                             (cli.get_or dflt "tags" (VStr "marked")))
             end = Ok n2
             /\ n2 = dict_set n1 "tags" (VStr tg)).
  { destruct (dict_get n1 "tags") as [v|] eqn:E.
    - destruct (H1t v eq_refl) as [t ->]. eauto.
    - destruct (get_or_str dflt "tags" "marked" Hd ltac:(discriminate))
        as [t ->]. eauto. }
  destruct H2 as (n2 & tg & -> & ->). cbn [bind].
  set (n2 := dict_set n1 "tags" (VStr tg)).
  assert (Hshape : forall n3 md,
             dict_get n3 "model" = dict_get n2 "model" ->
             dict_get n3 "fields" = dict_get n2 "fields" ->
             dict_get n3 "tags" = dict_get n2 "tags" ->
             dict_get n3 "markdown" = Some (VBool md) ->
             parsed_shape n3).
  { intros n3 md Em Ef Et Emd. exists m, fs, tg, md.
    rewrite Em, Ef, Et. unfold n2.
    rewrite dict_get_set_same, !dict_get_set_other by discriminate. auto. }
  destruct (dict_get n2 "markdown") as [v|].
  - intros H. inversion H; subst.
    apply (Hshape _ (in_true_yes v));
      rewrite ?dict_get_set_other by discriminate; auto.
    apply dict_get_set_same.
  - destruct (dict_get n2 "md") as [v|]; intros H; inversion H; subst.
    + apply (Hshape _ (in_true_yes v));
        rewrite dict_get_pop_other by discriminate;
        rewrite ?dict_get_set_other by discriminate; auto.
      apply dict_get_set_same.
    + apply (Hshape _ def_markdown);
        rewrite ?dict_get_set_other by discriminate; auto.
      apply dict_get_set_same.
Qed.

(** Every note [parse_notes_from_markdown] returns has a model name, a
    non-empty dict of fields, a tag text and a markdown flag. *)
Lemma parsed_notes_shape (content : string) (ns : list (dict pyval)) :
  cli.parse_notes_from_markdown content = Ok ns -> Forall parsed_shape ns.
Proof.
  unfold cli.parse_notes_from_markdown, cli._parse_file.
  destruct (_parse_file content) as [[dflt ns0]|e] eqn:Hp; simpl;
    try discriminate.
  destruct (_parse_file_shaped content dflt ns0 Hp) as [Hd Hns].
  destruct (cli.default_markdown dflt) as [def_markdown dflt1] eqn:Edm.
  assert (Hd1 : dict_ok dflt1).
  { unfold cli.default_markdown in Edm.
    destruct (dict_get dflt "markdown").
    - inversion Edm; subst. now apply dict_ok_pop.
    - destruct (dict_get dflt "md"); inversion Edm; subst; auto.
      now apply dict_ok_pop. }
  unfold remove_comma.
  destruct (dict_get dflt1 "tags") as [v|] eqn:Et.
  - destruct (dict_ok_str dflt1 "tags" v Hd1 ltac:(discriminate) Et) as [t ->].
    simpl. apply (map_result_Forall _ note_ok); auto.
    intros x y Hx. apply cli_complete_note_shape; auto.
    now apply dict_ok_set.
  - simpl. apply (map_result_Forall _ note_ok); auto.
    intros x y Hx. now apply cli_complete_note_shape.
Qed.

(** * Further properties of the parser *)

(** ** The steps as a relation *)

Lemma dict_update_nil {V : Type} (d : dict V) : dict_update d [] = d.
Proof. reflexivity. Qed.

Lemma contains_after_fields (n : dict pyval) (d : dict string) (k : string) :
  dict_get n "fields" <> None ->
  dict_contains k (dict_set n "fields" (VDict d)) = dict_contains k n.
Proof.
  intros Hf. unfold dict_contains.
  destruct (String.eqb_spec "fields" k) as [<-|Hne].
  - rewrite dict_get_set_same. destruct (dict_get n "fields"); congruence.
  - now rewrite dict_get_set_other.
Qed.

Lemma note_fields_some (n : dict pyval) (d : dict string) :
  note_fields n = Ok d -> dict_get n "fields" = Some (VDict d).
Proof.
  unfold note_fields. destruct (dict_get n "fields") as [[| |]|]; congruence.
Qed.

Lemma strip_field_inv (st st' : pstate) :
  strip_field st = Ok st' ->
  exists d old,
    note_fields (note st) = Ok d
    /\ dict_get d (field_title (field st)) = Some old
    /\ st' = set_note st
               (dict_set (note st) "fields"
                  (VDict (dict_set d (field_title (field st)) (strip old)))).
Proof.
  unfold strip_field.
  destruct (modify_field _ _ _) as [n|e] eqn:E; simpl; try discriminate.
  intros H. inversion H; subst.
  apply modify_field_inv in E as (d & old & Hd & Ho & ->). eauto.
Qed.

Lemma append_line_inv (st st' : pstate) (line : string) :
  append_line st line = Ok st' ->
  exists d old,
    note_fields (note st) = Ok d
    /\ dict_get d (field_title (field st)) = Some old
    /\ st' = with_text st (codeblock st) d (field_title (field st))
               (old ++ line).
Proof.
  unfold append_line.
  destruct (modify_field _ _ _) as [n|e] eqn:E; simpl; try discriminate.
  intros H. inversion H; subst.
  apply modify_field_inv in E as (d & old & Hd & Ho & ->). eauto.
Qed.

Lemma level1_transition (st st' : pstate) (title : string) :
  level1 st title = Ok st' -> transition st st'.
Proof.
  unfold level1.
  destruct (dict_truthy (note st)) eqn:Hn.
  - destruct (field_open (field st)) eqn:Hf.
    + destruct (strip_field st) as [st1|e] eqn:E; simpl; try discriminate.
      intros H. inversion H; subst; clear H.
      apply strip_field_inv in E as (d & old & Hd & Ho & ->). simpl.
      now apply t_note_append.
    + simpl. intros H. inversion H; subst; clear H.
      apply t_note_fold. now rewrite Hf, andb_false_r.
  - simpl. intros H. inversion H; subst; clear H.
    pose proof (t_note_fold st title) as T. rewrite Hn in T.
    destruct (note st); [|discriminate]. now apply T.
Qed.

Lemma level2_transition (st st' : pstate) (title : string) :
  level2 st title = Ok st' -> transition st st'.
Proof.
  unfold level2, new_field.
  destruct (field_open (field st)) eqn:Hf.
  - destruct (strip_field st) as [st1|e] eqn:E; simpl; try discriminate.
    apply strip_field_inv in E as (d & old & Hd & Ho & ->). simpl.
    rewrite note_fields_set. simpl.
    rewrite contains_after_fields
      by (rewrite (note_fields_some _ _ Hd); discriminate).
    destruct (dict_contains title (note st)) eqn:Hc; try discriminate.
    intros H. inversion H; subst; clear H. rewrite dict_set_set.
    now apply t_field_next.
  - simpl. destruct (dict_contains title (note st)) eqn:Hc; try discriminate.
    destruct (note_fields (note st)) as [d|e] eqn:Hd; simpl; try discriminate.
    intros H. inversion H; subst; clear H. now apply t_field_first.
Qed.

Lemma append_line_transition (st st' : pstate) (line : string) (b : bool) :
  field_open (field st) = true ->
  append_line st line = Ok st' ->
  transition st (set_codeblock st' b).
Proof.
  intros Hf H. apply append_line_inv in H as (d & old & Hd & Ho & ->).
  now apply (t_append st b d old line).
Qed.

Lemma set_codeblock_same (st : pstate) : set_codeblock st (codeblock st) = st.
Proof. now destruct st. Qed.

(** Every iteration that raises nothing is one of the steps. *)
Lemma step_transition (st st' : pstate) (line : string) :
  step st line = Ok st' -> transition st st'.
Proof.
  unfold step. destruct (codeblock st) eqn:Hcb.
  - destruct (field_open (field st)) eqn:Hf.
    + destruct (append_line st line) as [st1|e] eqn:E; simpl; try discriminate.
      intros H. inversion H; subst; clear H.
      apply append_line_inv in E as (d & old & Hd & Ho & ->).
      destruct (is_close_fence line).
      * now apply (t_append st false d old line).
      * now apply (t_append st (codeblock st) d old line).
    + simpl. intros H. inversion H; subst; clear H.
      destruct (is_close_fence line); [apply t_skip|].
      rewrite <- (set_codeblock_same st) at 2. apply t_skip.
  - destruct (is_open_fence line).
    + cbv zeta.
      replace (field (set_codeblock st true)) with (field st) by reflexivity.
      destruct (field_open (field st)) eqn:Hf.
      * intros H. apply append_line_inv in H as (d & old & Hd & Ho & ->).
        now apply (t_append st true d old line).
      * intros H. inversion H; subst. apply t_skip.
    + destruct (field_open (field st)) eqn:Hf.
      * destruct (heading_match line) as [[level title]|].
        -- destruct (Nat.eqb (String.length level) 1);
             [apply level1_transition|].
           destruct (Nat.eqb (String.length level) 2);
             [apply level2_transition|].
           intros H. inversion H; subst.
           rewrite <- (set_codeblock_same st') at 2. apply t_skip.
        -- intros H. apply append_line_inv in H as (d & old & Hd & Ho & ->).
           now apply (t_append st (codeblock st) d old line).
      * destruct (property_match line) as [[k v]|].
        -- intros H. inversion H; subst. now apply t_property.
        -- destruct (heading_match line) as [[level title]|].
           ++ destruct (Nat.eqb (String.length level) 1);
                [apply level1_transition|].
              destruct (Nat.eqb (String.length level) 2);
                [apply level2_transition|].
              intros H. inversion H; subst.
              rewrite <- (set_codeblock_same st') at 2. apply t_skip.
           ++ intros H. inversion H; subst.
              rewrite <- (set_codeblock_same st') at 2. apply t_skip.
Qed.

(** An invariant of the steps holds after the loop. *)
Lemma run_invariant (P : pstate -> Prop) :
  (forall st st', P st -> transition st st' -> P st') ->
  forall lines st st', P st -> run st lines = Ok st' -> P st'.
Proof.
  intros Hstep lines. induction lines as [|x lines IH]; simpl; intros st st' HP H.
  - now inversion H; subst.
  - destruct (step st x) as [st1|e] eqn:E; simpl in H; try discriminate.
    apply (IH st1); auto. apply (Hstep st); auto.
    now apply (step_transition st st1 x).
Qed.

(** What [_parse_file] returns, from the state the loop ends in. *)
Lemma _parse_file_inv (content : string) (dflt : dict pyval)
      (ns : list (dict pyval)) :
  _parse_file content = Ok (dflt, ns) ->
  exists st,
    run init_state (file_lines (universal_newlines content)) = Ok st
    /\ dflt = defaults st
    /\ (ns = notes st
        \/ exists d old,
            field_open (field st) = true
            /\ note_fields (note st) = Ok d
            /\ dict_get d (field_title (field st)) = Some old
            /\ ns = (notes st ++
                     [dict_set (note st) "fields"
                        (VDict (dict_set d (field_title (field st))
                                  (strip old)))])%list).
Proof.
  unfold _parse_file.
  destruct (run init_state _) as [st|e] eqn:Hrun; simpl; try discriminate.
  unfold finish. intros H. exists st. split; auto.
  destruct (dict_truthy (note st) && field_open (field st)) eqn:Hc.
  - destruct (strip_field st) as [st1|e] eqn:E; simpl in H; try discriminate.
    inversion H; subst; clear H.
    apply strip_field_inv in E as (d & old & Hd & Ho & ->). simpl.
    split; auto. right. exists d, old.
    apply andb_true_iff in Hc as [_ Hf]. auto.
  - inversion H; subst. auto.
Qed.

(** ** Stripping *)

Lemma rstrip_idempotent (s : string) : rstrip (rstrip s) = rstrip s.
Proof.
  induction s as [|c r IH]; auto. simpl.
  destruct (is_empty (rstrip r) && isspace c) eqn:E; auto.
  simpl. now rewrite IH, E.
Qed.

Lemma drop_while_length (p : ascii -> bool) (s : string) :
  String.length (drop_while p s) <= String.length s.
Proof.
  induction s as [|c r IH]; simpl; auto.
  destruct (p c); simpl; lia.
Qed.

Lemma lstrip_head (s : string) (c : ascii) (r : string) :
  lstrip s = String c r -> isspace c = false.
Proof. apply drop_while_head. Qed.

Lemma lstrip_rstrip (t : string) :
  lstrip t = t -> lstrip (rstrip t) = rstrip t.
Proof.
  destruct t as [|c r]; auto. intros H.
  pose proof (lstrip_head _ _ _ H) as Hc.
  cbn [rstrip]. rewrite Hc, andb_false_r. unfold lstrip. simpl. now rewrite Hc.
Qed.

Lemma lstrip_idempotent (s : string) : lstrip (lstrip s) = lstrip s.
Proof.
  destruct (lstrip s) as [|c r] eqn:E; auto.
  pose proof (lstrip_head _ _ _ E) as Hc. unfold lstrip. simpl. now rewrite Hc.
Qed.

Lemma strip_idempotent (s : string) : strip (strip s) = strip s.
Proof.
  unfold strip.
  rewrite (lstrip_rstrip (lstrip s)) by apply lstrip_idempotent.
  apply rstrip_idempotent.
Qed.

(** ** The field texts are stripped *)

Lemma dict_get_set {V : Type} (d : dict V) (k k' : string) (v : V) :
  dict_get (dict_set d k v) k'
  = if k =? k' then Some v else dict_get d k'.
Proof.
  destruct (String.eqb_spec k k') as [->|Hne].
  - apply dict_get_set_same.
  - now apply dict_get_set_other.
Qed.

Lemma open_field_title (st : pstate) :
  field_open (field st) = true ->
  open_field st = Some (field_title (field st)).
Proof.
  unfold open_field. intros H. rewrite H.
  destruct (field st); [reflexivity | discriminate].
Qed.

Lemma stripped_but_fields (f : option string) (n : dict pyval)
      (d : dict string) :
  (forall k v, dict_get d k = Some v -> Some k = f \/ strip v = v) ->
  stripped_but f (dict_set n "fields" (VDict d)).
Proof.
  intros H d' k v Hd'. rewrite dict_get_set_same in Hd'.
  inversion Hd'; subst. apply H.
Qed.

Lemma stripped_but_closed (f : option string) (n : dict pyval)
      (d : dict string) (k old : string) :
  stripped_but (Some k) n ->
  dict_get n "fields" = Some (VDict d) ->
  stripped_but None (dict_set n "fields" (VDict (dict_set d k (strip old)))).
Proof.
  intros Hn Hd. apply stripped_but_fields. intros k' v.
  rewrite dict_get_set. destruct (String.eqb_spec k k') as [->|Hne].
  - intros H. inversion H; subst. right. apply strip_idempotent.
  - intros H. destruct (Hn d k' v Hd H) as [E|E]; auto.
    inversion E; subst. contradiction.
Qed.

Lemma stripped_but_literal (f : option string) (title : string) :
  stripped_but f [("title", VStr title); ("fields", VDict [])].
Proof. intros d k v H. inversion H; subst. discriminate. Qed.

Lemma fields_stripped_step (st st' : pstate) :
  fields_stripped st -> transition st st' -> fields_stripped st'.
Proof.
  intros [Hn Hns] T. destruct T; unfold fields_stripped, open_field in *.
  - auto.
  - simpl. split; auto. rewrite H in *.
    apply stripped_but_fields. intros k v. rewrite dict_get_set.
    destruct (String.eqb_spec (field_title (field st)) k) as [<-|Hne].
    + intros _. left. destruct (field st); [reflexivity | discriminate].
    + intros Hk. apply (Hn d k v); auto using note_fields_some.
  - simpl. split; auto. rewrite H in *.
    intros d k' v' Hd. apply (Hn d k' v').
    destruct (String.eqb_spec k "fields") as [->|Hne].
    + rewrite dict_get_set_same in Hd. discriminate.
    + now rewrite dict_get_set_other in Hd.
  - simpl. split; [apply stripped_but_literal|].
    apply Forall_app. split; auto. constructor; [|constructor].
    rewrite H in Hn.
    apply (stripped_but_closed None); auto using note_fields_some.
    replace (Some (field_title (field st))) with (field st); auto.
    destruct (field st); [reflexivity | discriminate].
  - simpl. split; auto. apply stripped_but_literal.
  - simpl. split; auto. rewrite H in Hn.
    apply stripped_but_fields. intros k v. rewrite dict_get_set.
    destruct (String.eqb_spec title k) as [<-|Hne].
    + intros E. inversion E; subst. now right.
    + rewrite dict_get_set.
      destruct (String.eqb_spec (field_title (field st)) k) as [<-|Hne'].
      * intros E. inversion E; subst. right. apply strip_idempotent.
      * intros Hk. destruct (Hn d k v (note_fields_some _ _ H0) Hk) as [E|E];
          auto.
        destruct (field st); inversion E; subst. contradiction.
  - simpl. split; auto. rewrite H in Hn.
    apply stripped_but_fields. intros k v. rewrite dict_get_set.
    destruct (String.eqb_spec title k) as [<-|Hne].
    + intros E. inversion E; subst. now right.
    + intros Hk. destruct (Hn d k v (note_fields_some _ _ H0) Hk) as [E|E];
        [discriminate | auto].
Qed.

(** X1: in every note [_parse_file] returns, every field text is stripped:
    it has no white space at its start or at its end. *)
Theorem parsed_fields_are_stripped (content : string) (dflt : dict pyval)
        (ns : list (dict pyval)) :
  _parse_file content = Ok (dflt, ns) ->
  forall n d k v,
    In n ns ->
    dict_get n "fields" = Some (VDict d) ->
    dict_get d k = Some v ->
    strip v = v.
Proof.
  intros Hp. apply _parse_file_inv in Hp as (st & Hrun & -> & Hns).
  assert (Hs : fields_stripped st).
  { apply (run_invariant fields_stripped fields_stripped_step _ _ _) in Hrun;
      auto.
    split; [|constructor]. intros d k v H. discriminate. }
  destruct Hs as [Hn Hall].
  assert (Hres : Forall (stripped_but None) ns).
  { destruct Hns as [->|(d & old & Hf & Hd & Ho & ->)]; auto.
    apply Forall_app. split; auto. constructor; [|constructor].
    unfold open_field in Hn. rewrite Hf in Hn.
    apply (stripped_but_closed None); auto using note_fields_some.
    replace (Some (field_title (field st))) with (field st); auto.
    destruct (field st); [reflexivity | discriminate]. }
  intros n d k v Hin Hd Hk. rewrite Forall_forall in Hres.
  destruct (Hres n Hin d k v Hd Hk) as [E|E]; [discriminate | exact E].
Qed.

Lemma parsed_fields_are_stripped_witness :
  strip "one  two" = "one  two".
Proof.
  apply (parsed_fields_are_stripped
           (text ["# N"; "## Front"; ""; "  one  two  "; ""])
           [] [[("title", VStr "N"); ("fields", VDict [("Front", "one  two")])]]
           eq_refl
           [("title", VStr "N"); ("fields", VDict [("Front", "one  two")])]
           [("Front", "one  two")] "Front" "one  two");
    [left | ..]; reflexivity.
Defined.

(** ** Files without headings, and a field before any note *)

Lemma run_no_heading (lines : list string) (st : pstate) :
  field st = None ->
  forallb no_heading lines = true ->
  exists st', run st lines = Ok st'
              /\ field st' = None
              /\ defaults st' = defaults st /\ notes st' = notes st.
Proof.
  revert st. induction lines as [|x lines IH]; intros st Hf Hl.
  - exists st. simpl. auto.
  - simpl in Hl. apply andb_true_iff in Hl as [Hx Hl].
    unfold no_heading in Hx.
    assert (Hs : exists st1, step st x = Ok st1 /\ field st1 = None
                             /\ defaults st1 = defaults st
                             /\ notes st1 = notes st).
    { unfold step. rewrite Hf. cbn [field_open].
      destruct (codeblock st).
      - simpl. destruct (is_close_fence x); eexists; split; eauto.
      - destruct (is_open_fence x).
        + cbv zeta. simpl. rewrite Hf. simpl. eexists; split; eauto.
        + destruct (property_match x) as [[k v]|].
          * eexists; split; eauto.
          * destruct (heading_match x); [discriminate|]. eexists; split; eauto. }
    destruct Hs as (st1 & Hs & Hf1 & Hd1 & Hn1).
    destruct (IH st1 Hf1 Hl) as (st' & Hr & Hf' & Hd' & Hn').
    exists st'. simpl. rewrite Hs. simpl. repeat split; congruence.
Qed.

(** X2: a file in which no line is a heading gives no notes and no
    defaults, and no error: its property lines are read and then lost. *)
Theorem no_heading_no_notes (content : string) :
  forallb no_heading (file_lines (universal_newlines content)) = true ->
  _parse_file content = Ok ([], []).
Proof.
  intros H.
  destruct (run_no_heading _ init_state eq_refl H) as (st & Hr & Hf & Hd & Hn).
  unfold _parse_file. rewrite Hr. simpl. unfold finish.
  rewrite Hf. cbn [field_open]. rewrite andb_false_r.
  simpl in Hd, Hn. now rewrite Hd, Hn.
Qed.

Lemma no_heading_no_notes_witness :
  _parse_file (text ["model: Basic"; "tags: a, b"; ""; "Some text."])
  = Ok ([], []).
Proof.
  apply (no_heading_no_notes
           (text ["model: Basic"; "tags: a, b"; ""; "Some text."])).
  reflexivity.
Defined.

Lemma run_free_lines (lines : list string) :
  forallb free_line lines = true -> run init_state lines = Ok init_state.
Proof.
  induction lines as [|x lines IH]; auto.
  simpl. intros H. apply andb_true_iff in H as [Hx Hl].
  unfold free_line in Hx. apply andb_true_iff in Hx as [Hx Hh].
  apply andb_true_iff in Hx as [Hfence Hp]. apply negb_true_iff in Hfence.
  assert (Hs : step init_state x = Ok init_state).
  { unfold step. simpl. rewrite Hfence.
    destruct (property_match x); [discriminate|].
    destruct (heading_match x); [discriminate|]. reflexivity. }
  rewrite Hs. simpl. auto.
Qed.

(** X3: a field heading that comes before every note heading, after lines
    that are free text only, makes [_parse_file] raise [KeyError]: no note
    record with a dict of fields exists yet. *)
Theorem field_before_note_raises (content : string) (pre post : list string)
        (line level title : string) :
  file_lines (universal_newlines content) = (pre ++ line :: post)%list ->
  forallb free_line pre = true ->
  heading_match line = Some (level, title) ->
  String.length level = 2 ->
  _parse_file content = Raise KeyError.
Proof.
  intros Hl Hpre Hh Hlen. unfold _parse_file.
  rewrite Hl, run_app, (run_free_lines pre Hpre). simpl.
  assert (Hs : step init_state line = Raise KeyError).
  { unfold step. simpl.
    rewrite (heading_not_open_fence _ _ _ Hh), (heading_not_property _ _ _ Hh).
    rewrite Hh, Hlen. reflexivity. }
  now rewrite Hs.
Qed.

Lemma field_before_note_raises_witness :
  _parse_file (text ["Notes on birds"; ""; "## Front"; "q"]) = Raise KeyError.
Proof.
  apply (field_before_note_raises _
           ["Notes on birds" ++ newline; newline]
           ["q" ++ newline] ("## Front" ++ newline) "##" "Front");
    reflexivity.
Defined.

(** ** The notes returned have a title and a field *)

Lemma titled_set (n : dict pyval) (k : string) (v : string) :
  titled n -> titled (dict_set n k (VStr v)).
Proof.
  intros [t Ht]. unfold titled. rewrite dict_get_set.
  destruct ("title" =? k) eqn:E; rewrite String.eqb_sym in E; rewrite E; eauto.
Qed.

Lemma titled_fields (n : dict pyval) (d : dict string) :
  titled n -> titled (dict_set n "fields" (VDict d)).
Proof.
  intros [t Ht]. exists t. now rewrite dict_get_set_other by discriminate.
Qed.

Lemma titles_kept_step (st st' : pstate) :
  titles_kept st -> transition st st' -> titles_kept st'.
Proof.
  intros [Hn Hns] T.
  assert (Hlit : forall title, titled [("title", VStr title); ("fields", VDict [])])
    by (intros title; exists title; reflexivity).
  destruct T; unfold titles_kept; simpl.
  - auto.
  - split; auto. intros d' _. apply titled_fields. eauto.
  - split; auto. intros d Hd. apply titled_set. apply (Hn d).
    unfold note_fields in *.
    destruct (String.eqb_spec k "fields") as [->|Hne].
    + rewrite dict_get_set_same in Hd. discriminate.
    + now rewrite dict_get_set_other in Hd.
  - split; auto. apply Forall_app. split; auto.
    constructor; [|constructor]. apply titled_fields. eauto.
  - split; auto.
  - split; auto. intros d' _. apply titled_fields. eauto.
  - split; auto. intros d' _. apply titled_fields. eauto.
Qed.

(** X4: every note [_parse_file] returns has a title that is a string and
    at least one field, and each of its other values is a string; so is
    each value of the defaults, but for a dict under ['fields']. *)
Theorem parsed_notes_have_title_and_field (content : string)
        (dflt : dict pyval) (ns : list (dict pyval)) :
  _parse_file content = Ok (dflt, ns) ->
  (forall n, In n ns ->
     (exists t, dict_get n "title" = Some (VStr t))
     /\ (exists fs, dict_get n "fields" = Some (VDict fs) /\ fs <> [])
     /\ (forall k v, dict_get n k = Some v -> k <> "fields" ->
                     exists s, v = VStr s))
  /\ (forall k v, dict_get dflt k = Some v -> k <> "fields" ->
                  exists s, v = VStr s).
Proof.
  intros Hp. destruct (_parse_file_shaped content dflt ns Hp) as [Hd Hns].
  apply _parse_file_inv in Hp as (st & Hrun & -> & Hres).
  assert (Ht : titles_kept st).
  { apply (run_invariant titles_kept titles_kept_step _ _ _) in Hrun; auto.
    split; [|constructor]. intros d H. discriminate. }
  destruct Ht as [Htn Htns].
  assert (Hall : Forall titled ns).
  { destruct Hres as [->|(d & old & Hf & Hfd & Ho & ->)]; auto.
    apply Forall_app. split; auto. constructor; [|constructor].
    apply titled_fields. eauto. }
  split.
  - intros n Hin. rewrite Forall_forall in Hall, Hns.
    destruct (Hns n Hin) as [Hok Hfs]. repeat split; auto.
    + apply (Hall n Hin).
    + intros k v Hk Hne. now apply (dict_ok_str n k v).
  - intros k v Hk Hne. now apply (dict_ok_str (defaults st) k v).
Qed.

Lemma parsed_notes_have_title_and_field_witness :
  exists fs, dict_get [("title", VStr "N"); ("fields", VDict [("Front", "q")])]
                      "fields" = Some (VDict fs) /\ fs <> [].
Proof.
  exact (proj1 (proj2 (proj1 (parsed_notes_have_title_and_field
                                (text ["# N"; "## Front"; "q"]) [] _ eq_refl)
                             _ (or_introl eq_refl)))).
Defined.

Lemma parsed_notes_have_title_and_field_aux (content : string)
      (dflt : dict pyval) (ns : list (dict pyval)) :
  _parse_file content = Ok (dflt, ns) -> Forall titled ns.
Proof.
  intros Hp. apply _parse_file_inv in Hp as (st & Hrun & -> & Hres).
  assert (Ht : titles_kept st).
  { apply (run_invariant titles_kept titles_kept_step _ _ _) in Hrun; auto.
    split; [|constructor]. intros d H. discriminate. }
  destruct Ht as [Htn Htns].
  destruct Hres as [->|(d & old & Hf & Hfd & Ho & ->)]; auto.
  apply Forall_app. split; auto. constructor; [|constructor].
  apply titled_fields. eauto.
Qed.

(** ** Each key once *)

Lemma keys_once_step (st st' : pstate) :
  keys_once st -> transition st st' -> keys_once st'.
Proof.
  intros (Hn & Hd & Hns) T.
  assert (Hlit : forall title,
             NoDup (keys [("title", VStr title); ("fields", VDict [])])).
  { intros title. simpl.
    repeat (constructor; [simpl; intuition discriminate|]). constructor. }
  destruct T; unfold keys_once; simpl; repeat split; auto;
    try exact (Hlit title);
    try (now apply nodup_dict_set); try (now apply nodup_dict_update).
  apply Forall_app. split; auto. constructor; [|constructor].
  now apply nodup_dict_set.
Qed.

Lemma _parse_file_keys_once (content : string) (dflt : dict pyval)
      (ns : list (dict pyval)) :
  _parse_file content = Ok (dflt, ns) ->
  NoDup (keys dflt) /\ Forall (fun n => NoDup (keys n)) ns.
Proof.
  intros Hp. apply _parse_file_inv in Hp as (st & Hrun & -> & Hres).
  assert (Hk : keys_once st).
  { apply (run_invariant keys_once keys_once_step _ _ _) in Hrun; auto.
    repeat split; constructor. }
  destruct Hk as (Hn & Hd & Hns). split; auto.
  destruct Hres as [->|(d & old & Hf & Hfd & Ho & ->)]; auto.
  apply Forall_app. split; auto. constructor; [|constructor].
  now apply nodup_dict_set.
Qed.

(** ** The assembler of [convert.py] *)

Lemma dict_get_filter_out {V : Type} (q : string -> bool) (d : dict V)
      (k : string) :
  q k = false -> dict_get (filter (fun kv => q (fst kv)) d) k = None.
Proof.
  intros Hk. induction d as [|[k0 v0] d IH]; simpl; auto.
  destruct (q k0) eqn:E; simpl; auto.
  destruct (String.eqb_spec k0 k) as [->|Hne]; [congruence | auto].
Qed.

Lemma parse_markdown_flag_markdown (d : dict pyval) :
  dict_get (parse_markdown_flag d) "markdown"
  = match flag d with Some b => Some (VBool b) | None => None end.
Proof.
  unfold parse_markdown_flag, flag.
  destruct (dict_get d "markdown") as [v|] eqn:E.
  - apply dict_get_set_same.
  - destruct (dict_get d "md") as [v|]; auto.
    rewrite dict_get_pop_other by discriminate. apply dict_get_set_same.
Qed.

(** The record after the two blocks "Parse markdown flag" and "Remove
    comma from tag list". *)
Lemma remove_comma_ok (d : dict pyval) :
  dict_ok d ->
  exists d',
    remove_comma (parse_markdown_flag d) = Ok d'
    /\ (NoDup (keys d) -> NoDup (keys d'))
    /\ dict_get d' "markdown"
       = match flag d with Some b => Some (VBool b) | None => None end
    /\ (forall t, dict_get d "tags" = Some (VStr t) ->
                  dict_get d' "tags" = Some (VStr (replace t "," "")))
    /\ (dict_get d "tags" = None -> dict_get d' "tags" = None)
    /\ (forall k, k <> "markdown" -> k <> "md" -> k <> "tags" ->
                  dict_get d' k = dict_get d k).
Proof.
  intros Hd. unfold remove_comma.
  rewrite parse_markdown_flag_other by discriminate.
  destruct (dict_get d "tags") as [v|] eqn:Et.
  - destruct (dict_ok_str d "tags" v Hd ltac:(discriminate) Et) as [t ->].
    eexists. split; [reflexivity|]. repeat split.
    + intros H. now apply nodup_dict_set, parse_markdown_flag_nodup.
    + rewrite dict_get_set_other by discriminate.
      apply parse_markdown_flag_markdown.
    + intros t' E. inversion E; subst. apply dict_get_set_same.
    + discriminate.
    + intros k H1 H2 H3. rewrite dict_get_set_other by congruence.
      now apply parse_markdown_flag_other.
  - eexists. split; [reflexivity|]. repeat split.
    + apply parse_markdown_flag_nodup.
    + apply parse_markdown_flag_markdown.
    + discriminate.
    + intros _. now rewrite parse_markdown_flag_other by discriminate.
    + intros k H1 H2 H3. now apply parse_markdown_flag_other.
Qed.

Lemma map_result_length {A B : Type} (f : A -> result B) (l : list A)
      (out : list B) :
  map_result f l = Ok out -> List.length out = List.length l.
Proof.
  revert out. induction l as [|x l IH]; simpl; intros out H.
  - now inversion H.
  - destruct (f x) as [y|e]; simpl in H; try discriminate.
    destruct (map_result f l) as [ys|e]; simpl in H; try discriminate.
    inversion H; subst. simpl. f_equal. auto.
Qed.

(** What [complete_note] returns for a key: the note's value after the two
    blocks, else the one of the completed defaults. *)
Lemma complete_note_get (D n n2 : dict pyval) :
  NoDup (keys D) ->
  remove_comma (parse_markdown_flag n) = Ok n2 ->
  exists n',
    complete_note D n = Ok n'
    /\ forall k, dict_get n' k
                 = match dict_get n2 k with
                   | Some v => Some v
                   | None => dict_get D k
                   end.
Proof.
  intros HD H2. unfold complete_note. rewrite H2. simpl.
  eexists. split; [reflexivity|]. intros k'.
  rewrite dict_get_update by now apply nodup_filter.
  destruct (dict_get n2 k') as [v|] eqn:E.
  - rewrite (dict_get_filter_out (fun k => negb (dict_contains k n2))); auto.
    unfold dict_contains. now rewrite E.
  - rewrite (dict_get_filter (fun k => negb (dict_contains k n2))).
    + now destruct (dict_get D k').
    + unfold dict_contains. now rewrite E.
Qed.

(** X5: whenever [_parse_file] returns, [markdown_file_to_notes] returns
    one note for each note parsed, with the same title and fields.  Its
    model is the note's own, else the one of the file's defaults, else
    [Basic]; its tag text is the note's own, else the defaults', else empty,
    with the commas deleted; its markdown flag is the one the note asks for,
    else the one the defaults ask for, else true. *)
Theorem assembled_notes_resolution (content : string) (dflt : dict pyval)
        (ns : list (dict pyval)) :
  _parse_file content = Ok (dflt, ns) ->
  exists out,
    markdown_file_to_notes content = Ok out
    /\ List.length out = List.length ns
    /\ forall i n,
        nth_error ns i = Some n ->
        exists n' t,
          nth_error out i = Some n'
          /\ dict_get n' "title" = dict_get n "title"
          /\ dict_get n' "fields" = dict_get n "fields"
          /\ dict_get n' "model"
             = Some (own_or n dflt "model" (VStr "Basic"))
          /\ own_or n dflt "tags" (VStr "") = VStr t
          /\ dict_get n' "tags" = Some (VStr (replace t "," ""))
          /\ dict_get n' "markdown" = Some (VBool (resolved_flag n dflt)).
Proof.
  intros Hp.
  destruct (_parse_file_shaped content dflt ns Hp) as [Hd Hns].
  destruct (_parse_file_keys_once content dflt ns Hp) as [Hnd _].
  pose proof (parsed_notes_have_title_and_field_aux content dflt ns Hp) as Htl.
  unfold markdown_file_to_notes, assemble. rewrite Hp. simpl.
  destruct (remove_comma_ok dflt Hd) as (d2 & -> & Hnd2 & Hmd & Htg & Htn & Hoth).
  simpl. specialize (Hnd2 Hnd).
  set (D := dict_update explicit_defaults d2).
  assert (HD : NoDup (keys D)).
  { apply nodup_dict_update. simpl.
    repeat (constructor; [simpl; intuition discriminate|]). constructor. }
  assert (HDget : forall k, dict_get D k
                            = match dict_get d2 k with
                              | Some v => Some v
                              | None => dict_get explicit_defaults k
                              end).
  { intros k. unfold D. now rewrite dict_get_update. }
  destruct (map_result_total (complete_note D) ns) as (out & Hout & Hnth).
  { rewrite Forall_forall in Hns |- *. intros n Hin.
    destruct (Hns n Hin) as [Hok _].
    destruct (remove_comma_ok n Hok) as (n2 & H2 & _).
    destruct (complete_note_get D n n2 HD H2) as (n' & Hc & _). eauto. }
  exists out. split; auto. split; [now apply (map_result_length _ _ _ Hout)|].
  intros i n Hi.
  assert (Hin : In n ns) by (eapply nth_error_In; eauto).
  rewrite Forall_forall in Hns. destruct (Hns n Hin) as [Hok [fs [Hfs Hne]]].
  rewrite Forall_forall in Htl. destruct (Htl n Hin) as [ttl Httl].
  destruct (Hnth i n Hi) as (n' & Hn' & Hc).
  destruct (remove_comma_ok n Hok) as (n2 & H2 & _ & Hmd2 & Htg2 & Htn2 & Hoth2).
  destruct (complete_note_get D n n2 HD H2) as (n'' & Hc' & Hget).
  rewrite Hc in Hc'. inversion Hc'; subst n''; clear Hc'.
  assert (Htags : exists t, own_or n dflt "tags" (VStr "") = VStr t
                            /\ dict_get n' "tags"
                               = Some (VStr (replace t "," ""))).
  { unfold own_or. rewrite Hget.
    destruct (dict_get n "tags") as [v|] eqn:E.
    - destruct (dict_ok_str n "tags" v Hok ltac:(discriminate) E) as [t ->].
      exists t. split; auto. now rewrite (Htg2 t eq_refl).
    - rewrite (Htn2 eq_refl), HDget.
      destruct (dict_get dflt "tags") as [v|] eqn:E'.
      + destruct (dict_ok_str dflt "tags" v Hd ltac:(discriminate) E')
          as [t ->].
        exists t. split; auto. now rewrite (Htg t eq_refl).
      + exists "". split; auto. now rewrite (Htn eq_refl). }
  destruct Htags as (t & Ht1 & Ht2).
  exists n', t. repeat split; auto.
  - rewrite Hget, Hoth2 by discriminate. now rewrite Httl.
  - rewrite Hget, Hoth2 by discriminate. now rewrite Hfs.
  - rewrite Hget, Hoth2 by discriminate. unfold own_or.
    destruct (dict_get n "model"); auto.
    rewrite HDget, Hoth by discriminate.
    now destruct (dict_get dflt "model").
  - rewrite Hget, Hmd2. unfold resolved_flag.
    destruct (flag n); auto. rewrite HDget, Hmd.
    now destruct (flag dflt).
Qed.

Lemma assembled_notes_resolution_witness :
  exists out,
    markdown_file_to_notes two_notes = Ok out
    /\ List.length out = 2
    /\ exists n' t,
        nth_error out 1 = Some n'
        /\ dict_get n' "title" = Some (VStr "Two")
        /\ dict_get n' "fields" = Some (VDict [("Text", "c")])
        /\ dict_get n' "model" = Some (VStr "Cloze")
        /\ VStr "z" = VStr t
        /\ dict_get n' "tags" = Some (VStr (replace t "," ""))
        /\ dict_get n' "markdown" = Some (VBool true).
Proof.
  assert (Hp : _parse_file two_notes = Ok (two_notes_defaults, two_notes_blocks))
    by (vm_compute; reflexivity).
  destruct (assembled_notes_resolution two_notes _ _ Hp)
    as (out & Hout & Hlen & H).
  exists out. split; [exact Hout|]. split; [exact Hlen|].
  exact (H 1 _ eq_refl).
Defined.

(** ** The assembler of [cli.py] *)

Lemma default_markdown_ok (dflt : dict pyval) :
  dict_ok dflt ->
  exists d1,
    cli.default_markdown dflt
    = (match flag dflt with Some b => b | None => true end, d1)
    /\ dict_ok d1
    /\ forall k, k <> "markdown" -> k <> "md" ->
                 dict_get d1 k = dict_get dflt k.
Proof.
  intros Hd. unfold cli.default_markdown, flag.
  destruct (dict_get dflt "markdown").
  - eexists. split; [reflexivity|]. split; [now apply dict_ok_pop|].
    intros k H1 H2. now apply dict_get_pop_other.
  - destruct (dict_get dflt "md").
    + eexists. split; [reflexivity|]. split; [now apply dict_ok_pop|].
      intros k H1 H2. now apply dict_get_pop_other.
    + eexists. split; [reflexivity|]. auto.
Qed.

Lemma cli_complete_note_get (d2 n : dict pyval) (b : bool) (dt : string) :
  dict_ok n ->
  (forall v, dict_get d2 "model" = Some v -> exists s, v = VStr s) ->
  cli.get_or d2 "tags" (VStr "marked") = VStr dt ->
  exists n' t,
    cli.complete_note d2 b n = Ok n'
    /\ dict_get n' "title" = dict_get n "title"
    /\ dict_get n' "fields" = dict_get n "fields"
    /\ dict_get n' "model"
       = Some (match dict_get n "model" with
               | Some v => v
               | None => cli.get_or d2 "model" (VStr "Basic")
               end)
    /\ match dict_get n "tags" with
       | Some v => v = VStr t /\ dict_get n' "tags" = Some (VStr (replace t "," ""))
       | None => dict_get n' "tags" = Some (VStr dt)
       end
    /\ dict_get n' "markdown"
       = Some (VBool (match flag n with Some f => f | None => b end)).
Proof.
  intros Hn Hm Hdt. unfold cli.complete_note.
  set (n1 := if dict_contains "model" n then n
             else dict_set n "model" (cli.get_or d2 "model" (VStr "Basic"))).
  assert (H1 : forall k, k <> "model" -> dict_get n1 k = dict_get n k).
  { intros k Hk. unfold n1. destruct (dict_contains "model" n); auto.
    apply dict_get_set_other. congruence. }
  assert (H1m : dict_get n1 "model"
                = Some (match dict_get n "model" with
                        | Some v => v
                        | None => cli.get_or d2 "model" (VStr "Basic")
                        end)).
  { unfold n1, dict_contains. destruct (dict_get n "model") eqn:E; auto.
    apply dict_get_set_same. }
  rewrite (H1 "tags") by discriminate.
  assert (Hfin : forall n2,
             dict_get n2 "title" = dict_get n "title" ->
             dict_get n2 "fields" = dict_get n "fields" ->
             dict_get n2 "model" = dict_get n1 "model" ->
             dict_get n2 "markdown" = dict_get n "markdown" ->
             dict_get n2 "md" = dict_get n "md" ->
             exists n',
               match dict_get n2 "markdown" with
               | Some v => Ok (dict_set n2 "markdown" (VBool (in_true_yes v)))
               | None =>
                   match dict_get n2 "md" with
                   | Some v =>
                       Ok (dict_pop (dict_set n2 "markdown"
                                       (VBool (in_true_yes v))) "md")
                   | None => Ok (dict_set n2 "markdown" (VBool b))
                   end
               end = Ok n'
               /\ dict_get n' "title" = dict_get n "title"
               /\ dict_get n' "fields" = dict_get n "fields"
               /\ dict_get n' "model" = dict_get n1 "model"
               /\ dict_get n' "tags" = dict_get n2 "tags"
               /\ dict_get n' "markdown"
                  = Some (VBool (match flag n with Some f => f | None => b end))).
  { intros n2 Et Ef Em Emd Emd'. unfold flag. rewrite Emd, Emd'.
    destruct (dict_get n "markdown") as [v|].
    - eexists. split; [reflexivity|].
      rewrite !dict_get_set_other by discriminate.
      rewrite dict_get_set_same. auto.
    - destruct (dict_get n "md") as [v|].
      + eexists. split; [reflexivity|].
        rewrite !dict_get_pop_other by discriminate.
        rewrite !dict_get_set_other by discriminate.
        rewrite dict_get_set_same. auto.
      + eexists. split; [reflexivity|].
        rewrite !dict_get_set_other by discriminate.
        rewrite dict_get_set_same. auto. }
  destruct (dict_get n "tags") as [v|] eqn:Et.
  - destruct (dict_ok_str n "tags" v Hn ltac:(discriminate) Et) as [t ->].
    cbn [bind].
    destruct (Hfin (dict_set n1 "tags" (VStr (replace t "," ""))))
      as (n' & -> & Ht & Hf & Hmo & Htg & Hmd);
      try (rewrite dict_get_set_other by discriminate; auto;
           apply H1; discriminate).
    exists n', t. split; auto. rewrite Ht, Hf, Hmo, Htg, Hmd, H1m.
    rewrite dict_get_set_same. repeat split; auto.
  - rewrite Hdt. cbn [bind].
    destruct (Hfin (dict_set n1 "tags" (VStr dt)))
      as (n' & -> & Ht & Hf & Hmo & Htg & Hmd);
      try (rewrite dict_get_set_other by discriminate; auto;
           apply H1; discriminate).
    exists n', "". split; auto. rewrite Ht, Hf, Hmo, Htg, Hmd, H1m.
    rewrite dict_get_set_same. repeat split; auto.
Qed.

(** X6: whenever [_parse_file] returns, [parse_notes_from_markdown] of
    [cli.py] returns one note for each note parsed, with the same title
    and fields.  Its model is the note's own, else the defaults', else
    [Basic]; its tag text is the note's own, else the defaults', with the
    commas deleted, else [marked]; its markdown flag is the one the note
    asks for, else the one the defaults ask for, else true. *)
Theorem cli_parsed_notes_resolution (content : string) (dflt : dict pyval)
        (ns : list (dict pyval)) :
  _parse_file content = Ok (dflt, ns) ->
  exists out,
    cli.parse_notes_from_markdown content = Ok out
    /\ List.length out = List.length ns
    /\ forall i n,
        nth_error ns i = Some n ->
        exists n' t,
          nth_error out i = Some n'
          /\ dict_get n' "title" = dict_get n "title"
          /\ dict_get n' "fields" = dict_get n "fields"
          /\ dict_get n' "model"
             = Some (own_or n dflt "model" (VStr "Basic"))
          /\ match dict_get n "tags", dict_get dflt "tags" with
             | Some v, _ | None, Some v =>
                 v = VStr t
                 /\ dict_get n' "tags" = Some (VStr (replace t "," ""))
             | None, None => dict_get n' "tags" = Some (VStr "marked")
             end
          /\ dict_get n' "markdown" = Some (VBool (resolved_flag n dflt)).
Proof.
  intros Hp.
  destruct (_parse_file_shaped content dflt ns Hp) as [Hd Hns].
  unfold cli.parse_notes_from_markdown, cli._parse_file. rewrite Hp. simpl.
  destruct (default_markdown_ok dflt Hd) as (d1 & -> & Hd1 & Hget1).
  assert (H2 : exists d2 dt,
             remove_comma d1 = Ok d2
             /\ dict_get d2 "model" = dict_get dflt "model"
             /\ cli.get_or d2 "tags" (VStr "marked") = VStr dt
             /\ match dict_get dflt "tags" with
                | Some v => exists t, v = VStr t /\ dt = replace t "," ""
                | None => dt = "marked"
                end).
  { unfold remove_comma, cli.get_or.
    rewrite (Hget1 "tags") by discriminate.
    destruct (dict_get dflt "tags") as [v|] eqn:Et.
    - destruct (dict_ok_str dflt "tags" v Hd ltac:(discriminate) Et) as [t ->].
      eexists. exists (replace t "," ""). split; [reflexivity|].
      rewrite dict_get_set_other, dict_get_set_same by discriminate.
      rewrite Hget1 by discriminate. eauto.
    - eexists. exists "marked". split; [reflexivity|].
      rewrite !Hget1, Et by discriminate. auto. }
  destruct H2 as (d2 & dt & -> & Hm2 & Hdt & Hdt'). simpl.
  assert (Hm2' : forall v, dict_get d2 "model" = Some v -> exists s, v = VStr s).
  { intros v. rewrite Hm2. now apply dict_ok_str. }
  set (b := match flag dflt with Some b => b | None => true end).
  destruct (map_result_total (cli.complete_note d2 b) ns) as (out & Hout & Hnth).
  { rewrite Forall_forall in Hns |- *. intros n Hin.
    destruct (Hns n Hin) as [Hok _].
    destruct (cli_complete_note_get d2 n b dt Hok Hm2' Hdt) as (n' & t & Hc & _).
    eauto. }
  exists out. split; auto. split; [now apply (map_result_length _ _ _ Hout)|].
  intros i n Hi.
  assert (Hin : In n ns) by (eapply nth_error_In; eauto).
  rewrite Forall_forall in Hns. destruct (Hns n Hin) as [Hok _].
  destruct (Hnth i n Hi) as (n' & Hn' & Hc).
  destruct (cli_complete_note_get d2 n b dt Hok Hm2' Hdt)
    as (n'' & t & Hc' & Ht & Hf & Hmo & Htg & Hmd).
  rewrite Hc in Hc'. inversion Hc'; subst n''; clear Hc'.
  assert (Hmodel : dict_get n' "model"
                   = Some (own_or n dflt "model" (VStr "Basic"))).
  { rewrite Hmo. unfold own_or, cli.get_or. now rewrite Hm2. }
  assert (Hflag : dict_get n' "markdown" = Some (VBool (resolved_flag n dflt))).
  { rewrite Hmd. unfold resolved_flag. reflexivity. }
  destruct (dict_get n "tags") as [v|] eqn:Etn.
  - exists n', t. repeat split; auto; apply Htg.
  - destruct (dict_get dflt "tags") as [v|] eqn:Etd.
    + destruct Hdt' as (t' & -> & ->). exists n', t'. repeat split; auto.
    + subst dt. exists n', "". repeat split; auto.
Qed.

Lemma cli_parsed_notes_resolution_witness :
  exists out,
    cli.parse_notes_from_markdown (text ["# N"; "md: no"; "## Front"; "q"])
    = Ok out
    /\ List.length out = 1
    /\ exists n',
        nth_error out 0 = Some n'
        /\ dict_get n' "title" = Some (VStr "N")
        /\ dict_get n' "fields" = Some (VDict [("Front", "q")])
        /\ dict_get n' "model" = Some (VStr "Basic")
        /\ dict_get n' "tags" = Some (VStr "marked")
        /\ dict_get n' "markdown" = Some (VBool false).
Proof.
  destruct (cli_parsed_notes_resolution
              (text ["# N"; "md: no"; "## Front"; "q"]) _ _ eq_refl)
    as (out & Hout & Hlen & H).
  exists out. split; [exact Hout|]. split; [exact Hlen|].
  destruct (H 0 _ eq_refl) as (n' & t & H0 & H1 & H2 & H3 & H4 & H5).
  exists n'. repeat split; assumption.
Defined.

(** * Further properties of the converter *)

Lemma html_to_markdown_needs_marker (L : Libs) (html : string) :
  is_generated_html L (Some html) = false ->
  html_to_markdown L html
  = Raise (match _get_first_tag (BeautifulSoup L html) with
           | Some _ => KeyError
           | None => TypeError
           end).
Proof.
  unfold is_generated_html, html_to_markdown, dict_contains.
  destruct (_get_first_tag (BeautifulSoup L html)) as [tag|]; auto.
  destruct (dict_get (tag_attrs tag) marker); [discriminate | auto].
Qed.

(** X7: the rendering of a plain text is the text itself and holds no
    element, so extracting from it raises [TypeError]: the round trip is
    there for the texts that are not plain only. *)
Theorem plain_text_not_extractable (L : Libs) (cfg : config) (t : string) :
  LibLaws L ->
  is_plain t = true ->
  roundtrip L cfg t = Raise TypeError.
Proof.
  intros HL Hp. unfold roundtrip, markdown_to_html. rewrite Hp. simpl.
  pose proof (soup_text L HL t (is_plain_no_lt t Hp)) as Hn.
  rewrite html_to_markdown_needs_marker.
  - now rewrite Hn.
  - unfold is_generated_html. now rewrite Hn.
Qed.

Lemma plain_text_not_extractable_witness :
  roundtrip Reference.libs Reference.no_styles "What is 2+2?" = Raise TypeError.
Proof.
  apply (plain_text_not_extractable Reference.libs Reference.no_styles
           "What is 2+2?" ReferenceFacts.laws).
  reflexivity.
Defined.

(** ** Texts the escapes leave alone *)

Lemma occurs_needs_head (x : ascii) (p t : string) :
  forallb_str (fun c => negb (c =? x)%char) t = true ->
  occurs (String x p) t = false.
Proof.
  induction t as [|c t IH]; simpl; auto.
  intros H. apply andb_true_iff in H as [Hc Ht].
  rewrite startswith_cons, IH by assumption.
  rewrite Ascii.eqb_sym. apply negb_true_iff in Hc. now rewrite Hc.
Qed.

Lemma startswith_needs_second (a x : ascii) (p t : string) :
  forallb_str (fun c => negb (c =? x)%char) t = true ->
  startswith t (String a (String x p)) = false.
Proof.
  destruct t as [|c [|c' t]]; simpl; auto.
  - intros _. unfold startswith. simpl. now destruct (a =? c)%char.
  - intros H. apply andb_true_iff in H as [_ H].
    apply andb_true_iff in H as [Hc' _]. apply negb_true_iff in Hc'.
    rewrite !startswith_cons. rewrite (Ascii.eqb_sym x c'), Hc'.
    now rewrite andb_false_r.
Qed.

Lemma occurs_needs_second (a x : ascii) (p t : string) :
  forallb_str (fun c => negb (c =? x)%char) t = true ->
  occurs (String a (String x p)) t = false.
Proof.
  induction t as [|c t IH]; intros H.
  - reflexivity.
  - cbn [occurs]. rewrite startswith_needs_second by assumption.
    simpl in H. apply andb_true_iff in H as [_ Ht]. now rewrite IH.
Qed.

Lemma no_escape_char_split (t : string) :
  no_escape_char t = true ->
  forallb_str (fun c => negb (c =? backslash)%char) t = true
  /\ forallb_str (fun c => negb (c =? "160")%char) t = true.
Proof.
  unfold no_escape_char. intros H. split.
  - apply (forallb_str_weaken _ (fun c => negb (c =? backslash)%char) t) in H;
      auto.
    intros c Hc. now apply andb_true_iff in Hc as [? ?].
  - apply (forallb_str_weaken _ (fun c => negb (c =? "160")%char) t) in H;
      auto.
    intros c Hc. now apply andb_true_iff in Hc as [? ?].
Qed.

Lemma cli_escape_id (t : string) :
  no_escape_char t = true -> cli_escape t = t.
Proof.
  intros H. apply no_escape_char_split in H as [Hb Hn]. unfold cli_escape.
  rewrite (replace_absent t nbsp_utf8)
    by (apply occurs_needs_second; exact Hn).
  rewrite (replace_absent t nbsp) by (apply occurs_needs_head; exact Hn).
  rewrite (replace_absent t "\[") by (apply (occurs_needs_head backslash); exact Hb).
  rewrite (replace_absent t "\]") by (apply (occurs_needs_head backslash); exact Hb).
  rewrite (replace_absent t "\(") by (apply (occurs_needs_head backslash); exact Hb).
  now rewrite (replace_absent t "\)") by (apply (occurs_needs_head backslash); exact Hb).
Qed.

Lemma escape_id (L : Libs) (cfg : config) (t : string) :
  subfields cfg = None ->
  no_escape_char t = true -> occurs "*}" t = false ->
  escape L cfg t = t.
Proof.
  intros Hc H Hs. apply no_escape_char_split in H as [Hb Hn]. unfold escape.
  rewrite Hc.
  rewrite (replace_absent t "\\") by (apply (occurs_needs_head backslash); exact Hb).
  rewrite (replace_absent t "\{") by (apply (occurs_needs_head backslash); exact Hb).
  rewrite (replace_absent t "\}") by (apply (occurs_needs_head backslash); exact Hb).
  rewrite (replace_absent t "*}") by exact Hs.
  rewrite (replace_absent t nbsp_utf8)
    by (apply occurs_needs_second; exact Hn).
  rewrite (replace_absent t nbsp) by (apply occurs_needs_head; exact Hn).
  rewrite (replace_absent t "\[") by (apply (occurs_needs_head backslash); exact Hb).
  rewrite (replace_absent t "\]") by (apply (occurs_needs_head backslash); exact Hb).
  rewrite (replace_absent t "\(") by (apply (occurs_needs_head backslash); exact Hb).
  now rewrite (replace_absent t "\)") by (apply (occurs_needs_head backslash); exact Hb).
Qed.

(** X8: without inline styles in the configuration, a text that is not
    plain and has no backslash, no non-breaking space, no [*}] and no
    [<br>] or [<br />] comes back from the rendering exactly. *)
Theorem roundtrip_exact_on_simple_text (L : Libs) (cfg : config)
        (t : string) :
  LibLaws L ->
  subfields cfg = None ->
  is_plain t = false ->
  no_escape_char t = true ->
  occurs "*}" t = false ->
  occurs "<br>" t = false -> occurs "<br />" t = false ->
  roundtrip L cfg t = Ok t.
Proof.
  intros HL Hc Hp He Hs H1 H2.
  rewrite roundtrip_stored, escape_id by assumption.
  now rewrite restored_id.
Qed.

Lemma roundtrip_exact_on_simple_text_witness :
  roundtrip Reference.libs Reference.no_styles
            ("# Title" ++ newline ++ newline ++ "* one" ++ newline ++ "* two")
  = Ok ("# Title" ++ newline ++ newline ++ "* one" ++ newline ++ "* two").
Proof.
  apply (roundtrip_exact_on_simple_text Reference.libs Reference.no_styles
           ("# Title" ++ newline ++ newline ++ "* one" ++ newline ++ "* two")
           ReferenceFacts.laws);
    reflexivity.
Defined.

(** ** The renderer of [cli.py] *)

Lemma cli_markdown_to_html_marked (L : Libs) (t : string) :
  LibLaws L ->
  is_plain t = false ->
  exists v,
    utf8_encode L v
    = b64encode L (utf8_encode L (replace (cli_escape t) newline "<br />"))
    /\ forallb_str b64_char_ok v = true
    /\ cli.markdown_to_html L t
       = Ok (soup_str L
               (set_first_tag_attr
                  (BeautifulSoup L
                     (wrapped L
                        (markdown_markdown L
                           [Abbr; CodeHilite; DefList; FencedCode; Footnote]
                           (cli_escape t))))
                  marker v)).
Proof.
  intros HL Hp.
  destruct (attach_marker_ok L HL
              (markdown_markdown L
                 [Abbr; CodeHilite; DefList; FencedCode; Footnote]
                 (cli_escape t))
              (cli_escape t)) as (v & Hv & He & Hok & H).
  exists v. repeat split; auto.
  unfold cli.markdown_to_html. rewrite Hp. exact H.
Qed.

(** X9: for a text that is not plain, the renderer of [cli.py] returns HTML
    that is recognised as generated, and extracting from it gives the text
    it stored: the text with its non-breaking spaces as spaces and its
    math delimiters escaped, and a newline for each [<br>] and [<br />].
    A text without a backslash, a non-breaking space, [<br>] and [<br />]
    comes back exactly. *)
Theorem cli_render_then_extract (L : Libs) (t : string) :
  LibLaws L ->
  is_plain t = false ->
  (exists html, cli.markdown_to_html L t = Ok html
                /\ is_generated_html L (Some html) = true)
  /\ cli_roundtrip L t = Ok (restored (cli_escape t))
  /\ (no_escape_char t = true ->
      occurs "<br>" t = false -> occurs "<br />" t = false ->
      cli_roundtrip L t = Ok t).
Proof.
  intros HL Hp.
  destruct (cli_markdown_to_html_marked L t HL Hp) as (v & He & Hok & H).
  destruct (soup_attr L HL _ v
              (wrapped_tag L HL
                 (markdown_markdown L
                    [Abbr; CodeHilite; DefList; FencedCode; Footnote]
                    (cli_escape t)))
              Hok)
    as (tag & Htag & Hget).
  assert (Hr : cli_roundtrip L t = Ok (restored (cli_escape t))).
  { unfold cli_roundtrip. rewrite H. simpl.
    unfold html_to_markdown. rewrite Htag, Hget, He.
    rewrite (b64_roundtrip L HL). simpl.
    now rewrite (utf8_roundtrip L HL). }
  split; [|split; auto].
  - eexists. split; [exact H|].
    unfold is_generated_html. rewrite Htag.
    unfold dict_contains. now rewrite Hget.
  - intros Hn H1 H2. rewrite Hr, cli_escape_id by assumption.
    now rewrite restored_id.
Qed.

Lemma cli_render_then_extract_witness :
  cli_roundtrip Reference.libs ("a *b*" ++ newline ++ "c")
  = Ok ("a *b*" ++ newline ++ "c").
Proof.
  apply (proj2 (proj2 (cli_render_then_extract Reference.libs
                         ("a *b*" ++ newline ++ "c")
                         ReferenceFacts.laws eq_refl)));
    reflexivity.
Defined.

(** * Further properties of [cli.py] *)

(** ** Tags *)

Lemma replace_char (x : ascii) (s : string) :
  replace s (String x "") "" = remove_char x s.
Proof.
  unfold replace. induction s as [|c r IH]; auto.
  cbn [replace_from remove_char]. rewrite startswith_cons.
  rewrite Ascii.eqb_sym. destruct (c =? x)%char; simpl; now rewrite IH.
Qed.

Lemma remove_char_app (x : ascii) (a b : string) :
  remove_char x (a ++ b) = remove_char x a ++ remove_char x b.
Proof.
  induction a as [|c a IH]; auto. simpl.
  destruct (c =? x)%char; simpl; now rewrite IH.
Qed.

Lemma remove_char_absent (x : ascii) (s : string) :
  forallb_str (fun c => negb (c =? x)%char) s = true -> remove_char x s = s.
Proof.
  induction s as [|c r IH]; auto. simpl. intros H.
  apply andb_true_iff in H as [Hc Hr]. apply negb_true_iff in Hc.
  now rewrite Hc, IH.
Qed.

Lemma tag_ok_parts (w : string) :
  tag_ok w = true ->
  (exists c r, w = String c r /\ isspace c = false)
  /\ forallb_str (fun c => negb (isspace c)) w = true
  /\ forallb_str (fun c => negb (c =? ",")%char) w = true.
Proof.
  unfold tag_ok. intros H. apply andb_true_iff in H as [He Hw].
  assert (Hs : forallb_str (fun c => negb (isspace c)) w = true).
  { apply (forallb_str_weaken _ (fun c => negb (isspace c)) w) in Hw; auto.
    intros c Hc. now apply andb_true_iff in Hc as [? ?]. }
  repeat split; auto.
  - destruct w as [|c r]; [discriminate|]. exists c, r. split; auto.
    simpl in Hs. apply andb_true_iff in Hs as [Hc _].
    now apply negb_true_iff in Hc.
  - apply (forallb_str_weaken _ (fun c => negb (c =? ",")%char) w) in Hw; auto.
    intros c Hc. now apply andb_true_iff in Hc as [? ?].
Qed.

Lemma join_cons (sep x y : string) (r : list string) :
  join sep (x :: y :: r) = x ++ sep ++ join sep (y :: r).
Proof. reflexivity. Qed.

Lemma join_head (sep x : string) (r : list string) (c : ascii) (t : string) :
  x = String c t -> exists t', join sep (x :: r) = String c t'.
Proof.
  intros ->. destruct r as [|y r]; [now exists t|].
  rewrite join_cons. now exists (t ++ sep ++ join sep (y :: r)).
Qed.

Lemma remove_comma_join (ts : list string) :
  forallb tag_ok ts = true ->
  remove_char "," (join ", " ts) = join " " ts.
Proof.
  induction ts as [|x [|y r] IH]; intros H.
  - reflexivity.
  - simpl in H. rewrite andb_true_r in H.
    apply tag_ok_parts in H as (_ & _ & Hc). now apply remove_char_absent.
  - rewrite !join_cons. cbn [forallb] in H. apply andb_true_iff in H as [Hx H].
    apply tag_ok_parts in Hx as (_ & _ & Hc).
    rewrite !remove_char_app, (remove_char_absent _ x Hc), IH by assumption.
    reflexivity.
Qed.

Lemma split_from_word (w cur s : string) :
  forallb_str (fun c => negb (isspace c)) w = true ->
  split_from cur (w ++ s) = split_from (cur ++ w) s.
Proof.
  revert cur. induction w as [|c w IH]; intros cur H.
  - now rewrite append_empty_r.
  - simpl in H. apply andb_true_iff in H as [Hc Hw].
    apply negb_true_iff in Hc. cbn [append split_from]. rewrite Hc.
    rewrite IH by assumption. now rewrite append_assoc.
Qed.

Lemma split_join (ts : list string) :
  forallb tag_ok ts = true -> split (join " " ts) = ts.
Proof.
  unfold split. induction ts as [|x [|y r] IH]; intros H.
  - reflexivity.
  - simpl in H. rewrite andb_true_r in H.
    apply tag_ok_parts in H as ((c & t & -> & _) & Hs & _).
    rewrite <- (append_empty_r (join " " [String c t])). cbn [join].
    rewrite split_from_word by assumption. reflexivity.
  - rewrite join_cons. cbn [forallb] in H. apply andb_true_iff in H as [Hx H].
    apply tag_ok_parts in Hx as ((c & t & -> & _) & Hs & _).
    rewrite split_from_word by assumption.
    change (" " ++ join " " (y :: r)) with (String " " (join " " (y :: r))).
    cbn [split_from append is_empty].
    replace (isspace " ") with true by reflexivity.
    f_equal. now apply IH.
Qed.

Lemma rstrip_word (w : string) :
  forallb_str (fun c => negb (isspace c)) w = true -> rstrip w = w.
Proof.
  induction w as [|c w IH]; auto. simpl. intros H.
  apply andb_true_iff in H as [Hc Hw]. apply negb_true_iff in Hc.
  now rewrite Hc, andb_false_r, IH.
Qed.

Lemma rstrip_app (a : string) (c : ascii) (t : string) :
  rstrip (String c t) = String c t ->
  rstrip (a ++ String c t) = a ++ String c t.
Proof.
  intros H. induction a as [|d a IH]; auto.
  cbn [append rstrip]. rewrite IH.
  destruct a; reflexivity.
Qed.

Lemma strip_join (ts : list string) :
  forallb tag_ok ts = true -> strip (join ", " ts) = join ", " ts.
Proof.
  intros H. unfold strip.
  assert (Hl : lstrip (join ", " ts) = join ", " ts).
  { destruct ts as [|x r]; auto. cbn [forallb] in H.
    apply andb_true_iff in H as [Hx _].
    apply tag_ok_parts in Hx as ((c & t & Hx & Hc) & _).
    destruct (join_head ", " x r c t Hx) as (t' & ->).
    unfold lstrip. simpl. now rewrite Hc. }
  rewrite Hl. induction ts as [|x [|y r] IH].
  - reflexivity.
  - simpl in H. rewrite andb_true_r in H.
    apply tag_ok_parts in H as (_ & Hs & _). now apply rstrip_word.
  - cbn [forallb] in H. apply andb_true_iff in H as [Hx H].
    rewrite join_cons. 
    assert (Hy := H). cbn [forallb] in Hy. apply andb_true_iff in Hy as [Hy _].
    apply tag_ok_parts in Hy as ((c & t & Hy & Hc) & _).
    destruct (join_head ", " y r c t Hy) as (t' & Ht').
    assert (IH' : rstrip (join ", " (y :: r)) = join ", " (y :: r)).
    { apply IH; auto. rewrite Ht'. unfold lstrip. simpl. now rewrite Hc. }
    rewrite Ht' in *. rewrite <- append_assoc. now apply rstrip_app.
Qed.

(** X10: the tags of a note come back from its tag line.  For tags that
    are not empty and hold no white space and no comma, the line
    [tags: ...] written from [get_tag_string] is read as the property
    [tags] with that text, and stripping it, deleting the commas and
    splitting, as the parser, the assembler and [edit] do, gives the tags
    again. *)
Theorem tags_survive_tag_line (self : MyNote.t) :
  forallb tag_ok (cli.n_tags (MyNote.n self)) = true ->
  property_match ("tags: " ++ MyNote.get_tag_string self ++ newline)
  = Some ("tags", MyNote.get_tag_string self)
  /\ split (replace (strip (MyNote.get_tag_string self)) "," "")
     = cli.n_tags (MyNote.n self).
Proof.
  intros H. unfold MyNote.get_tag_string.
  set (ts := cli.n_tags (MyNote.n self)) in *.
  assert (Hdot : forallb_str is_dot (join ", " ts) = true).
  { induction ts as [|x [|y r] IH].
    - reflexivity.
    - simpl in H. rewrite andb_true_r in H.
      apply tag_ok_parts in H as (_ & Hs & _). cbn [join].
      apply (forallb_str_weaken (fun c => negb (isspace c))); auto.
      intros c Hc. unfold is_dot.
      destruct (Ascii.eqb_spec c LF) as [->|]; [discriminate | reflexivity].
    - rewrite join_cons. cbn [forallb] in H.
      apply andb_true_iff in H as [Hx H].
      apply tag_ok_parts in Hx as (_ & Hs & _).
      rewrite !forallb_str_app, IH by assumption.
      rewrite (forallb_str_weaken (fun c => negb (isspace c)) is_dot x); auto.
      intros c Hc. unfold is_dot.
      destruct (Ascii.eqb_spec c LF) as [->|]; [discriminate | reflexivity]. }
  split.
  - unfold property_match. cbn [append take_while drop_while].
    replace (isword "t") with true by reflexivity.
    replace (isword "a") with true by reflexivity.
    replace (isword "g") with true by reflexivity.
    replace (isword "s") with true by reflexivity.
    replace (isword ":") with false by reflexivity.
    cbn [is_empty strip_prefix Ascii.eqb Bool.eqb].
    unfold newline. now rewrite take_while_all.
  - rewrite strip_join, replace_char, remove_comma_join by assumption.
    now apply split_join.
Qed.

Lemma tags_survive_tag_line_witness :
  forallb tag_ok ["marked"; "my-tag"] = true
  /\ split (replace (strip "marked, my-tag") "," "") = ["marked"; "my-tag"].
Proof.
  split; [reflexivity|].
  exact (proj2 (tags_survive_tag_line
                  (basic_note [] ["marked"; "my-tag"]) eq_refl)).
Defined.

(** ** [choose] *)

Lemma py_getitem_nth {A : Type} (l : list A) (i : Z) (x : A) :
  py_getitem l i = Ok x ->
  nth_error l (Z.to_nat (if Z.ltb i 0 then Z.add i (Z.of_nat (List.length l))
                         else i)) = Some x.
Proof.
  unfold py_getitem, py_position.
  destruct (_ && _); [|discriminate].
  destruct (nth_error l _) eqn:E; [|discriminate].
  now intros [= ->].
Qed.

Lemma py_getitem_raises {A : Type} (l : list A) (i : Z) (e : exn) :
  py_getitem l i = Raise e -> e = IndexError.
Proof.
  unfold py_getitem. destruct (py_position l i); [|congruence].
  destruct (nth_error l n); congruence.
Qed.

(** X11: what [choose] returns.  The reply is one of the items; the key
    that selects it is the first key that is a digit for which the list has
    an item, the keys before it are passed over; a digit from 1 to 9
    selects the item at that place, and the digit 0 selects the last
    item. *)
Theorem choose_reply (items : list string) (keys rest : list ascii)
        (index : nat) (reply : string) :
  choose_loop items keys = Some (index, reply, rest) ->
  index <= 9
  /\ In reply items
  /\ nth_error items
       (if Nat.eqb index 0 then List.length items - 1 else index - 1)
     = Some reply
  /\ exists skipped choice,
       keys = (skipped ++ choice :: rest)%list
       /\ digit_of choice = Some index
       /\ Forall (passed_over items) skipped.
Proof.
  induction keys as [|choice keys IH]; [discriminate|].
  cbn [choose_loop].
  assert (Hskip : passed_over items choice ->
                  choose_loop items keys = Some (index, reply, rest) ->
                  index <= 9 /\ In reply items
                  /\ nth_error items
                       (if Nat.eqb index 0 then List.length items - 1
                        else index - 1) = Some reply
                  /\ exists skipped choice0,
                       (choice :: keys = skipped ++ choice0 :: rest)%list
                       /\ digit_of choice0 = Some index
                       /\ Forall (passed_over items) skipped).
  { intros Hp H. destruct (IH H) as (H1 & H2 & H3 & sk & c & -> & Hd & Hf).
    repeat split; auto. exists (choice :: sk), c. repeat split; auto. }
  destruct (digit_of choice) as [d|] eqn:Ed.
  2: { apply Hskip. unfold passed_over. now rewrite Ed. }
  destruct (py_getitem items (Z.of_nat d - 1)) as [x|e] eqn:Eg.
  2: { apply Hskip. unfold passed_over. rewrite Ed, Eg. f_equal.
       now apply (py_getitem_raises items (Z.of_nat d - 1)). }
  intros [= -> -> ->].
  assert (Hd : index <= 9).
  { unfold digit_of, in_range in Ed.
    destruct (Nat.leb 48 (code choice) && Nat.leb (code choice) 57) eqn:E;
      [|discriminate].
    apply andb_true_iff in E as [_ E]. apply Nat.leb_le in E.
    injection Ed as <-. lia. }
  apply py_getitem_nth in Eg.
  assert (Hn : nth_error items
                 (if Nat.eqb index 0 then List.length items - 1 else index - 1)
               = Some reply).
  { destruct index as [|k].
    - replace (Z.ltb (Z.of_nat 0 - 1) 0) with true in Eg by reflexivity.
      cbn [Nat.eqb]. rewrite <- Eg. f_equal. lia.
    - replace (Nat.eqb (S k) 0) with false by reflexivity.
      rewrite <- Eg. f_equal.
      destruct (Z.ltb_spec (Z.of_nat (S k) - 1) 0); lia. }
  repeat split; auto.
  - eapply nth_error_In; eauto.
  - exists [], choice. repeat split; auto.
Qed.

Lemma choose_reply_witness :
  choose_loop ["Front"; "Back"; "Extra"] ["x"; "7"; "0"; "1"]%char
  = Some (0, "Extra", ["1"%char])
  /\ nth_error ["Front"; "Back"; "Extra"] 2 = Some "Extra".
Proof.
  split; [reflexivity|].
  exact (proj1 (proj2 (proj2 (choose_reply ["Front"; "Back"; "Extra"]
                                ["x"; "7"; "0"; "1"]%char ["1"%char] 0 "Extra"
                                eq_refl)))).
Defined.

(** ** [MyNote.toggle_markdown] and [MyNote.get_field] *)

Lemma py_setitem_getitem {A : Type} (l : list A) (i : Z) (x v : A) :
  py_getitem l i = Ok x ->
  exists l', py_setitem l i v = Ok l'
             /\ py_getitem l' i = Ok v
             /\ (forall w, py_setitem l' i w = py_setitem l i w)
             /\ py_setitem l i x = Ok l.
Proof.
  unfold py_getitem, py_setitem, py_position.
  set (j := Z.to_nat (if Z.ltb i 0 then (i + Z.of_nat (List.length l))%Z else i)).
  assert (Hlen : forall (l : list A) k v, List.length (set_nth l k v) = List.length l).
  { clear. induction l as [|y l IH]; intros [|k] v; simpl; auto. }
  assert (Hget : forall (l : list A) k v y, nth_error l k = Some y ->
                   nth_error (set_nth l k v) k = Some v).
  { clear. induction l as [|y l IH]; intros [|k] v z; simpl; try discriminate; eauto. }
  assert (Hset : forall (l : list A) k v w, set_nth (set_nth l k v) k w = set_nth l k w).
  { clear. induction l as [|y l IH]; intros [|k] v w; simpl; auto. now rewrite IH. }
  assert (Hsame : forall (l : list A) k y, nth_error l k = Some y -> set_nth l k y = l).
  { clear. induction l as [|y l IH]; intros [|k] z; simpl; try discriminate.
    - now intros [= ->].
    - intros H. now rewrite (IH _ _ H). }
  destruct (_ && _) eqn:E; [|discriminate].
  destruct (nth_error l j) as [y|] eqn:En; [|discriminate].
  intros [= ->]. exists (set_nth l j v).
  rewrite Hlen. fold j. rewrite E, (Hget _ _ _ _ En).
  repeat split; auto.
  - intros w. now rewrite Hset.
  - now rewrite (Hsame _ _ _ En).
Qed.

Lemma no_lt_not_generated (L : Libs) (v : string) :
  LibLaws L -> no_lt v = true -> is_generated_html L (Some v) = false.
Proof.
  intros HL H. unfold is_generated_html. now rewrite (soup_text L HL v H).
Qed.

(** The renderer of [cli.py] on a text without [<], backslash and
    non-breaking space that is not plain: the HTML is generated HTML and
    the text is extracted from it. *)
Lemma cli_render_simple (L : Libs) (v : string) :
  LibLaws L -> simple_text v = true -> is_plain v = false ->
  exists html, cli.markdown_to_html L v = Ok html
               /\ is_generated_html L (Some html) = true
               /\ html_to_markdown L html = Ok v.
Proof.
  intros HL Hs Hp. unfold simple_text in Hs.
  apply andb_true_iff in Hs as [Hlt Hne].
  destruct (cli_markdown_to_html_marked L v HL Hp) as (a & He & Hok & H).
  destruct (soup_attr L HL _ a
              (wrapped_tag L HL
                 (markdown_markdown L
                    [Abbr; CodeHilite; DefList; FencedCode; Footnote]
                    (cli_escape v)))
              Hok)
    as (tag & Htag & Hget).
  eexists. split; [exact H|]. split.
  - unfold is_generated_html. rewrite Htag.
    unfold dict_contains. now rewrite Hget.
  - unfold html_to_markdown. rewrite Htag, Hget, He.
    rewrite (b64_roundtrip L HL). cbn [bind].
    rewrite (utf8_roundtrip L HL). cbn [bind].
    rewrite cli_escape_id by assumption. f_equal.
    apply restored_id; apply occurs_needs_head; exact Hlt.
Qed.

(** X12: toggling the Markdown state of a field twice.  For a field whose
    text holds no [<], no backslash and no non-breaking space, two calls
    of [toggle_markdown] on it succeed and leave every field of the note as
    it was; a plain text is left as it is by each call. *)
Theorem toggle_markdown_twice (L : Libs) (chosen : string) (self : MyNote.t)
        (index : Z) (v : string) :
  LibLaws L ->
  py_getitem (cli.n_fields (MyNote.n self)) index = Ok v ->
  simple_text v = true ->
  (self' <- MyNote.toggle_markdown L chosen self (Some index) ;;
   MyNote.toggle_markdown L chosen self' (Some index))
  = Ok (MyNote.set_fields self (cli.n_fields (MyNote.n self)))
  /\ (is_plain v = true ->
      MyNote.toggle_markdown L chosen self (Some index)
      = Ok (MyNote.set_fields self (cli.n_fields (MyNote.n self)))).
Proof.
  intros HL Hg Hs.
  assert (Hlt : no_lt v = true).
  { unfold simple_text in Hs. now apply andb_true_iff in Hs as [? _]. }
  assert (Hplain : is_plain v = true ->
            MyNote.toggle_markdown L chosen self (Some index)
            = Ok (MyNote.set_fields self (cli.n_fields (MyNote.n self)))).
  { intros Hp. unfold MyNote.toggle_markdown. cbn [bind]. rewrite Hg. cbn [bind].
    rewrite (no_lt_not_generated L v HL Hlt).
    unfold cli.markdown_to_html. rewrite Hp. cbn [bind].
    destruct (py_setitem_getitem _ index v v Hg) as (_ & _ & _ & _ & ->).
    reflexivity. }
  split; auto.
  destruct (is_plain v) eqn:Hp.
  - rewrite Hplain by reflexivity. cbn [bind].
    unfold MyNote.toggle_markdown, MyNote.set_fields, MyNote.set_a,
      MyNote.set_values. cbn [bind MyNote.n cli.n_fields].
    rewrite Hg. cbn [bind]. rewrite (no_lt_not_generated L v HL Hlt).
    unfold cli.markdown_to_html. rewrite Hp. cbn [bind].
    destruct (py_setitem_getitem _ index v v Hg) as (_ & _ & _ & _ & ->).
    reflexivity.
  - destruct (cli_render_simple L v HL Hs Hp) as (html & Hm & Hgen & Hback).
    destruct (py_setitem_getitem _ index v html Hg)
      as (l' & Hset & Hget' & Hset' & Hsame).
    assert (Hfirst : MyNote.toggle_markdown L chosen self (Some index)
                     = Ok (MyNote.set_fields self l')).
    { unfold MyNote.toggle_markdown. cbn [bind]. rewrite Hg. cbn [bind].
      rewrite (no_lt_not_generated L v HL Hlt), Hm. cbn [bind].
      now rewrite Hset. }
    rewrite Hfirst. cbn [bind].
    unfold MyNote.toggle_markdown, MyNote.set_fields, MyNote.set_a,
      MyNote.set_values.
    cbn [bind MyNote.n cli.n_fields MyNote.fields cli.n_model cli.n_tags].
    rewrite Hget'. cbn [bind]. rewrite Hgen, Hback. cbn [bind].
    rewrite Hset', Hsame. reflexivity.
Qed.

Lemma toggle_markdown_twice_witness :
  (self' <- MyNote.toggle_markdown Reference.libs ""
              (basic_note ["a *b*"; "c"] []) (Some 0%Z) ;;
   MyNote.toggle_markdown Reference.libs "" self' (Some 0%Z))
  = Ok (MyNote.set_fields (basic_note ["a *b*"; "c"] []) ["a *b*"; "c"]).
Proof.
  exact (proj1 (toggle_markdown_twice Reference.libs ""
                  (basic_note ["a *b*"; "c"] []) 0%Z "a *b*"
                  ReferenceFacts.laws eq_refl eq_refl)).
Defined.

(** X13: [get_field] after [toggle_markdown].  For a field whose text holds
    no [<], no backslash and no non-breaking space, after the field is
    toggled [get_field] still returns that text, whether the field now
    holds it or the HTML rendered from it. *)
Theorem get_field_after_toggle (L : Libs) (chosen : string) (self : MyNote.t)
        (index : Z) (v : string) :
  LibLaws L ->
  py_getitem (cli.n_fields (MyNote.n self)) index = Ok v ->
  simple_text v = true ->
  MyNote.get_field L self (MyNote.Index index) = Ok v
  /\ (self' <- MyNote.toggle_markdown L chosen self (Some index) ;;
      MyNote.get_field L self' (MyNote.Index index)) = Ok v.
Proof.
  intros HL Hg Hs.
  assert (Hlt : no_lt v = true).
  { unfold simple_text in Hs. now apply andb_true_iff in Hs as [? _]. }
  split.
  - unfold MyNote.get_field. cbn [bind]. rewrite Hg. cbn [bind].
    now rewrite (no_lt_not_generated L v HL Hlt).
  - unfold MyNote.toggle_markdown. cbn [bind]. rewrite Hg. cbn [bind].
    rewrite (no_lt_not_generated L v HL Hlt).
    destruct (is_plain v) eqn:Hp.
    + unfold cli.markdown_to_html. rewrite Hp. cbn [bind].
      destruct (py_setitem_getitem _ index v v Hg) as (_ & _ & _ & _ & ->).
      cbn [bind]. unfold MyNote.get_field, MyNote.set_fields, MyNote.set_a,
        MyNote.set_values.
      cbn [bind MyNote.n cli.n_fields]. rewrite Hg. cbn [bind].
      now rewrite (no_lt_not_generated L v HL Hlt).
    + destruct (cli_render_simple L v HL Hs Hp) as (html & Hm & Hgen & Hback).
      destruct (py_setitem_getitem _ index v html Hg)
        as (l' & Hset & Hget' & _).
      rewrite Hm. cbn [bind]. rewrite Hset. cbn [bind].
      unfold MyNote.get_field, MyNote.set_fields, MyNote.set_a,
        MyNote.set_values.
      cbn [bind MyNote.n cli.n_fields]. rewrite Hget'. cbn [bind].
      now rewrite Hgen.
Qed.

Lemma get_field_after_toggle_witness :
  (self' <- MyNote.toggle_markdown Reference.libs ""
              (basic_note ["q"; "a *b*"] []) (Some (-1)%Z) ;;
   MyNote.get_field Reference.libs self' (MyNote.Index (-1)%Z))
  = Ok "a *b*".
Proof.
  exact (proj2 (get_field_after_toggle Reference.libs ""
                  (basic_note ["q"; "a *b*"] []) (-1)%Z "a *b*"
                  ReferenceFacts.laws eq_refl eq_refl)).
Defined.

(** * Further properties of the texts shown and read back *)

(** ** The style elements *)

Lemma after_last_app (p b t u : string) :
  after_last p t = Some u -> after_last p (b ++ t) = Some u.
Proof.
  intros H. induction b as [|c b IH]; auto.
  cbn [append after_last]. now rewrite IH.
Qed.

Lemma after_last_none (p s : string) :
  occurs p s = false -> after_last p s = None.
Proof.
  induction s as [|c r IH]; auto.
  cbn [occurs after_last]. intros H. apply orb_false_iff in H as [H1 H2].
  rewrite (IH H2). unfold startswith in H1.
  now destruct (strip_prefix p (String c r)).
Qed.

(** A pattern whose first character does not come again in it cannot
    begin in [a] and end in a copy of the pattern that follows [a]. *)
Lemma strip_prefix_before (x : ascii) (q a t : string) :
  forallb_str (fun c => negb (c =? x)%char) q = true ->
  strip_prefix q (a ++ String x t) <> None ->
  strip_prefix q a <> None.
Proof.
  revert a. induction q as [|y q IH]; intros a Hq H; [now destruct a|].
  simpl in Hq. apply andb_true_iff in Hq as [Hy Hq].
  apply negb_true_iff in Hy.
  destruct a as [|z a]; cbn [append strip_prefix] in *.
  - now rewrite Hy in H.
  - destruct (y =? z)%char; auto.
Qed.

Lemma startswith_before (x : ascii) (p a t : string) :
  forallb_str (fun c => negb (c =? x)%char) p = true ->
  a <> "" ->
  startswith a (String x p) = false ->
  startswith (a ++ String x t) (String x p) = false.
Proof.
  intros Hp Ha H. destruct a as [|z a]; [contradiction|].
  unfold startswith in *. cbn [append strip_prefix] in *.
  destruct (x =? z)%char; auto.
  destruct (strip_prefix p (a ++ String x t)) eqn:E; auto.
  assert (Hn : strip_prefix p a <> None)
    by (apply (strip_prefix_before x p a t Hp); now rewrite E).
  destruct (strip_prefix p a); [discriminate | contradiction].
Qed.

Lemma sub_style_absent (s : string) :
  occurs "<style>" s = false -> sub_style s = s.
Proof.
  induction s as [|c r IH]; auto.
  intros H. cbn [occurs] in H. apply orb_false_iff in H as [H1 H2].
  cbn [sub_style]. unfold startswith in H1.
  destruct (strip_prefix "<style>" (String c r)); [discriminate|].
  now rewrite IH.
Qed.

(** X14: the style elements are cut out as one piece.  The text from the
    first [<style>] to the last [</style>] is deleted, whatever stands
    between them, be it the text between two style elements; a text
    without [<style>] is left as it is. *)
Theorem style_cut_is_greedy (a b c : string) :
  occurs "<style>" a = false ->
  occurs "</style>" c = false ->
  cli_screen.clean_html (a ++ "<style>" ++ b ++ "</style>" ++ c) = a ++ c
  /\ cli_screen.clean_html a = a.
Proof.
  intros Ha Hc. unfold cli_screen.clean_html.
  split; [|now apply sub_style_absent].
  assert (Hlast : after_last "</style>" (b ++ "</style>" ++ c) = Some c).
  { apply after_last_app. cbn [append after_last].
    rewrite (after_last_none _ c Hc). reflexivity. }
  change (a ++ "<style>" ++ b ++ "</style>" ++ c)
    with (a ++ String "<" ("style>" ++ b ++ "</style>" ++ c)).
  set (t := "style>" ++ b ++ "</style>" ++ c).
  assert (Ht : sub_style (String "<" t) = c).
  { unfold t. cbn [append sub_style strip_prefix Ascii.eqb Bool.eqb].
    cbn [append] in Hlast. now rewrite Hlast. }
  clearbody t. clear Hlast.
  induction a as [|x a IH]; [exact Ht|].
  cbn [occurs] in Ha. apply orb_false_iff in Ha as [H1 H2].
  assert (Hs : startswith (String x a ++ String "<" t) "<style>" = false).
  { apply startswith_before; auto. discriminate. }
  unfold startswith in Hs. cbn [append] in *. cbn [sub_style].
  destruct (strip_prefix "<style>" (String x (a ++ String "<" t)));
    [discriminate|].
  now rewrite (IH H2).
Qed.

Lemma style_cut_is_greedy_witness :
  cli_screen.clean_html
    ("Q: " ++ "<style>" ++ ".a{}</style>capital of France?<style>.b{}"
     ++ "</style>" ++ " (hint)")
  = "Q: " ++ " (hint)".
Proof.
  exact (proj1 (style_cut_is_greedy "Q: "
                  ".a{}</style>capital of France?<style>.b{}" " (hint)"
                  eq_refl eq_refl)).
Defined.

(** ** [plain_to_html] *)

Lemma forallb_drop_while (p q : ascii -> bool) (s : string) :
  forallb_str p s = true -> forallb_str p (drop_while q s) = true.
Proof.
  induction s as [|c r IH]; auto. simpl. intros H.
  apply andb_true_iff in H as [Hc Hr].
  destruct (q c); auto. simpl. now rewrite Hc, Hr.
Qed.

Lemma forallb_rstrip (p : ascii -> bool) (s : string) :
  forallb_str p s = true -> forallb_str p (rstrip s) = true.
Proof.
  induction s as [|c r IH]; auto. simpl. intros H.
  apply andb_true_iff in H as [Hc Hr].
  destruct (is_empty (rstrip r) && isspace c); auto.
  simpl. now rewrite Hc, IH.
Qed.

Lemma forallb_strip (p : ascii -> bool) (s : string) :
  forallb_str p s = true -> forallb_str p (strip s) = true.
Proof.
  intros H. unfold strip, lstrip.
  now apply forallb_rstrip, forallb_drop_while.
Qed.

Lemma with_breaks_one_line (s : string) :
  forallb_str is_dot (with_breaks s) = true.
Proof.
  induction s as [|c r IH]; auto. cbn [with_breaks].
  destruct (c =? LF)%char eqn:E.
  - rewrite forallb_str_app, IH. reflexivity.
  - simpl. unfold is_dot at 1. now rewrite E, IH.
Qed.

(** X15: the HTML that [plain_to_html] returns is one line, and it is
    stripped: it holds no line feed, and no white space at its start or at
    its end. *)
Theorem plain_to_html_one_line (plain : string) :
  forallb_str is_dot (plain_to_html plain) = true
  /\ strip (plain_to_html plain) = plain_to_html plain.
Proof.
  unfold plain_to_html. cbv zeta. split.
  - rewrite replace_newline. apply forallb_strip, with_breaks_one_line.
  - apply strip_idempotent.
Qed.

(** ** [html_to_screen] *)

Lemma sub_empty_absent (name s : string) :
  no_lt s = true -> sub_empty_element name s = s.
Proof.
  unfold sub_empty_element, no_lt. cbn [append].
  induction s as [|c r IH]; auto. simpl. intros H.
  apply andb_true_iff in H as [Hc Hr]. apply negb_true_iff in Hc.
  unfold empty_element_match. cbn [strip_prefix].
  rewrite Ascii.eqb_sym, Hc. now rewrite IH.
Qed.

Lemma sub_span_absent (x : ascii) (o ctag : string) (style : string -> string)
      (count : nat) (s : string) :
  forallb_str (fun c => negb (c =? x)%char) s = true ->
  sub_span (String x o) ctag style count s = s.
Proof.
  unfold sub_span. induction s as [|c r IH]; auto. simpl. intros H.
  apply andb_true_iff in H as [Hc Hr]. apply negb_true_iff in Hc.
  destruct count; auto.
  rewrite Ascii.eqb_sym, Hc. now rewrite IH.
Qed.

Lemma screen_text_parts (parseable : bool) (t : string) :
  screen_text parseable t = true ->
  no_lt t = true
  /\ forallb_str (fun c => negb (c =? "&")%char) t = true
  /\ forallb_str (fun c => negb (c =? backslash)%char) t = true
  /\ no_escape_char t = true
  /\ (parseable = false ->
      forallb_str (fun c => negb (c =? "*")%char) t = true
      /\ forallb_str (fun c => negb (c =? "_")%char) t = true).
Proof.
  unfold screen_text, no_lt, no_escape_char. intros H.
  assert (W : forall q : ascii -> bool,
             (forall c, screen_char parseable c = true -> q c = true) ->
             forallb_str q t = true).
  { intros q Hq. now apply (forallb_str_weaken (screen_char parseable) q t). }
  assert (P : forall c, screen_char parseable c = true ->
             negb (c =? "<")%char = true /\ negb (c =? "&")%char = true
             /\ negb (c =? backslash)%char = true
             /\ negb (c =? "160")%char = true
             /\ (parseable = false ->
                 negb (c =? "*")%char = true /\ negb (c =? "_")%char = true)).
  { intros c Hc. unfold screen_char in Hc.
    apply andb_true_iff in Hc as [Hc H5].
    apply andb_true_iff in Hc as [Hc H4].
    apply andb_true_iff in Hc as [Hc H3].
    apply andb_true_iff in Hc as [H1 H2].
    split; [|split; [|split; [|split]]]; auto.
    intros Hp. rewrite Hp in H5. simpl in H5.
    now apply andb_true_iff in H5. }
  split; [|split; [|split; [|split]]].
  - apply W. intros c Hc. apply (P c Hc).
  - apply W. intros c Hc. apply (P c Hc).
  - apply W. intros c Hc. apply (P c Hc).
  - apply W. intros c Hc. apply andb_true_iff. split; apply (P c Hc).
  - intros Hp. split; apply W; intros c Hc; now apply (P c Hc).
Qed.

(** The screen text of [html], when the text that [html] holds or stands
    for is [t] and [t] has none of the characters the screen rewrites. *)
Lemma html_to_screen_of (L : Libs) (bold underline : string -> string)
      (html t : string) (parseable : bool) :
  (if is_generated_html L (Some html) then html_to_markdown L html
   else Ok html) = Ok t ->
  screen_text parseable t = true ->
  cli_screen.html_to_screen L bold underline html parseable = Ok (strip t).
Proof.
  intros H Ht. unfold cli_screen.html_to_screen. rewrite H. cbn [bind].
  destruct (screen_text_parts _ _ Ht) as (Hlt & Hamp & Hbs & _ & Hst).
  repeat (rewrite (replace_absent t)
            by first [ apply occurs_needs_head; exact Hlt
                     | apply occurs_needs_head; exact Hamp
                     | apply occurs_needs_head; exact Hbs ]).
  rewrite sub_empty_absent by assumption.
  destruct parseable; cbn [negb]; auto.
  destruct (Hst eq_refl) as [Hs Hu].
  rewrite (sub_span_absent "*") by assumption.
  rewrite (sub_span_absent "<" "b>") by exact Hlt.
  rewrite (sub_span_absent "_") by assumption.
  now rewrite (sub_span_absent "<" "i>") by exact Hlt.
Qed.

(** X16: the screen shows the Markdown source.  For a text without [<],
    [&], backslash and non-breaking space (and, when the screen text is
    styled, without [*] and [_]), the screen text of the HTML rendered from
    it is the text, stripped; so is the screen text of the text itself. *)
Theorem screen_shows_source (L : Libs) (bold underline : string -> string)
        (t : string) (parseable : bool) :
  LibLaws L ->
  screen_text parseable t = true ->
  (exists html,
      cli.markdown_to_html L t = Ok html
      /\ cli_screen.html_to_screen L bold underline html parseable
         = Ok (strip t))
  /\ cli_screen.html_to_screen L bold underline t parseable = Ok (strip t).
Proof.
  intros HL Ht.
  destruct (screen_text_parts _ _ Ht) as (Hlt & _ & _ & Hne & _).
  assert (Hself : cli_screen.html_to_screen L bold underline t parseable
                  = Ok (strip t)).
  { apply html_to_screen_of; auto.
    now rewrite (no_lt_not_generated L t HL Hlt). }
  split; auto.
  destruct (is_plain t) eqn:Hp.
  - exists t. split; auto. unfold cli.markdown_to_html. now rewrite Hp.
  - assert (Hs : simple_text t = true)
      by (unfold simple_text; now rewrite Hlt, Hne).
    destruct (cli_render_simple L t HL Hs Hp) as (html & Hm & Hgen & Hback).
    exists html. split; auto.
    apply html_to_screen_of; auto. now rewrite Hgen.
Qed.

Lemma screen_shows_source_witness :
  exists html,
    cli.markdown_to_html Reference.libs "  some (code) here " = Ok html
    /\ cli_screen.html_to_screen Reference.libs (fun x => x) (fun x => x)
         html false
       = Ok "some (code) here".
Proof.
  exact (proj1 (screen_shows_source Reference.libs (fun x => x) (fun x => x)
                  "  some (code) here " false ReferenceFacts.laws eq_refl)).
Defined.

(** * The text form of a note, read back *)

(** ** Lines *)

Lemma join_text (xs : list string) : join newline (xs ++ [""]) = text xs.
Proof.
  induction xs as [|x xs IH]; auto.
  cbn [app join text]. rewrite <- IH.
  destruct (xs ++ [""])%list eqn:E; [now destruct xs|]. reflexivity.
Qed.

Lemma universal_newlines_id (s : string) :
  forallb_str (fun c => negb (c =? CR)%char) s = true ->
  universal_newlines s = s.
Proof.
  induction s as [|c r IH]; auto. simpl. intros H.
  apply andb_true_iff in H as [Hc Hr]. apply negb_true_iff in Hc.
  now rewrite Hc, IH.
Qed.

Lemma file_lines_line (l rest : string) :
  forallb_str is_dot l = true ->
  file_lines (l ++ String LF rest) = add_nl l :: file_lines rest.
Proof.
  induction l as [|c l IH]; intros H.
  - reflexivity.
  - simpl in H. apply andb_true_iff in H as [Hc Hl].
    unfold is_dot in Hc. apply negb_true_iff in Hc.
    cbn [append file_lines]. now rewrite Hc, IH.
Qed.

Lemma line_text_parts (s : string) :
  line_text s = true ->
  forallb_str is_dot s = true
  /\ forallb_str (fun c => negb (c =? CR)%char) s = true.
Proof.
  unfold line_text. intros H. split.
  - apply (forallb_str_weaken _ is_dot s) in H; auto.
    intros c Hc. now apply andb_true_iff in Hc as [? _].
  - apply (forallb_str_weaken _ (fun c => negb (c =? CR)%char) s) in H; auto.
    intros c Hc. now apply andb_true_iff in Hc as [_ ?].
Qed.

Lemma lines_of_text (xs : list string) :
  forallb line_text xs = true ->
  file_lines (universal_newlines (text xs)) = map add_nl xs.
Proof.
  intros H.
  assert (Hcr : forallb_str (fun c => negb (c =? CR)%char) (text xs) = true).
  { induction xs as [|x xs IH]; auto. cbn [forallb] in H.
    apply andb_true_iff in H as [Hx Hxs]. cbn [text].
    rewrite forallb_str_app. apply line_text_parts in Hx as [_ ->].
    simpl. now apply IH. }
  rewrite universal_newlines_id by assumption. clear Hcr.
  induction xs as [|x xs IH]; auto. cbn [forallb] in H.
  apply andb_true_iff in H as [Hx Hxs]. cbn [text map].
  apply line_text_parts in Hx as [Hx _].
  now rewrite file_lines_line, IH.
Qed.

(** ** Steps of the parser on the lines of a text form *)

Lemma step_property (st : pstate) (line k v : string) :
  codeblock st = false -> field_open (field st) = false ->
  is_open_fence line = false ->
  property_match line = Some (k, v) ->
  step st line
  = Ok (set_note st
          (dict_set (note st)
             (if lower k =? "tag" then "tags" else lower k) (VStr (strip v)))).
Proof.
  intros Hc Hf Ho Hp. unfold step. now rewrite Hc, Ho, Hf, Hp.
Qed.

Lemma property_line (k v : string) :
  forallb_str isword k = true -> k <> "" ->
  forallb_str is_dot v = true ->
  property_match (k ++ ": " ++ add_nl v) = Some (k, v)
  /\ (forall c r, k = String c r -> (c =? "`")%char = false ->
        is_open_fence (k ++ ": " ++ add_nl v) = false).
Proof.
  intros Hk Hne Hv. split.
  - unfold property_match. cbn [append].
    rewrite take_while_all, drop_while_all by (auto; reflexivity).
    destruct k as [|c r]; [contradiction|]. cbn [is_empty].
    cbn [strip_prefix Ascii.eqb Bool.eqb]. unfold add_nl, newline.
    now rewrite take_while_all.
  - intros c r -> Hc. unfold is_open_fence, fence. cbn [append strip_prefix].
    rewrite Ascii.eqb_sym in Hc. now rewrite Hc.
Qed.

Lemma step_text_line (st : pstate) (line k raw : string) (d : dict string) :
  codeblock st = false -> field st = Some k -> k <> "" ->
  note_fields (note st) = Ok d -> dict_get d k = Some raw ->
  is_open_fence line = false -> heading_match line = None ->
  step st line
  = Ok (set_note st
          (dict_set (note st) "fields" (VDict (dict_set d k (raw ++ line))))).
Proof.
  intros Hc Hf Hk Hd Hr Ho Hh. unfold step. rewrite Hc, Ho, Hf, Hh.
  assert (Hopen : field_open (Some k) = true)
    by (destruct k; [contradiction | reflexivity]).
  rewrite Hopen. unfold append_line. rewrite Hf. cbn [field_title].
  now rewrite (modify_field_ok _ _ _ d raw Hd Hr).
Qed.

Lemma heading2_line (k : string) :
  name_ok k = true ->
  heading_match (add_nl ("## " ++ k)) = Some ("##", k).
Proof.
  unfold name_ok. intros H. apply andb_true_iff in H as [Hl Hc].
  apply line_text_parts in Hl as [Hd _].
  destruct k as [|c r]; [discriminate|]. apply negb_true_iff in Hc.
  unfold heading_match, add_nl.
  set (t := String c r ++ newline).
  replace (take_while is_hash (("## " ++ String c r) ++ newline))
    with "##" by reflexivity.
  replace (drop_while is_hash (("## " ++ String c r) ++ newline))
    with (String " " t) by reflexivity.
  cbn [is_empty]. do 2 f_equal.
  replace (drop_while isspace (String " " t)) with (drop_while isspace t)
    by reflexivity.
  unfold t. cbn [append drop_while]. rewrite Hc.
  change (String c (r ++ newline)) with (String c r ++ String LF "").
  now rewrite take_while_all.
Qed.

Lemma step_field_heading (st : pstate) (k : string) (d : dict string) :
  codeblock st = false -> name_ok k = true ->
  note_fields (note st) = Ok d ->
  dict_contains k (note st) = false ->
  field_ready d (field st) ->
  step st (add_nl ("## " ++ k))
  = Ok (mk_pstate (defaults st) (notes st)
          (dict_set (note st) "fields"
             (VDict (dict_set (close d (field st)) k "")))
          false (Some k)).
Proof.
  intros Hc Hk Hd Hn Hr. pose proof (heading2_line k Hk) as Hh.
  unfold step. rewrite Hc, (heading_not_open_fence _ _ _ Hh).
  rewrite (heading_not_property _ _ _ Hh).
  replace (if field_open (field st) then None else None)
    with (@None (string * string)) by now destruct (field_open (field st)).
  rewrite Hh. cbn [String.length Nat.eqb]. unfold level2.
  destruct (field st) as [k0|] eqn:Ef.
  - destruct Hr as [Hk0 Hin].
    assert (Hopen : field_open (Some k0) = true)
      by (destruct k0; [contradiction | reflexivity]).
    rewrite Hopen. apply dict_contains_get in Hin as [raw Hraw].
    unfold strip_field. rewrite Ef. cbn [field_title].
    rewrite (modify_field_ok _ _ _ d raw Hd Hraw). cbn [bind set_note note].
    assert (Hk' : k <> "fields").
    { intros ->. unfold note_fields in Hd. unfold dict_contains in Hn.
      destruct (dict_get (note st) "fields"); discriminate. }
    unfold dict_contains in *. rewrite dict_get_set_other by auto.
    destruct (dict_get (note st) k); [discriminate|].
    unfold new_field. rewrite note_fields_set. cbn [bind].
    rewrite dict_set_set. unfold set_note. cbn [close defaults notes codeblock].
    now rewrite Hraw, Hc.
  - cbn [field_open bind]. rewrite Hn. unfold new_field. rewrite Hd.
    cbn [bind close]. now rewrite Hc.
Qed.

Lemma value_line (v : string) :
  value_ok v = true ->
  is_open_fence (add_nl (strip v)) = false
  /\ heading_match (add_nl (strip v)) = None.
Proof.
  unfold value_ok. intros H.
  apply andb_true_iff in H as [H Hf]. apply andb_true_iff in H as [H Hh].
  apply negb_true_iff in Hf, Hh. unfold add_nl, newline. split.
  - unfold is_open_fence.
    destruct (strip_prefix fence (strip v ++ String LF "")) eqn:E; auto.
    assert (Hn : strip_prefix fence (strip v) <> None).
    { apply (strip_prefix_before LF fence (strip v) ""); [reflexivity|].
      now rewrite E. }
    unfold startswith in Hf.
    destruct (strip_prefix fence (strip v)); [discriminate | contradiction].
  - unfold heading_match. destruct (strip v) as [|c r]; [reflexivity|].
    unfold startswith in Hh. cbn [strip_prefix] in Hh.
    cbn [append take_while]. unfold is_hash. rewrite Ascii.eqb_sym.
    destruct ("#" =? c)%char; [discriminate | reflexivity].
Qed.

Lemma dict_set_get_id {V : Type} (d : dict V) (k : string) (v : V) :
  dict_get d k = Some v -> dict_set d k v = d.
Proof.
  induction d as [|[k0 v0] d IH]; simpl; [discriminate|].
  destruct (k0 =? k) eqn:E.
  - apply String.eqb_eq in E. now intros [= ->]; subst.
  - intros H. now rewrite IH.
Qed.

Lemma dict_set_fresh {V : Type} (d : dict V) (k : string) (v : V) :
  dict_get d k = None -> dict_set d k v = (d ++ [(k, v)])%list.
Proof.
  induction d as [|[k0 v0] d IH]; simpl; auto.
  destruct (k0 =? k); [discriminate|]. intros H. now rewrite IH.
Qed.

Lemma dict_get_close (d : dict string) (f : option string) (k : string) :
  dict_get (close d f) k = None <-> dict_get d k = None.
Proof.
  unfold close. destruct f as [k0|]; [|tauto].
  destruct (dict_get d k0) eqn:E; [|tauto].
  rewrite dict_get_set. destruct (String.eqb_spec k0 k) as [->|]; [|tauto].
  rewrite E. split; discriminate.
Qed.

(** The lines of a field, after which the field is current and holds its
    value and the two newlines. *)
Lemma run_heading_value (st : pstate) (k v : string) (d : dict string) :
  codeblock st = false -> name_ok k = true -> value_ok v = true ->
  note_fields (note st) = Ok d ->
  dict_contains k (note st) = false ->
  field_ready d (field st) ->
  run st [add_nl ("## " ++ k); add_nl (strip v)]
  = Ok (mk_pstate (defaults st) (notes st)
          (dict_set (note st) "fields"
             (VDict (dict_set (close d (field st)) k (add_nl (strip v)))))
          false (Some k)).
Proof.
  intros Hc Hk Hv Hd Hn Hr. destruct (value_line v Hv) as [Ho Hh].
  cbn [run]. rewrite (step_field_heading st k d) by assumption. cbn [bind].
  assert (Hne : k <> "").
  { intros ->. unfold name_ok in Hk. now rewrite andb_false_r in Hk. }
  rewrite (step_text_line _ _ k "" (dict_set (close d (field st)) k ""));
    auto; try apply note_fields_set; try apply dict_get_set_same.
  cbn [bind]. unfold set_note. cbn [defaults notes note codeblock field].
  now rewrite !dict_set_set.
Qed.

Lemma run_section (st : pstate) (kv : string * string) (d : dict string) :
  codeblock st = false -> name_ok (fst kv) = true -> value_ok (snd kv) = true ->
  note_fields (note st) = Ok d ->
  dict_contains (fst kv) (note st) = false ->
  field_ready d (field st) ->
  run st (section_lines kv)
  = Ok (mk_pstate (defaults st) (notes st)
          (dict_set (note st) "fields"
             (VDict (fst (load d (field st) [kv]))))
          false (snd (load d (field st) [kv]))).
Proof.
  intros Hc Hk Hv Hd Hn Hr. destruct kv as [k v]. cbn [fst snd] in *.
  change (section_lines (k, v))
    with ([add_nl ("## " ++ k); add_nl (strip v)] ++ [newline])%list.
  rewrite run_app, (run_heading_value st k v d) by assumption.
  cbn [bind run].
  assert (Hne : k <> "").
  { intros ->. unfold name_ok in Hk. now rewrite andb_false_r in Hk. }
  rewrite (step_text_line _ _ k (add_nl (strip v))
             (dict_set (close d (field st)) k (add_nl (strip v))));
    auto; try apply note_fields_set; try apply dict_get_set_same.
  cbn [bind]. unfold set_note. cbn [defaults notes note codeblock field load fst snd].
  now rewrite !dict_set_set.
Qed.

Lemma load_cons (d : dict string) (f : option string)
      (kv : string * string) (rest : list (string * string)) :
  load d f (kv :: rest)
  = load (fst (load d f [kv])) (snd (load d f [kv])) rest.
Proof. reflexivity. Qed.

Lemma run_sections (items : list (string * string)) :
  forall (st : pstate) (d : dict string),
    codeblock st = false ->
    note_fields (note st) = Ok d ->
    (forall kv, In kv items ->
                name_ok (fst kv) = true /\ value_ok (snd kv) = true
                /\ dict_contains (fst kv) (note st) = false) ->
    field_ready d (field st) ->
    run st (concat (map section_lines items))
    = Ok (mk_pstate (defaults st) (notes st)
            (dict_set (note st) "fields"
               (VDict (fst (load d (field st) items))))
            (codeblock st) (snd (load d (field st) items))).
Proof.
  induction items as [|kv rest IH]; intros st d Hc Hd Hall Hr.
  - cbn [map concat run load fst snd].
    rewrite dict_set_get_id.
    + now destruct st.
    + unfold note_fields in Hd.
      destruct (dict_get (note st) "fields") as [[| |x]|]; try discriminate.
      now injection Hd as ->.
  - cbn [map concat]. rewrite run_app.
    destruct (Hall kv (or_introl eq_refl)) as (Hk & Hv & Hn).
    rewrite (run_section st kv d) by assumption. cbn [bind].
    rewrite (IH _ (fst (load d (field st) [kv]))).
    + cbn [defaults notes note codeblock field]. rewrite dict_set_set, Hc.
      now rewrite <- load_cons.
    + reflexivity.
    + apply note_fields_set.
    + intros kv' Hin. destruct (Hall kv' (or_intror Hin)) as (Hk' & Hv' & Hn').
      repeat split; auto. cbn [note]. unfold dict_contains in *.
      rewrite dict_get_set.
      destruct (String.eqb_spec "fields" (fst kv')) as [E|]; auto.
      rewrite <- E in Hn'. unfold note_fields in Hd.
      destruct (dict_get (note st) "fields"); discriminate.
    + cbn [field load fst snd]. split.
      * intros E. unfold name_ok in Hk. rewrite E in Hk.
        now rewrite andb_false_r in Hk.
      * unfold dict_contains. now rewrite dict_get_set_same.
Qed.

(** ** The fields that come back *)

Lemma rstrip_spaces (w : string) :
  forallb_str isspace w = true -> rstrip w = "".
Proof.
  induction w as [|c w IH]; auto. simpl. intros H.
  apply andb_true_iff in H as [Hc Hw]. now rewrite (IH Hw), Hc.
Qed.

Lemma rstrip_app_spaces (s w : string) :
  forallb_str isspace w = true -> rstrip (s ++ w) = rstrip s.
Proof.
  intros Hw. induction s as [|c s IH].
  - now apply rstrip_spaces.
  - cbn [append rstrip]. now rewrite IH.
Qed.

Lemma strip_app_spaces (v w : string) :
  forallb_str isspace w = true -> strip (strip v ++ w) = strip v.
Proof.
  intros Hw.
  assert (Hl : lstrip (strip v) = strip v).
  { unfold strip. apply lstrip_rstrip, lstrip_idempotent. }
  assert (Hr : rstrip (strip v) = strip v).
  { unfold strip. apply rstrip_idempotent. }
  destruct (strip v) as [|c r] eqn:E.
  - unfold strip, lstrip. cbn [append]. now rewrite drop_while_end.
  - pose proof (lstrip_head _ _ _ Hl) as Hc.
    unfold strip at 1. unfold lstrip. cbn [append drop_while]. rewrite Hc.
    change (String c (r ++ w)) with (String c r ++ w).
    now rewrite rstrip_app_spaces.
Qed.

Lemma close_load (items : list (string * string)) :
  forall (d : dict string) (f : option string),
    NoDup (map fst items) ->
    (forall k, In k (map fst items) -> dict_get d k = None) ->
    close (fst (load d f items)) (snd (load d f items))
    = (close d f ++ map (fun kv => (fst kv, strip (snd kv))) items)%list.
Proof.
  induction items as [|[k v] rest IH]; intros d f Hnd Hfresh.
  - cbn [load fst snd map]. now rewrite app_nil_r.
  - cbn [load fst snd map]. cbn [map fst] in Hnd, Hfresh.
    inversion Hnd as [|? ? Hk Hrest]; subst.
    rewrite IH; auto.
    + unfold close at 1. rewrite dict_get_set_same, dict_set_set.
      unfold add_nl. rewrite append_assoc, strip_app_spaces by reflexivity.
      rewrite dict_set_fresh
        by (apply dict_get_close, Hfresh; now left).
      now rewrite <- app_assoc.
    + intros k' Hin. rewrite dict_get_set.
      destruct (String.eqb_spec k k') as [->|]; [contradiction|].
      apply dict_get_close, Hfresh. now right.
Qed.

Lemma distinct_NoDup (l : list string) : distinct l = true -> NoDup l.
Proof.
  induction l as [|x l IH]; simpl; [constructor|].
  intros H. apply andb_true_iff in H as [Hx Hl].
  constructor; auto. intros Hin. apply negb_true_iff in Hx.
  assert (existsb (String.eqb x) l = true).
  { apply existsb_exists. exists x. split; auto. apply String.eqb_refl. }
  congruence.
Qed.

Lemma load_ready (items : list (string * string)) :
  forall (d : dict string) (f : option string),
    field_ready d f ->
    (forall kv, In kv items -> name_ok (fst kv) = true) ->
    field_ready (fst (load d f items)) (snd (load d f items)).
Proof.
  induction items as [|kv rest IH]; intros d f Hr Hall; auto.
  cbn [load]. apply IH.
  - split.
    + intros E. pose proof (Hall kv (or_introl eq_refl)) as Hk.
      unfold name_ok in Hk. rewrite E in Hk. now rewrite andb_false_r in Hk.
    + unfold dict_contains. now rewrite dict_get_set_same.
  - intros kv' Hin. apply Hall. now right.
Qed.

(** The lines of the fields of a text form, to the end of the file: the
    note that is appended has the fields with their values stripped. *)
Lemma run_fields_finish (st : pstate) (items : list (string * string))
      (k v : string) :
  codeblock st = false -> field st = None ->
  note_fields (note st) = Ok [] ->
  (forall kv, In kv (items ++ [(k, v)])%list ->
              name_ok (fst kv) = true /\ value_ok (snd kv) = true
              /\ dict_contains (fst kv) (note st) = false) ->
  NoDup (map fst (items ++ [(k, v)])%list) ->
  exists st',
    run st (concat (map section_lines items)
            ++ [add_nl ("## " ++ k); add_nl (strip v)])%list = Ok st'
    /\ finish st'
       = Ok (defaults st,
             (notes st
              ++ [dict_set (note st) "fields"
                    (VDict (stripped_items (items ++ [(k, v)])%list))])%list).
Proof.
  intros Hc Hf Hd Hall Hnd.
  assert (Hall' : forall kv, In kv items ->
                    name_ok (fst kv) = true /\ value_ok (snd kv) = true
                    /\ dict_contains (fst kv) (note st) = false).
  { intros kv Hin. apply Hall, in_or_app. now left. }
  destruct (Hall (k, v)) as (Hk & Hv & Hn); [apply in_or_app; simpl; auto|].
  cbn [fst snd] in Hk, Hv, Hn.
  rewrite run_app, (run_sections items st []); auto;
    [|rewrite Hf; exact I].
  cbn [bind]. rewrite Hf, Hc.
  set (D := fst (load [] None items)). set (f := snd (load [] None items)).
  assert (Hready : field_ready D f).
  { apply load_ready; [exact I|]. intros kv Hin. now apply Hall'. }
  assert (Hclose : close D f = stripped_items items).
  { unfold D, f. rewrite close_load; auto.
    - rewrite map_app in Hnd. now apply NoDup_app_remove_r in Hnd.
  }
  assert (Hfresh : dict_get (stripped_items items) k = None).
  { apply dict_get_none_keys. unfold keys, stripped_items.
    rewrite map_map. cbn [fst]. rewrite map_app in Hnd. cbn [map fst] in Hnd.
    intros Hin. apply NoDup_remove_2 in Hnd. rewrite app_nil_r in Hnd.
    contradiction. }
  rewrite (run_heading_value _ k v D); auto;
    [|apply note_fields_set
     |cbn [note]; unfold dict_contains in *; rewrite dict_get_set;
      destruct (String.eqb_spec "fields" k) as [E|]; auto;
      rewrite <- E in Hn; unfold note_fields in Hd;
      destruct (dict_get (note st) "fields"); discriminate].
  cbn [defaults notes note codeblock field]. rewrite dict_set_set, Hclose.
  eexists. split; [reflexivity|].
  unfold finish. cbn [note field defaults notes].
  rewrite dict_set_truthy.
  assert (Hne : k <> "").
  { intros ->. unfold name_ok in Hk. now rewrite andb_false_r in Hk. }
  assert (Hopen : field_open (Some k) = true)
    by (destruct k; [contradiction | reflexivity]).
  rewrite Hopen. cbn [andb]. unfold strip_field. cbn [field field_title note].
  rewrite (modify_field_ok _ _ _
             (dict_set (stripped_items items) k (add_nl (strip v)))
             (add_nl (strip v)))
    by (try apply note_fields_set; apply dict_get_set_same).
  cbn [bind set_note defaults notes note]. rewrite !dict_set_set.
  unfold add_nl. rewrite strip_app_spaces by reflexivity.
  rewrite (dict_set_fresh _ k _ Hfresh).
  unfold stripped_items. now rewrite map_app.
Qed.

(** ** The header of a text form *)

Lemma step_property_line (st : pstate) (k v : string) :
  codeblock st = false -> field_open (field st) = false ->
  forallb_str isword k = true -> lower k = k -> k <> "tag" ->
  (exists c r, k = String c r /\ (c =? "`")%char = false) ->
  forallb_str is_dot v = true ->
  step st (add_nl (k ++ ": " ++ v))
  = Ok (set_note st (dict_set (note st) k (VStr (strip v)))).
Proof.
  intros Hc Hf Hk Hl Ht (c & r & -> & Hq) Hv.
  destruct (property_line (String c r) v Hk ltac:(discriminate) Hv)
    as [Hp Ho].
  assert (E : add_nl (String c r ++ ": " ++ v)
              = String c r ++ ": " ++ add_nl v).
  { unfold add_nl. now rewrite !append_assoc. }
  rewrite E, (step_property st _ (String c r) v); auto.
  - rewrite Hl. destruct (String.eqb_spec (String c r) "tag"); [contradiction|].
    reflexivity.
  - now apply (Ho c r).
Qed.

Lemma step_blank (st : pstate) :
  codeblock st = false -> field_open (field st) = false ->
  step st newline = Ok st.
Proof.
  intros Hc Hf. unfold step. rewrite Hc, Hf.
  replace (is_open_fence newline) with false by reflexivity.
  replace (property_match newline) with (@None (string * string))
    by reflexivity.
  now replace (heading_match newline) with (@None (string * string))
    by reflexivity.
Qed.

Lemma step_note_heading (st : pstate) (title : string) :
  codeblock st = false ->
  forallb_str is_dot title = true ->
  (exists c r, title = String c r /\ isspace c = false) ->
  step st (add_nl ("# " ++ title)) = level1 st title.
Proof.
  intros Hc Hd (c & r & -> & Hs).
  assert (Hh : heading_match (add_nl ("# " ++ String c r))
               = Some ("#", String c r)).
  { unfold heading_match, add_nl.
    set (t := String c r ++ newline).
    replace (take_while is_hash (("# " ++ String c r) ++ newline))
      with "#" by reflexivity.
    replace (drop_while is_hash (("# " ++ String c r) ++ newline))
      with (String " " t) by reflexivity.
    cbn [is_empty]. do 2 f_equal.
    replace (drop_while isspace (String " " t)) with (drop_while isspace t)
      by reflexivity.
    unfold t. cbn [append drop_while]. rewrite Hs.
    change (String c (r ++ newline)) with (String c r ++ String LF "").
    now rewrite take_while_all. }
  unfold step. rewrite Hc, (heading_not_open_fence _ _ _ Hh).
  rewrite (heading_not_property _ _ _ Hh).
  replace (if field_open (field st) then None else None)
    with (@None (string * string)) by now destruct (field_open (field st)).
  now rewrite Hh.
Qed.

Lemma run_template_header (M J : string) :
  forallb_str is_dot M = true -> forallb_str is_dot J = true ->
  run init_state
      (map add_nl ["model: " ++ M; "tags: " ++ J; "markdown: false"; "";
                   "# Note"; ""])
  = Ok (mk_pstate
          [("model", VStr (strip M)); ("tags", VStr (strip J));
           ("markdown", VStr "false")]
          [] [("title", VStr "Note"); ("fields", VDict [])] false None).
Proof.
  intros HM HJ. cbn [map run].
  change (add_nl ("model: " ++ M)) with (add_nl ("model" ++ ": " ++ M)).
  change (add_nl ("tags: " ++ J)) with (add_nl ("tags" ++ ": " ++ J)).
  change (add_nl "markdown: false")
    with (add_nl ("markdown" ++ ": " ++ "false")).
  change (add_nl "# Note") with (add_nl ("# " ++ "Note")).
  change (add_nl "") with newline.
  rewrite (step_property_line init_state "model" M)
    by (auto; try discriminate; now exists "m"%char, "odel").
  cbn [bind].
  rewrite (step_property_line _ "tags" J)
    by (auto; try discriminate; now exists "t"%char, "ags").
  cbn [bind].
  rewrite (step_property_line _ "markdown" "false")
    by (auto; try discriminate; now exists "m"%char, "arkdown").
  cbn [bind].
  match goal with
  | |- context [step ?s newline] =>
      change s with (mk_pstate [] []
                       [("model", VStr (strip M)); ("tags", VStr (strip J));
                        ("markdown", VStr "false")] false None)
  end.
  rewrite step_blank by reflexivity. cbn [bind].
  rewrite (step_note_heading _ "Note")
    by (auto; now exists "N"%char, "ote").
  match goal with
  | |- context [level1 ?s ?t] =>
      change (level1 s t)
        with (Ok (mk_pstate
                    [("model", VStr (strip M)); ("tags", VStr (strip J));
                     ("markdown", VStr "false")]
                    [] [("title", VStr "Note"); ("fields", VDict [])]
                    false None))
  end.
  cbn [bind]. now rewrite step_blank by reflexivity.
Qed.

(** ** The text form that is written *)

Lemma value_ok_parts (v : string) :
  value_ok v = true ->
  line_text v = true /\ no_lt v = true
  /\ forallb_str (fun c => negb (c =? "&")%char) v = true
  /\ forallb_str (fun c => negb (c =? backslash)%char) v = true.
Proof.
  unfold value_ok. intros H.
  apply andb_true_iff in H as [H _]. apply andb_true_iff in H as [H _].
  apply andb_true_iff in H as [Hl H]. split; auto.
  assert (W : forall q : ascii -> bool,
             (forall c, negb (c =? "<")%char && negb (c =? "&")%char
                        && negb (c =? backslash)%char = true -> q c = true) ->
             forallb_str q v = true).
  { intros q Hq. now apply (forallb_str_weaken _ q v) in H. }
  unfold no_lt. repeat split; apply W; intros c Hc;
    apply andb_true_iff in Hc as [Hc H3];
    apply andb_true_iff in Hc as [H1 H2]; auto.
Qed.

Lemma html_to_screen_plain (L : Libs) (bold underline : string -> string)
      (t : string) :
  LibLaws L -> no_lt t = true ->
  forallb_str (fun c => negb (c =? "&")%char) t = true ->
  forallb_str (fun c => negb (c =? backslash)%char) t = true ->
  cli_screen.html_to_screen L bold underline t true = Ok (strip t).
Proof.
  intros HL Hlt Hamp Hbs. unfold cli_screen.html_to_screen.
  rewrite (no_lt_not_generated L t HL Hlt). cbn [bind].
  repeat (rewrite (replace_absent t)
            by first [ apply occurs_needs_head; exact Hlt
                     | apply occurs_needs_head; exact Hamp
                     | apply occurs_needs_head; exact Hbs ]).
  now rewrite sub_empty_absent by assumption.
Qed.

Lemma body_lines_plain (L : Libs) (bold underline : string -> string)
      (items : list (string * string)) :
  LibLaws L ->
  (forall kv, In kv items -> value_ok (snd kv) = true) ->
  map_result (MyNote.field_lines L bold underline) items
  = Ok (map field_text items).
Proof.
  intros HL. induction items as [|kv rest IH]; intros Hall; auto.
  cbn [map_result map].
  destruct (value_ok_parts _ (Hall kv (or_introl eq_refl)))
    as (_ & Hlt & Hamp & Hbs).
  unfold MyNote.field_lines at 1.
  rewrite (no_lt_not_generated L _ HL Hlt).
  rewrite html_to_screen_plain by assumption. cbn [bind].
  rewrite IH by (intros kv' Hin; apply Hall; now right).
  reflexivity.
Qed.

Lemma markdown_line_plain (L : Libs) (self : MyNote.t) :
  LibLaws L ->
  forallb value_ok (cli.n_fields (MyNote.n self)) = true ->
  MyNote.markdown_line L self = ["markdown: false"].
Proof.
  intros HL H. unfold MyNote.markdown_line.
  replace (existsb _ _) with false; auto.
  induction (cli.n_fields (MyNote.n self)) as [|v vs IH]; auto.
  cbn [forallb] in H. apply andb_true_iff in H as [Hv Hvs].
  cbn [existsb]. destruct (value_ok_parts v Hv) as (_ & Hlt & _).
  rewrite (no_lt_not_generated L v HL Hlt). now apply IH.
Qed.

Lemma tags_line (ts : list string) :
  forallb tag_ok ts = true -> line_text (join ", " ts) = true.
Proof.
  assert (Hw : forall x, tag_ok x = true -> line_text x = true).
  { intros x Hx. apply tag_ok_parts in Hx as (_ & Hs & _).
    apply (forallb_str_weaken (fun c => negb (isspace c))); auto.
    intros c Hc.
    destruct (Ascii.eqb_spec c LF) as [->|]; [discriminate|].
    destruct (Ascii.eqb_spec c CR) as [->|]; [discriminate|]. reflexivity. }
  induction ts as [|x [|y r] IH]; intros H.
  - reflexivity.
  - simpl in H. rewrite andb_true_r in H. now apply Hw.
  - rewrite join_cons. cbn [forallb] in H. apply andb_true_iff in H as [Hx H].
    pose proof (Hw x Hx) as Hx'. pose proof (IH H) as Hr.
    unfold line_text in *. rewrite !forallb_str_app, Hx', Hr. reflexivity.
Qed.

Lemma plain_note_parts (keys : list string) (self : MyNote.t) :
  plain_note keys self = true ->
  let names := cli.flds (cli.n_model (MyNote.n self)) in
  let vals := cli.n_fields (MyNote.n self) in
  List.length names = List.length vals
  /\ vals <> []
  /\ forallb name_ok names = true
  /\ NoDup names
  /\ (forall k, In k names -> ~ In k keys)
  /\ forallb value_ok vals = true
  /\ forallb tag_ok (cli.n_tags (MyNote.n self)) = true
  /\ line_text (MyNote.model_name self) = true.
Proof.
  unfold plain_note. cbv zeta. intros H.
  repeat (apply andb_true_iff in H as [H ?]).
  repeat split; auto.
  - now apply Nat.eqb_eq.
  - intros E. rewrite E in *. discriminate.
  - now apply distinct_NoDup.
  - intros k Hk Hin.
    match goal with
    | Hf : forallb (fun k => negb (existsb _ keys)) _ = true |- _ =>
        rewrite forallb_forall in Hf; specialize (Hf k Hk);
        apply negb_true_iff in Hf
    end.
    assert (existsb (String.eqb k) keys = true).
    { apply existsb_exists. exists k. split; auto. apply String.eqb_refl. }
    congruence.
Qed.

Lemma items_parts (names vals : list string) :
  List.length names = List.length vals ->
  map fst (combine names vals) = names
  /\ map snd (combine names vals) = vals
  /\ stripped_items (combine names vals) = combine names (map strip vals).
Proof.
  revert vals. induction names as [|k names IH]; intros [|v vals] H;
    try discriminate; auto.
  simpl in H. injection H as H. destruct (IH vals H) as (H1 & H2 & H3).
  cbn [combine map fst snd stripped_items]. fold (stripped_items (combine names vals)).
  now rewrite H1, H2, H3.
Qed.

Lemma concat_field_text (items : list (string * string)) :
  map add_nl (concat (map field_text items))
  = concat (map section_lines items).
Proof.
  induction items as [|kv rest IH]; auto.
  cbn [map concat]. rewrite map_app, IH. reflexivity.
Qed.

Lemma field_text_lines (items : list (string * string)) :
  (forall kv, In kv items ->
              name_ok (fst kv) = true /\ value_ok (snd kv) = true) ->
  forallb line_text (concat (map field_text items)) = true.
Proof.
  induction items as [|kv rest IH]; intros Hall; auto.
  cbn [map concat field_text app forallb].
  destruct (Hall kv (or_introl eq_refl)) as [Hk Hv].
  unfold name_ok in Hk. apply andb_true_iff in Hk as [Hk _].
  destruct (value_ok_parts _ Hv) as (Hl & _).
  rewrite IH by (intros kv' Hin; apply Hall; now right).
  replace (line_text ("## " ++ fst kv)) with (line_text (fst kv))
    by reflexivity.
  rewrite Hk. unfold line_text at 1. rewrite forallb_strip by exact Hl.
  reflexivity.
Qed.

(** The parser on a text form: a header, then the fields. *)
Lemma parse_text_form (header : list string) (st : pstate)
      (items : list (string * string)) :
  forallb line_text header = true ->
  run init_state (map add_nl header) = Ok st ->
  codeblock st = false -> field st = None ->
  note_fields (note st) = Ok [] ->
  items <> [] ->
  (forall kv, In kv items ->
              name_ok (fst kv) = true /\ value_ok (snd kv) = true
              /\ dict_contains (fst kv) (note st) = false) ->
  NoDup (map fst items) ->
  _parse_file (join newline (header ++ concat (map field_text items))%list)
  = Ok (defaults st,
        (notes st
         ++ [dict_set (note st) "fields" (VDict (stripped_items items))])%list).
Proof.
  intros Hh Hrun Hc Hf Hd Hne Hall Hnd.
  destruct (exists_last Hne) as (items' & [k v] & ->).
  destruct (run_fields_finish st items' k v Hc Hf Hd Hall Hnd)
    as (st' & Hrun' & Hfin).
  set (last2 := ["## " ++ k; strip v]).
  set (xs := (header ++ concat (map field_text items') ++ last2)%list).
  assert (E : (header ++ concat (map field_text (items' ++ [(k, v)])))%list
              = (xs ++ [""])%list).
  { unfold xs, last2. rewrite map_app, concat_app.
    cbn [map concat field_text fst snd].
    rewrite app_nil_r, <- !app_assoc. reflexivity. }
  rewrite E, join_text. unfold _parse_file.
  rewrite lines_of_text.
  - unfold xs, last2. rewrite !map_app, concat_field_text, run_app, Hrun.
    cbn [bind map]. rewrite Hrun'. cbn [bind]. exact Hfin.
  - unfold xs, last2. rewrite !forallb_app, Hh.
    rewrite field_text_lines.
    + assert (Hkv : In (k, v) (items' ++ [(k, v)])%list)
        by (apply in_or_app; simpl; auto).
      destruct (Hall _ Hkv) as (Hk & Hv & _). cbn [fst snd] in *.
      unfold name_ok in Hk. apply andb_true_iff in Hk as [Hk _].
      destruct (value_ok_parts _ Hv) as (Hl & _).
      cbn [forallb].
      replace (line_text ("## " ++ k)) with (line_text k) by reflexivity.
      rewrite Hk. unfold line_text at 1. rewrite forallb_strip by exact Hl.
      reflexivity.
    + intros kv Hin.
      destruct (Hall kv) as (? & ? & _); auto. apply in_or_app. now left.
Qed.

Lemma plain_note_items (keys : list string) (self : MyNote.t) (n : dict pyval) :
  plain_note keys self = true ->
  (forall k, dict_contains k n = true -> In k keys) ->
  MyNote.items self <> []
  /\ (forall kv, In kv (MyNote.items self) ->
                 name_ok (fst kv) = true /\ value_ok (snd kv) = true
                 /\ dict_contains (fst kv) n = false)
  /\ NoDup (map fst (MyNote.items self))
  /\ stripped_items (MyNote.items self)
     = combine (cli.flds (cli.n_model (MyNote.n self)))
               (map strip (cli.n_fields (MyNote.n self))).
Proof.
  intros Hp Hkeys.
  destruct (plain_note_parts keys self Hp)
    as (Hlen & Hne & Hnames & Hnd & Hres & Hvals & _).
  destruct (items_parts _ _ Hlen) as (H1 & H2 & H3).
  unfold MyNote.items. repeat split; auto.
  - intros E. rewrite E in H2. simpl in H2. now symmetry in H2.
  - rewrite forallb_forall in Hnames. apply Hnames.
    rewrite <- H1. now apply in_map.
  - rewrite forallb_forall in Hvals. apply Hvals.
    rewrite <- H2. now apply in_map.
  - destruct (dict_contains (fst kv) n) eqn:E; auto.
    exfalso. apply (Hres (fst kv)); auto.
    rewrite <- H1. now apply in_map.
  - now rewrite H1.
Qed.

(** The text of [get_template] is parsed as the note it was written from. *)
Lemma get_template_parsed (L : Libs) (bold underline : string -> string)
        (self : MyNote.t) :
  LibLaws L ->
  plain_note template_keys self = true ->
  exists content,
    MyNote.get_template L bold underline self = Ok content
    /\ cli.parse_notes_from_markdown content = Ok [parsed_note "Note" self].
Proof.
  intros HL Hp.
  destruct (plain_note_parts _ self Hp)
    as (Hlen & Hne & Hnames & Hnd & Hres & Hvals & Htags & Hmodel).
  set (n0 := [("title", VStr "Note"); ("fields", VDict [])] : dict pyval).
  destruct (plain_note_items template_keys self n0 Hp)
    as (Hitems & Hall & Hnd' & Hstripped).
  { intros k. unfold n0, dict_contains, template_keys. cbn [dict_get In].
    destruct (String.eqb_spec "title" k); auto.
    destruct (String.eqb_spec "fields" k); auto. discriminate. }
  exists (join newline
            (template_header (MyNote.model_name self)
                             (MyNote.get_tag_string self)
             ++ concat (map field_text (MyNote.items self)))%list).
  split.
  { unfold MyNote.get_template, MyNote.body_lines.
    rewrite body_lines_plain, markdown_line_plain; auto.
    intros kv Hin. now apply Hall. }
  apply line_text_parts in Hmodel as HM. destruct HM as [HM _].
  pose proof (tags_line _ Htags) as HJ.
  apply line_text_parts in HJ as HJ'. destruct HJ' as [HJ' _].
  assert (Hh : forallb line_text
                 (template_header (MyNote.model_name self)
                                  (MyNote.get_tag_string self)) = true).
  { unfold template_header. cbn [forallb].
    replace (line_text ("model: " ++ MyNote.model_name self))
      with (line_text (MyNote.model_name self)) by reflexivity.
    replace (line_text ("tags: " ++ MyNote.get_tag_string self))
      with (line_text (MyNote.get_tag_string self)) by reflexivity.
    unfold MyNote.get_tag_string. rewrite Hmodel, HJ. reflexivity. }
  unfold cli.parse_notes_from_markdown, cli._parse_file.
  rewrite (parse_text_form _ _ (MyNote.items self) Hh
             (run_template_header _ _ HM HJ')
             eq_refl eq_refl eq_refl Hitems Hall Hnd').
  cbn [bind fst snd defaults notes note app]. rewrite Hstripped.
  unfold MyNote.get_tag_string. rewrite strip_join by assumption.
  unfold cli.default_markdown, remove_comma, cli.complete_note, parsed_note.
  cbn. rewrite replace_char, remove_comma_join by assumption. reflexivity.
Qed.

(** X17: a template is read back as the note it was written from.  For a
    note without generated HTML whose values are one-line texts, the text
    that [get_template] writes is parsed by [parse_notes_from_markdown] as
    one note, named [Note], with the fields of the note under their names,
    each value stripped, with its model and its tags, and with the markdown
    flag off. *)
Theorem template_read_back (L : Libs) (bold underline : string -> string)
        (self : MyNote.t) :
  LibLaws L ->
  plain_note template_keys self = true ->
  exists content,
    MyNote.get_template L bold underline self = Ok content
    /\ cli.parse_notes_from_markdown content = Ok [parsed_note "Note" self].
Proof. apply get_template_parsed. Qed.

Lemma template_read_back_witness :
  exists content,
    MyNote.get_template Reference.libs (fun x => x) (fun x => x)
      (basic_note ["capital of France?  "; "Paris"] ["geo"; "marked"])
    = Ok content
    /\ cli.parse_notes_from_markdown content
       = Ok [[("title", VStr "Note");
              ("fields", VDict [("Front", "capital of France?");
                                ("Back", "Paris")]);
              ("model", VStr "Basic");
              ("tags", VStr "geo marked");
              ("markdown", VBool false)]].
Proof.
  exact (template_read_back Reference.libs (fun x => x) (fun x => x)
           (basic_note ["capital of France?  "; "Paris"] ["geo"; "marked"])
           ReferenceFacts.laws eq_refl).
Defined.

(** ** [__repr__] and [edit] *)

Lemma digits_line (d : Decimal.uint) :
  line_text (NilEmpty.string_of_uint d) = true.
Proof. induction d; simpl; auto. Qed.

Lemma str_of_int_line (i : Z) : line_text (str_of_int i) = true.
Proof.
  unfold str_of_int, NilZero.string_of_int, NilZero.string_of_uint.
  destruct (Z.to_int i) as [d|d]; destruct d; try reflexivity;
    try apply (digits_line (Decimal.D0 _));
    try apply (digits_line (Decimal.D1 _));
    try apply (digits_line (Decimal.D2 _));
    try apply (digits_line (Decimal.D3 _));
    try apply (digits_line (Decimal.D4 _));
    try apply (digits_line (Decimal.D5 _));
    try apply (digits_line (Decimal.D6 _));
    try apply (digits_line (Decimal.D7 _));
    try apply (digits_line (Decimal.D8 _));
    try apply (digits_line (Decimal.D9 _)).
Qed.

Lemma run_repr_header (id M J : string) :
  forallb_str is_dot id = true ->
  forallb_str is_dot M = true -> forallb_str is_dot J = true ->
  run init_state (map add_nl (repr_header id M J))
  = Ok (mk_pstate [] []
          [("title", VStr ("Note ID: " ++ id)); ("fields", VDict []);
           ("model", VStr (strip M)); ("tags", VStr (strip J));
           ("markdown", VStr "false")]
          false None).
Proof.
  intros Hi HM HJ. unfold repr_header. cbn [map run].
  change (add_nl ("# Note ID: " ++ id))
    with (add_nl ("# " ++ "Note ID: " ++ id)).
  change (add_nl ("model: " ++ M)) with (add_nl ("model" ++ ": " ++ M)).
  change (add_nl ("tags: " ++ J)) with (add_nl ("tags" ++ ": " ++ J)).
  change (add_nl "markdown: false")
    with (add_nl ("markdown" ++ ": " ++ "false")).
  change (add_nl "") with newline.
  rewrite (step_note_heading _ ("Note ID: " ++ id))
    by (auto; now exists "N"%char, ("ote ID: " ++ id)).
  change (level1 init_state ("Note ID: " ++ id))
    with (Ok (mk_pstate [] []
                [("title", VStr ("Note ID: " ++ id)); ("fields", VDict [])]
                false None)).
  cbn [bind].
  rewrite (step_property_line _ "model" M)
    by (auto; try discriminate; now exists "m"%char, "odel").
  cbn [bind].
  rewrite (step_property_line _ "tags" J)
    by (auto; try discriminate; now exists "t"%char, "ags").
  cbn [bind].
  rewrite (step_property_line _ "markdown" "false")
    by (auto; try discriminate; now exists "m"%char, "arkdown").
  cbn [bind].
  match goal with
  | |- context [step ?s newline] =>
      change s with (mk_pstate [] []
                       [("title", VStr ("Note ID: " ++ id));
                        ("fields", VDict []);
                        ("model", VStr (strip M)); ("tags", VStr (strip J));
                        ("markdown", VStr "false")] false None)
  end.
  now rewrite step_blank by reflexivity.
Qed.

(** The text of [__repr__] is parsed as the note it was written from. *)
Lemma repr_read_back (L : Libs) (bold underline : string -> string)
      (self : MyNote.t) :
  LibLaws L ->
  plain_note repr_keys self = true ->
  exists content,
    MyNote.repr L bold underline self = Ok content
    /\ cli.parse_notes_from_markdown content
       = Ok [parsed_note ("Note ID: " ++ str_of_int (MyNote.n_id self)) self].
Proof.
  intros HL Hp.
  destruct (plain_note_parts _ self Hp)
    as (Hlen & Hne & Hnames & Hnd & Hres & Hvals & Htags & Hmodel).
  set (id := str_of_int (MyNote.n_id self)).
  set (n0 := [("title", VStr ("Note ID: " ++ id)); ("fields", VDict []);
              ("model", VStr (strip (MyNote.model_name self)));
              ("tags", VStr (strip (MyNote.get_tag_string self)));
              ("markdown", VStr "false")] : dict pyval).
  destruct (plain_note_items repr_keys self n0 Hp)
    as (Hitems & Hall & Hnd' & Hstripped).
  { intros k. unfold n0, dict_contains, repr_keys. cbn [dict_get In].
    destruct (String.eqb_spec "title" k); auto.
    destruct (String.eqb_spec "fields" k); auto.
    destruct (String.eqb_spec "model" k); auto.
    destruct (String.eqb_spec "tags" k); auto.
    destruct (String.eqb_spec "markdown" k); auto 6. discriminate. }
  exists (join newline
            (repr_header id (MyNote.model_name self)
                         (MyNote.get_tag_string self)
             ++ concat (map field_text (MyNote.items self)))%list).
  split.
  { unfold MyNote.repr, MyNote.body_lines.
    rewrite body_lines_plain, markdown_line_plain; auto.
    intros kv Hin. now apply Hall. }
  apply line_text_parts in Hmodel as HM. destruct HM as [HM _].
  pose proof (tags_line _ Htags) as HJ.
  apply line_text_parts in HJ as HJ'. destruct HJ' as [HJ' _].
  pose proof (str_of_int_line (MyNote.n_id self)) as Hid. fold id in Hid.
  apply line_text_parts in Hid as Hid'. destruct Hid' as [Hid' _].
  assert (Hh : forallb line_text
                 (repr_header id (MyNote.model_name self)
                              (MyNote.get_tag_string self)) = true).
  { unfold repr_header. cbn [forallb].
    replace (line_text ("# Note ID: " ++ id)) with (line_text id)
      by reflexivity.
    replace (line_text ("model: " ++ MyNote.model_name self))
      with (line_text (MyNote.model_name self)) by reflexivity.
    replace (line_text ("tags: " ++ MyNote.get_tag_string self))
      with (line_text (MyNote.get_tag_string self)) by reflexivity.
    unfold MyNote.get_tag_string. rewrite Hid, Hmodel, HJ. reflexivity. }
  unfold cli.parse_notes_from_markdown, cli._parse_file.
  rewrite (parse_text_form _ _ (MyNote.items self) Hh
             (run_repr_header _ _ _ Hid' HM HJ')
             eq_refl eq_refl eq_refl Hitems Hall Hnd').
  cbn [bind fst snd defaults notes note app]. rewrite Hstripped.
  unfold MyNote.get_tag_string. rewrite strip_join by assumption.
  unfold cli.default_markdown, remove_comma, cli.complete_note, parsed_note.
  cbn. rewrite replace_char, remove_comma_join by assumption. reflexivity.
Qed.

Lemma strings_eqb_refl (l : list string) : strings_eqb l l = true.
Proof.
  induction l as [|x l IH]; auto. simpl. now rewrite String.eqb_refl.
Qed.

Lemma py_setitem_at {A : Type} (pre : list A) (x v : A) (rest : list A) :
  py_setitem (pre ++ x :: rest)%list (Z.of_nat (List.length pre)) v
  = Ok (pre ++ v :: rest)%list.
Proof.
  assert (Hset : set_nth (pre ++ x :: rest)%list (List.length pre) v
                 = (pre ++ v :: rest)%list).
  { induction pre as [|y pre IH]; simpl; auto. now rewrite IH. }
  unfold py_setitem, py_position. rewrite length_app. cbn [List.length].
  destruct (Z.ltb_spec (Z.of_nat (List.length pre)) 0); [lia|].
  destruct (Z.leb_spec 0 (Z.of_nat (List.length pre))); [|lia].
  destruct (Z.ltb_spec (Z.of_nat (List.length pre))
              (Z.of_nat (List.length pre + S (List.length rest)))); [|lia].
  cbn [andb]. now rewrite Nat2Z.id, Hset.
Qed.

(** Without the markdown flag the loop of [edit] stores the values as they
    are, one for each field. *)
Lemma store_values_verbatim (L : Libs) (vs : list string) :
  forall pre fields : list string,
    List.length fields = List.length vs ->
    MyNote.store_values L (pre ++ fields)%list (Z.of_nat (List.length pre))
                        vs (Some (VBool false))
    = Ok (pre ++ vs)%list.
Proof.
  induction vs as [|v vs IH]; intros pre [|x fields] H; try discriminate.
  - reflexivity.
  - cbn [MyNote.store_values cli.truthy bind].
    rewrite py_setitem_at. cbn [bind].
    replace (Z.succ (Z.of_nat (List.length pre)))
      with (Z.of_nat (List.length (pre ++ [v])%list))
      by (rewrite length_app; simpl; lia).
    replace (pre ++ v :: fields)%list with ((pre ++ [v]) ++ fields)%list
      by now rewrite <- app_assoc.
    simpl in H. injection H as H.
    rewrite (IH (pre ++ [v])%list fields H). now rewrite <- app_assoc.
Qed.

(** X18: editing a note without changing its text.  For a note without
    generated HTML whose values are one-line texts and whose field names
    are none of the property names, when the editor exits with code 0 and
    leaves the file as it is, [edit] returns, adds no note, keeps the tags
    and stores each value stripped: a note with stripped values is
    unchanged.  The collection is flagged as modified all the same. *)
Theorem edit_without_change (L : Libs) (bold underline : string -> string)
        (dupeOrEmpty : cli.Anki -> cli.anki_note -> bool)
        (editor : string -> Z * string) (self : MyNote.t) :
  LibLaws L ->
  plain_note repr_keys self = true ->
  (forall content, editor content = (0%Z, content)) ->
  let self' :=
    MyNote.set_fields self (map strip (cli.n_fields (MyNote.n self))) in
  MyNote.edit L bold underline dupeOrEmpty editor self
  = (if dupeOrEmpty (MyNote.a self') (MyNote.n self')
     then MyNote.set_a self'
            (cli.echo (MyNote.a self') "The updated note is now a dupe!")
     else self',
     Ok tt).
Proof.
  intros HL Hp Hed self'.
  destruct (repr_read_back L bold underline self HL Hp)
    as (content & Hrepr & Hparse).
  destruct (plain_note_parts _ self Hp)
    as (Hlen & Hne & Hnames & Hnd & Hres & Hvals & Htags & Hmodel).
  unfold MyNote.edit. rewrite Hrepr, Hed. cbn [Z.eqb negb].
  rewrite Hparse. cbn [more_than_one]. unfold parsed_note.
  replace (dict_get _ "tags")
    with (Some (VStr (join " " (cli.n_tags (MyNote.n self)))))
    by reflexivity.
  replace (dict_get _ "fields")
    with (Some (VDict (combine (cli.flds (cli.n_model (MyNote.n self)))
                         (map strip (cli.n_fields (MyNote.n self))))))
    by reflexivity.
  replace (dict_get _ "markdown") with (Some (VBool false)) by reflexivity.
  rewrite split_join by assumption.
  replace (MyNote.set_a self (MyNote.a self)) with self by now destruct self.
  rewrite strings_eqb_refl. cbn [negb].
  assert (Hv : values (combine (cli.flds (cli.n_model (MyNote.n self)))
                         (map strip (cli.n_fields (MyNote.n self))))
               = map strip (cli.n_fields (MyNote.n self))).
  { unfold values. apply items_parts. now rewrite length_map. }
  rewrite Hv.
  pose proof (store_values_verbatim L
                (map strip (cli.n_fields (MyNote.n self))) []
                (cli.n_fields (MyNote.n self))) as Hs.
  cbn [app List.length Z.of_nat] in Hs. rewrite Hs by now rewrite length_map.
  fold self'. now destruct (dupeOrEmpty (MyNote.a self') (MyNote.n self')).
Qed.

Lemma edit_without_change_witness :
  MyNote.edit Reference.libs (fun x => x) (fun x => x) (fun _ _ => false)
    (fun content => (0%Z, content))
    (basic_note ["capital of France?"; "Paris"] ["geo"])
  = (MyNote.set_fields (basic_note ["capital of France?"; "Paris"] ["geo"])
       ["capital of France?"; "Paris"],
     Ok tt).
Proof.
  exact (edit_without_change Reference.libs (fun x => x) (fun x => x)
           (fun _ _ => false) (fun content => (0%Z, content))
           (basic_note ["capital of France?"; "Paris"] ["geo"])
           ReferenceFacts.laws eq_refl (fun _ => eq_refl)).
Defined.


(** ** A note added from a template *)

Lemma set_model_current (a a1 : cli.Anki) (name : string) (m : cli.model) :
  cli.set_model a name = (a1, Ok m) -> cli.current a1 = m.
Proof.
  unfold cli.set_model. destruct (cli.m_name (cli.current a) =? name).
  - now intros [= <- <-].
  - destruct (cli.find_model a name); [|discriminate]. now intros [= <- <-].
Qed.

Lemma no_warnings (a : cli.Anki) (names : list string) :
  fold_left
    (fun (a : cli.Anki) (xy : string * string) =>
       if negb (fst xy =? snd xy) then cli.echo a (cli.inconsistent (fst xy) (snd xy))
       else a)
    (combine names names) a = a.
Proof.
  revert a. induction names as [|x names IH]; intros a; auto.
  cbn [combine fold_left fst snd]. now rewrite String.eqb_refl.
Qed.

Lemma keys_combine (names vals : list string) :
  List.length names = List.length vals ->
  keys (combine names vals) = names /\ values (combine names vals) = vals.
Proof. intros H. unfold keys, values. split; now apply items_parts. Qed.

Lemma rstrip_empty_split (s : string) :
  rstrip s = "" -> split_from "" s = [].
Proof.
  induction s as [|c r IH]; auto. cbn [rstrip split_from].
  destruct (is_empty (rstrip r) && isspace c) eqn:E; [|discriminate].
  apply andb_true_iff in E as [Er Ec]. rewrite Ec. intros _.
  apply IH. now apply is_empty_true.
Qed.

Lemma split_from_rstrip (s cur : string) :
  split_from cur (rstrip s) = split_from cur s.
Proof.
  revert cur. induction s as [|c r IH]; intros cur; auto.
  cbn [rstrip]. destruct (is_empty (rstrip r) && isspace c) eqn:E.
  - apply andb_true_iff in E as [Er Ec]. apply is_empty_true in Er.
    cbn [split_from]. rewrite Ec, (rstrip_empty_split r Er).
    now destruct (is_empty cur).
  - cbn [split_from]. destruct (isspace c); now rewrite !IH.
Qed.

Lemma split_from_lstrip (s : string) :
  split_from "" (lstrip s) = split_from "" s.
Proof.
  unfold lstrip. induction s as [|c r IH]; auto. cbn [drop_while split_from].
  destruct (isspace c) eqn:E; auto. cbn [split_from]. now rewrite E.
Qed.

(** Stripping a text does not change its words. *)
Lemma split_strip (s : string) : split (strip s) = split s.
Proof.
  unfold split, strip. now rewrite split_from_rstrip, split_from_lstrip.
Qed.

(** X19: a note added from a template is a copy of it.  For a note
    without generated HTML whose values are one-line texts, when the editor
    exits with code 0 and leaves the template as it is and the collection
    has the model of the note under its name, [add_notes_with_editor]
    returns one note with the model, the tags and the values, stripped, of
    the template; it is added to the collection unless the collection
    takes it for a duplicate, which is then reported. *)
Theorem note_from_template_is_copy
        (L : Libs) (bold underline : string -> string)
        (dupeOrEmpty : cli.Anki -> cli.anki_note -> bool)
        (editor : string -> Z * string) (a a1 : cli.Anki) (self : MyNote.t) :
  LibLaws L ->
  plain_note template_keys self = true ->
  (forall content, editor content = (0%Z, content)) ->
  cli.set_model a (strip (MyNote.model_name self))
  = (a1, Ok (cli.n_model (MyNote.n self))) ->
  add_notes_with_template L bold underline dupeOrEmpty editor a self
  = (if dupeOrEmpty a1 (copy_of self)
     then cli.echo
            (cli.echo (cli.echo a1 "Dupe detected, note was not added!")
                      "Question:")
            (hd "" (map strip (cli.n_fields (MyNote.n self))))
     else cli.set_modified (cli.add_to_col a1 (copy_of self)) true,
     Ok [copy_of self]).
Proof.
  intros HL Hp Hed Hset.
  destruct (get_template_parsed L bold underline self HL Hp)
    as (content & Hget & Hparse).
  destruct (plain_note_parts _ self Hp)
    as (Hlen & Hne & Hnames & Hnd & Hres & Hvals & Htags & Hmodel).
  unfold add_notes_with_template. rewrite Hget, Hed. cbn [Z.eqb negb].
  unfold add_notes_from_file. rewrite Hparse.
  unfold cli.add_notes_from_list. cbn [cli.add_notes_loop].
  unfold cli.add_parsed_note, parsed_note.
  replace (dict_get _ "model")
    with (Some (VStr (strip (MyNote.model_name self)))) by reflexivity.
  rewrite Hset.
  replace (dict_get _ "fields")
    with (Some (VDict (combine (cli.flds (cli.n_model (MyNote.n self)))
                         (map strip (cli.n_fields (MyNote.n self))))))
    by reflexivity.
  replace (dict_get _ "tags")
    with (Some (VStr (join " " (cli.n_tags (MyNote.n self)))))
    by reflexivity.
  replace (dict_get _ "markdown") with (Some (VBool false)) by reflexivity.
  destruct (keys_combine (cli.flds (cli.n_model (MyNote.n self)))
              (map strip (cli.n_fields (MyNote.n self))))
    as [Hk Hv]; [now rewrite length_map|].
  rewrite Hk, Hv, Nat.eqb_refl. cbn [negb]. rewrite no_warnings.
  unfold cli._add_note. cbn [cli.truthy].
  rewrite (set_model_current _ _ _ _ Hset).
  assert (Ht : cli.split_tags ("" ++ " " ++ join " " (cli.n_tags (MyNote.n self)))
               = cli.n_tags (MyNote.n self)).
  { unfold cli.split_tags. rewrite split_strip. cbn [append].
    unfold split. cbn [split_from].
    replace (isspace " ") with true by reflexivity. cbn [is_empty].
    now apply split_join. }
  rewrite Ht. fold (copy_of self).
  destruct (dupeOrEmpty a1 (copy_of self)); cbn [negb app].
  - destruct (cli.n_fields (MyNote.n self)); [contradiction | reflexivity].
  - reflexivity.
Qed.

Lemma note_from_template_is_copy_witness :
  add_notes_with_template Reference.libs (fun x => x) (fun x => x)
    (fun _ _ => false) (fun content => (0%Z, content)) basic_collection
    (basic_note ["capital of France?"; "Paris"] ["geo"])
  = (cli.set_modified
       (cli.add_to_col basic_collection
          (cli.mk_note basic_model ["capital of France?"; "Paris"] ["geo"]))
       true,
     Ok [cli.mk_note basic_model ["capital of France?"; "Paris"] ["geo"]]).
Proof.
  exact (note_from_template_is_copy Reference.libs (fun x => x) (fun x => x)
           (fun _ _ => false) (fun content => (0%Z, content))
           basic_collection basic_collection
           (basic_note ["capital of France?"; "Paris"] ["geo"])
           ReferenceFacts.laws eq_refl (fun _ => eq_refl) eq_refl).
Defined.

(** * The screen text of [convert.py] *)

(** The renderer of [convert.py] on a text without [<], backslash,
    non-breaking space and [*}] that is not plain: the HTML is generated
    HTML and the text is extracted from it. *)
Lemma render_simple (L : Libs) (cfg : config) (t : string) :
  LibLaws L -> subfields cfg = None ->
  simple_text t = true -> occurs "*}" t = false -> is_plain t = false ->
  exists html, markdown_to_html L cfg t = Ok html
               /\ is_generated_html L (Some html) = true
               /\ html_to_markdown L html = Ok t.
Proof.
  intros HL Hc Hs Hst Hp. unfold simple_text in Hs.
  apply andb_true_iff in Hs as [Hlt Hne].
  destruct (markdown_to_html_marked L cfg HL t Hp) as (v & Hv & He & Hok & H).
  destruct (soup_attr L HL _ v (rendered_body_tag L cfg HL t) Hok)
    as (tag & Htag & Hget).
  eexists. split; [exact H|]. split.
  - unfold is_generated_html. rewrite Htag.
    unfold dict_contains. now rewrite Hget.
  - unfold html_to_markdown. rewrite Htag, Hget, He.
    rewrite (b64_roundtrip L HL). cbn [bind].
    rewrite (utf8_roundtrip L HL). cbn [bind].
    rewrite escape_id by assumption. f_equal.
    apply restored_id; apply occurs_needs_head; exact Hlt.
Qed.

(** The screen text of [html], when [html] has no style element, the text
    that it holds or stands for is [t], and [t] has none of the characters
    that the screen rewrites. *)
Lemma convert_screen_of (L : Libs) (bold underline : string -> string)
      (prettify_body : string -> string) (html t : string)
      (parseable : bool) :
  occurs "<style>" html = false ->
  (if is_generated_html L (Some html) then html_to_markdown L html
   else Ok html) = Ok t ->
  screen_text parseable t = true ->
  html_to_screen L bold underline prettify_body html true parseable
  = Ok (strip t).
Proof.
  intros Hsty H Ht. unfold html_to_screen. cbn [negb].
  rewrite (sub_style_absent html Hsty). cbv zeta. rewrite H. cbn [bind].
  destruct (screen_text_parts _ _ Ht) as (Hlt & Hamp & Hbs & _ & Hst).
  repeat (rewrite (replace_absent t)
            by first [ apply occurs_needs_head; exact Hlt
                     | apply occurs_needs_head; exact Hamp
                     | apply (occurs_needs_head backslash); exact Hbs ]).
  replace (if is_generated_html L (Some html) then t else t) with t
    by now destruct (is_generated_html L (Some html)).
  rewrite sub_empty_absent by assumption.
  destruct parseable; cbn [negb]; auto.
  destruct (Hst eq_refl) as [Hs Hu].
  rewrite (sub_span_absent "*") by assumption.
  rewrite (sub_span_absent "<" "b>") by exact Hlt.
  rewrite (sub_span_absent "_") by assumption.
  now rewrite (sub_span_absent "<" "i>") by exact Hlt.
Qed.

(** X20: the screen of [convert.py] shows the Markdown source.  Without
    inline styles in the configuration, for a text without [<], [&],
    backslash, non-breaking space and [*}] (and, when the screen text is
    styled, without [*] and [_]), whenever the HTML rendered from it holds
    no [<style>], its screen text is the text, stripped. *)
Theorem convert_screen_shows_source
        (L : Libs) (cfg : config) (bold underline : string -> string)
        (prettify_body : string -> string) (t html : string)
        (parseable : bool) :
  LibLaws L ->
  subfields cfg = None ->
  screen_text parseable t = true ->
  occurs "*}" t = false ->
  markdown_to_html L cfg t = Ok html ->
  occurs "<style>" html = false ->
  html_to_screen L bold underline prettify_body html true parseable
  = Ok (strip t).
Proof.
  intros HL Hc Ht Hst Hm Hsty.
  destruct (screen_text_parts _ _ Ht) as (Hlt & _ & _ & Hne & _).
  apply convert_screen_of; auto.
  destruct (is_plain t) eqn:Hp.
  - unfold markdown_to_html in Hm. rewrite Hp in Hm. injection Hm as <-.
    now rewrite (no_lt_not_generated L t HL Hlt).
  - assert (Hs : simple_text t = true)
      by (unfold simple_text; now rewrite Hlt, Hne).
    destruct (render_simple L cfg t HL Hc Hs Hst Hp)
      as (html' & Hm' & Hgen & Hback).
    rewrite Hm in Hm'. injection Hm' as <-. now rewrite Hgen.
Qed.

Lemma convert_screen_shows_source_witness :
  html_to_screen Reference.libs (fun x => x) (fun x => x) (fun x => x)
    rendered_list true false
  = Ok ("1. one" ++ newline ++ "2. two").
Proof.
  exact (convert_screen_shows_source Reference.libs Reference.no_styles
           (fun x => x) (fun x => x) (fun x => x)
           (" 1. one" ++ newline ++ "2. two" ++ newline) rendered_list false
           ReferenceFacts.laws eq_refl eq_refl eq_refl eq_refl eq_refl).
Defined.

(** * Fields added and read again *)

Lemma py_getitem_nat {A : Type} (l : list A) (i : nat) (x : A) :
  nth_error l i = Some x -> py_getitem l (Z.of_nat i) = Ok x.
Proof.
  intros H. unfold py_getitem, py_position.
  assert (Hi : i < List.length l) by (apply nth_error_Some; congruence).
  destruct (Z.ltb_spec (Z.of_nat i) 0); [lia|].
  destruct (Z.leb_spec 0 (Z.of_nat i)); [|lia].
  destruct (Z.ltb_spec (Z.of_nat i) (Z.of_nat (List.length l))); [|lia].
  cbn [andb]. now rewrite Nat2Z.id, H.
Qed.

(** What [get_field] makes of the stored form of a text. *)
Lemma stored_form_read (L : Libs) (v html : string) :
  LibLaws L -> simple_text v = true ->
  cli.markdown_to_html L v = Ok html ->
  (if is_generated_html L (Some html) then html_to_markdown L html
   else Ok html) = Ok v.
Proof.
  intros HL Hs Hm.
  assert (Hlt : no_lt v = true).
  { unfold simple_text in Hs. now apply andb_true_iff in Hs as [? _]. }
  destruct (is_plain v) eqn:Hp.
  - unfold cli.markdown_to_html in Hm. rewrite Hp in Hm. injection Hm as <-.
    now rewrite (no_lt_not_generated L v HL Hlt).
  - destruct (cli_render_simple L v HL Hs Hp) as (html' & Hm' & Hgen & Hback).
    rewrite Hm in Hm'. injection Hm' as <-. now rewrite Hgen.
Qed.

Lemma map_result_nth {A B : Type} (f : A -> result B) (l : list A)
      (out : list B) (i : nat) (x : A) :
  map_result f l = Ok out -> nth_error l i = Some x ->
  exists y, nth_error out i = Some y /\ f x = Ok y.
Proof.
  revert out i. induction l as [|a l IH]; intros out i H Hn.
  - destruct i; discriminate.
  - cbn [map_result] in H. destruct (f a) as [b|] eqn:Ea; [|discriminate].
    cbn [bind] in H. destruct (map_result f l) as [bs|]; [|discriminate].
    injection H as <-. destruct i as [|i]; simpl in *.
    + injection Hn as <-. eauto.
    + eapply IH; eauto.
Qed.

(** X21: what is added is what is read.  When [_add_note] returns a note,
    with or without the markdown flag, [get_field] on that note returns,
    for each field whose text holds no [<], no backslash and no
    non-breaking space, the text that was given for it. *)
Theorem added_field_is_read
        (L : Libs) (dupeOrEmpty : cli.Anki -> cli.anki_note -> bool)
        (a a' : cli.Anki) (fields : list string) (tags : string)
        (markdown : pyval) (note : cli.anki_note) (id : Z)
        (i : nat) (v : string) :
  LibLaws L ->
  cli._add_note L dupeOrEmpty a fields tags markdown = (a', Ok note) ->
  nth_error fields i = Some v ->
  simple_text v = true ->
  MyNote.get_field L (MyNote.init a' note id) (MyNote.Index (Z.of_nat i))
  = Ok v.
Proof.
  intros HL Hadd Hn Hs. unfold cli._add_note in Hadd.
  assert (Hlt : no_lt v = true).
  { unfold simple_text in Hs. now apply andb_true_iff in Hs as [? _]. }
  assert (Hread : forall fs,
             (if cli.truthy markdown
              then map_result (cli.markdown_to_html L) fields
              else Ok fields) = Ok fs ->
             exists y, nth_error fs i = Some y
                       /\ (if is_generated_html L (Some y)
                           then html_to_markdown L y else Ok y) = Ok v).
  { intros fs Hfs. destruct (cli.truthy markdown).
    - destruct (map_result_nth _ _ _ _ _ Hfs Hn) as (y & Hy & Hm).
      exists y. split; auto. now apply (stored_form_read L v y).
    - injection Hfs as <-. exists v. split; auto.
      now rewrite (no_lt_not_generated L v HL Hlt). }
  destruct (if cli.truthy markdown
            then map_result (cli.markdown_to_html L) fields
            else Ok fields) as [fs|e] eqn:Efs; [|now inversion Hadd].
  destruct (Hread fs eq_refl) as (y & Hy & Hback).
  assert (Hnote : cli.n_fields note = fs).
  { destruct (negb (dupeOrEmpty a _)).
    - now injection Hadd as _ <-.
    - destruct fields; [discriminate|]. now injection Hadd as _ <-. }
  unfold MyNote.get_field, MyNote.init. cbn [bind MyNote.n].
  rewrite Hnote, (py_getitem_nat fs i y Hy). cbn [bind].
  destruct (is_generated_html L (Some y)); auto.
Qed.

Lemma added_field_is_read_witness :
  MyNote.get_field Reference.libs
    (MyNote.init
       (cli.set_modified
          (cli.add_to_col basic_collection
             (cli.mk_note basic_model
                ["q";
                 match cli.markdown_to_html Reference.libs "a *b* c" with
                 | Ok html => html
                 | Raise _ => ""
                 end] ["t"])) true)
       (cli.mk_note basic_model
          ["q";
           match cli.markdown_to_html Reference.libs "a *b* c" with
           | Ok html => html
           | Raise _ => ""
           end] ["t"]) 7)
    (MyNote.Index 1)
  = Ok "a *b* c".
Proof.
  exact (added_field_is_read Reference.libs (fun _ _ => false)
           basic_collection _ ["q"; "a *b* c"] "t" (VBool true) _ 7 1
           "a *b* c" ReferenceFacts.laws eq_refl eq_refl eq_refl).
Defined.

(** * The styled screen text *)

Lemma length_append (a b : string) :
  String.length (a ++ b) = String.length a + String.length b.
Proof. induction a as [|c a IH]; simpl; auto. Qed.

Lemma sub_span_skip (otag ctag : string) (style : string -> string)
      (count : nat) (m s : string) :
  sub_span_from otag ctag style count (String.length m) (m ++ s)
  = sub_span_from otag ctag style count 0 s.
Proof.
  induction m as [|a m IH]; auto.
Qed.

Lemma lazy_group_found (y : ascii) (c g post : string) :
  forallb_str is_dot g = true ->
  forallb_str (fun a => negb (a =? y)%char) g = true ->
  lazy_group (String y c) (g ++ String y c ++ post) = Some g.
Proof.
  intros Hd Hy.
  assert (Ht : lazy_group (String y c) (String y c ++ post) = Some "").
  { cbn [append lazy_group]. unfold startswith. cbn [strip_prefix].
    now rewrite Ascii.eqb_refl, ReferenceFacts.strip_prefix_app. }
  set (t := String y c ++ post) in *. clearbody t.
  induction g as [|a g IH]; [exact Ht|].
  simpl in Hd, Hy. apply andb_true_iff in Hd as [Ha Hd].
  apply andb_true_iff in Hy as [Hay Hy]. apply negb_true_iff in Hay.
  cbn [append lazy_group]. unfold startswith at 1. cbn [strip_prefix].
  rewrite Ascii.eqb_sym, Hay, Ha. now rewrite IH.
Qed.

(** One span in a text that has the first character of the start tag
    nowhere else. *)
Lemma sub_span_one (x y : ascii) (o c : string) (style : string -> string)
      (count : nat) (pre g post : string) :
  forallb_str (fun a => negb (a =? x)%char) pre = true ->
  forallb_str is_dot g = true ->
  forallb_str (fun a => negb (a =? y)%char) g = true ->
  forallb_str (fun a => negb (a =? x)%char) post = true ->
  sub_span (String x o) (String y c) style (S count)
           (pre ++ String x o ++ g ++ String y c ++ post)
  = pre ++ replace (style "\1") "\1" g ++ post.
Proof.
  intros Hpre Hd Hg Hpost. unfold sub_span.
  assert (Hm : sub_span_from (String x o) (String y c) style (S count) 0
                 (String x o ++ g ++ String y c ++ post)
               = replace (style "\1") "\1" g ++ post).
  { pose proof (lazy_group_found y c g post Hd Hg) as Hl.
    assert (Hs : o ++ g ++ String y c ++ post
                 = (o ++ g ++ String y c) ++ post)
      by now rewrite !append_assoc.
    set (rest := g ++ String y c ++ post) in *.
    change (String x o ++ rest) with (String x (o ++ rest)).
    cbn [sub_span_from strip_prefix].
    rewrite Ascii.eqb_refl, ReferenceFacts.strip_prefix_app, Hl. f_equal.
    replace (String.length (String x o) + String.length g
             + String.length (String y c) - 1)
      with (String.length (o ++ g ++ String y c))
      by (rewrite !length_append; cbn [String.length]; lia).
    rewrite Hs, sub_span_skip.
    now apply (sub_span_absent x o (String y c) style count post). }
  set (t := String x o ++ g ++ String y c ++ post) in *.
  assert (Ht : exists r, t = String x r) by (unfold t; cbn [append]; eauto).
  clearbody t. destruct Ht as [r ->].
  induction pre as [|a pre IH]; [exact Hm|].
  simpl in Hpre. apply andb_true_iff in Hpre as [Ha Hpre].
  apply negb_true_iff in Ha.
  cbn [append sub_span_from strip_prefix].
  rewrite Ascii.eqb_sym, Ha. now rewrite (IH Hpre).
Qed.


Lemma forallb_str_apps (p : ascii -> bool) (a b c d e : string) :
  forallb_str p a = true -> forallb_str p b = true ->
  forallb_str p c = true -> forallb_str p d = true ->
  forallb_str p e = true ->
  forallb_str p (a ++ b ++ c ++ d ++ e) = true.
Proof.
  intros Ha Hb Hc Hd He. now rewrite !forallb_str_app, Ha, Hb, Hc, Hd, He.
Qed.

(** X22: a bold span is styled.  In a text without [<], [&], backslash,
    [_] and non-breaking space, with [**] before and after a run of
    characters [g] that holds no [*] and no newline and with no [*]
    elsewhere, the styled screen text has the template of
    [click.style(.., bold=True)] with [g] in it where the span was, provided
    that this styled run holds no [<] and no [_]. *)
Theorem bold_span_is_styled (L : Libs) (bold underline : string -> string)
        (pre g post : string) :
  LibLaws L ->
  screen_text false pre = true -> screen_text false g = true ->
  forallb_str is_dot g = true -> screen_text false post = true ->
  forallb_str (fun c => negb (c =? "<")%char && negb (c =? "_")%char)
              (replace (bold "\1") "\1" g) = true ->
  cli_screen.html_to_screen L bold underline
    (pre ++ "**" ++ g ++ "**" ++ post) false
  = Ok (strip (pre ++ replace (bold "\1") "\1" g ++ post)).
Proof.
  intros HL Hpre Hg Hd Hpost Hx.
  destruct (screen_text_parts _ _ Hpre) as (Hlt1 & Hamp1 & Hbs1 & _ & Hst1).
  destruct (screen_text_parts _ _ Hg) as (Hlt2 & Hamp2 & Hbs2 & _ & Hst2).
  destruct (screen_text_parts _ _ Hpost) as (Hlt3 & Hamp3 & Hbs3 & _ & Hst3).
  destruct (Hst1 eq_refl) as [Hs1 Hu1]. destruct (Hst2 eq_refl) as [Hs2 Hu2].
  destruct (Hst3 eq_refl) as [Hs3 Hu3].
  set (s := pre ++ "**" ++ g ++ "**" ++ post).
  set (X := replace (bold "\1") "\1" g) in *.
  assert (Hlt : no_lt s = true)
    by (apply forallb_str_apps; auto).
  assert (Hamp : forallb_str (fun c => negb (c =? "&")%char) s = true)
    by (apply forallb_str_apps; auto).
  assert (Hbs : forallb_str (fun c => negb (c =? backslash)%char) s = true)
    by (apply forallb_str_apps; auto).
  assert (HX : no_lt X = true
               /\ forallb_str (fun c => negb (c =? "_")%char) X = true).
  { split.
    - apply (forallb_str_weaken _ (fun c => negb (c =? "<")%char) X) in Hx;
        auto. intros c Hc. now apply andb_true_iff in Hc as [? _].
    - apply (forallb_str_weaken _ (fun c => negb (c =? "_")%char) X) in Hx;
        auto. intros c Hc. now apply andb_true_iff in Hc as [_ ?]. }
  destruct HX as [HX1 HX2].
  unfold cli_screen.html_to_screen.
  rewrite (no_lt_not_generated L s HL Hlt). cbn [bind].
  repeat (rewrite (replace_absent s)
            by first [ apply occurs_needs_head; exact Hlt
                     | apply occurs_needs_head; exact Hamp
                     | apply (occurs_needs_head backslash); exact Hbs ]).
  rewrite sub_empty_absent by assumption. cbn [negb].
  unfold s, re_S.
  rewrite (sub_span_one "*" "*" "*" "*" bold 15 pre g post) by assumption.
  fold X.
  assert (Hlt' : no_lt (pre ++ X ++ post) = true).
  { unfold no_lt in *. now rewrite !forallb_str_app, Hlt1, HX1, Hlt3. }
  assert (Hu' : forallb_str (fun c => negb (c =? "_")%char)
                            (pre ++ X ++ post) = true).
  { now rewrite !forallb_str_app, Hu1, HX2, Hu3. }
  rewrite (sub_span_absent "<" "b>") by exact Hlt'.
  rewrite (sub_span_absent "_") by assumption.
  now rewrite (sub_span_absent "<" "i>") by exact Hlt'.
Qed.

Lemma bold_span_is_styled_witness :
  cli_screen.html_to_screen Reference.libs
    (fun x => "[1m" ++ x ++ "[0m") (fun x => "[4m" ++ x ++ "[0m")
    ("the " ++ "**" ++ "main" ++ "**" ++ " point ") false
  = Ok "the [1mmain[0m point".
Proof.
  exact (bold_span_is_styled Reference.libs
           (fun x => "[1m" ++ x ++ "[0m") (fun x => "[4m" ++ x ++ "[0m")
           "the " "main" " point " ReferenceFacts.laws
           eq_refl eq_refl eq_refl eq_refl eq_refl).
Defined.
